(** * intelliflow.api_ext: node lookup, default dimension links, data loading

    A shallow embedding of the parts of [src/intelliflow/api_ext.py] that
    resolve nodes by id ([ApplicationExt.data], [ApplicationExt.__getitem__]),
    infer the default output dimension spec and links of a new data node
    ([AWSApplication._create_or_update_data_with_defaults]), load the
    partitions of a materialized output ([ApplicationExt.load_data]) and stage
    the transient node for a catalog table
    ([AWSApplication._load_external_data]).

    Python functions that may raise return [result]; generators are given by
    the trace of what they log, read and yield, ended by a status. *)

From Stdlib Require Import ZArith List String Ascii Bool Lia.
From Stdlib Require Import DecimalString.
Import ListNotations.
Open Scope string_scope.
Open Scope list_scope.
Open Scope nat_scope.

Set Implicit Arguments.

(** ** Python values shared by the modules below *)

Module Py.

(** The built-in exception classes the module raises or lets escape. The
    payload of a [ValueError] is the text of its message, kept structured:
    one constructor per [raise] site, carrying the values the f-string
    interpolates. *)
Inductive message : Type :=
| MsgAmbiguousData (data_id : string) (mapped : nat)
| MsgAmbiguousTimer (timer_id : string) (mapped : nat)
| MsgAmbiguousMetric (metric_id : string) (mapped : nat)
| MsgAmbiguousAlarm (alarm_id : string) (mapped : nat)
| MsgWrongSliceTypes
| MsgKeyNotStrOrSlice
| MsgNoActiveNode (entity_id : option string) (app_id : string)
| MsgCannotLinkDimension (dim_name : string) (input_alias : option string)
                         (output_id : string)
| MsgNoComputeTargets (output_id : string)
| MsgWrongInputType
| MsgLimitNotPositiveInt
| MsgNotADataFrameFormat (given : string)
| MsgNotMaterialized
| MsgNodeTypeNotSupported
| MsgNotInDevContext (data_id : string)
| MsgCollaborator (what : string).

Inductive exn : Type :=
| ValueError (m : message)
| TypeError
| IndexError
| AttributeError
| NotImplementedError.

Inductive result (A : Type) : Type :=
| Ok (a : A)
| Raise (e : exn).

Arguments Ok {A} a.
Arguments Raise {A} e.

Definition bind {A B} (r : result A) (k : A -> result B) : result B :=
  match r with
  | Ok a => k a
  | Raise e => Raise e
  end.

(** [for x in xs: ys.append(f x)], leaving at the first exception. *)
Fixpoint for_each {A B} (f : A -> result B) (xs : list A)
  : result (list B) :=
  match xs with
  | [] => Ok []
  | x :: xs' =>
      bind (f x) (fun y => bind (for_each f xs') (fun ys => Ok (y :: ys)))
  end.

(** [l[:k]]: a negative [k] counts from the end. *)
Definition slice_to {A} (k : Z) (l : list A) : list A :=
  if (0 <=? k)%Z then firstn (Z.to_nat k) l
  else firstn (List.length l - Z.to_nat (- k)) l.

(** [l[1:]] *)
Definition slice_from_1 {A} (l : list A) : list A := tl l.

End Py.

Import Py.

Notation "x <- r ;; k" := (Py.bind r (fun x => k))
  (at level 61, r at next level, right associativity).

(** ** Node lookup by id: [data], [timer], [metric], [alarm], [__getitem__] *)

Module NodeLookup.

Inductive AlarmType := AlarmALL | AlarmMETRIC | AlarmCOMPOSITE.

Section Lookup.

(** [MarshalerNode] and [MetricSubDimensionMap] are classes of the core
    package; a node object is always truthy. *)
Variable MarshalerNode : Type.
Variable MetricSubDimensionMap : Type.

(** The getters of [Application] (core API) that the extension calls:
    each returns the list of nodes an id maps to in the active context of
    the application and of its upstream applications. *)
Record Application := {
  app_id : string;
  get_data : string -> list MarshalerNode;
  get_timer : string -> list MarshalerNode;
  get_metric : string -> option MetricSubDimensionMap -> list MarshalerNode;
  get_alarm : string -> AlarmType -> list MarshalerNode
}.

(** The body shared, up to the message, by the four accessors:
    [if marshalers: if len(marshalers) > 1: raise ...; return marshalers[0]]
    and the implicit [return None] otherwise. *)
Definition unique_or_none (marshalers : list MarshalerNode)
           (ambiguous : nat -> message)
  : result (option MarshalerNode) :=
  match marshalers with
  | [] => Ok None
  | m0 :: _ =>
      if 1 <? List.length marshalers
      then Raise (ValueError (ambiguous (List.length marshalers)))
      else Ok (Some m0)
  end.

Definition data (self : Application) (data_id : string) :=
  unique_or_none (get_data self data_id) (MsgAmbiguousData data_id).

Definition timer (self : Application) (timer_id : string) :=
  unique_or_none (get_timer self timer_id) (MsgAmbiguousTimer timer_id).

Definition metric (self : Application) (metric_id : string)
           (sub_dimensions : option MetricSubDimensionMap) :=
  unique_or_none (get_metric self metric_id sub_dimensions)
                 (MsgAmbiguousMetric metric_id).

Definition alarm (self : Application) (alarm_id : string)
           (alarm_type : AlarmType) :=
  unique_or_none (get_alarm self alarm_id alarm_type)
                 (MsgAmbiguousAlarm alarm_id).

(** The argument of [__getitem__]: a [str], a [slice] (of which only
    [start] and [stop] are read) or anything else. *)
Inductive SliceStop :=
| StopSubDimensions (m : MetricSubDimensionMap)
| StopAlarmType (t : AlarmType)
| StopOther.

Inductive EntityKey :=
| KeyStr (entity_id : string)
| KeySlice (start : option string) (stop : SliceStop)
| KeyOther.

(** What a Python call hands back: the returned object, where [None] is
    the value of a call that falls off the end of its body. *)
Definition __getitem__ (self : Application) (entity_id_or_slice : EntityKey)
  : result (option MarshalerNode) :=
  let not_found entity_id :=
    Raise (ValueError (MsgNoActiveNode entity_id (app_id self))) in
  match entity_id_or_slice with
  | KeyStr entity_id =>
      m <- data self entity_id ;;
      match m with
      | Some n => Ok (Some n)
      | None =>
          m <- timer self entity_id ;;
          match m with
          | Some n => Ok (Some n)
          | None =>
              m <- metric self entity_id None ;;
              match m with
              | Some n => Ok (Some n)
              | None =>
                  m <- alarm self entity_id AlarmALL ;;
                  match m with
                  | Some n => Ok (Some n)
                  | None => not_found (Some entity_id)
                  end
              end
          end
      end
  | KeySlice start stop =>
      match start, stop with
      | Some entity_id, StopSubDimensions resolver_param =>
          m <- metric self entity_id (Some resolver_param) ;;
          match m with
          | Some n => Ok (Some n)
          | None => not_found start
          end
      | Some entity_id, StopAlarmType resolver_param =>
          m <- alarm self entity_id resolver_param ;;
          match m with
          | Some n => Ok (Some n)
          | None => not_found start
          end
      | _, _ => Raise (ValueError MsgWrongSliceTypes)
      end
  | KeyOther => Raise (ValueError MsgKeyNotStrOrSlice)
  end.

End Lookup.

Arguments KeyStr {MetricSubDimensionMap} entity_id.
Arguments KeySlice {MetricSubDimensionMap} start stop.
Arguments KeyOther {MetricSubDimensionMap}.
Arguments StopAlarmType {MetricSubDimensionMap} t.
Arguments StopOther {MetricSubDimensionMap}.

End NodeLookup.

(** ** Default output dimension spec and links of a new data node *)

Module DimLinks.

(** Values a dimension can take ([str], [int]; a date is kept as its
    formatted text). *)
Inductive Value :=
| VStr (s : string)
| VInt (z : Z).

Inductive DimType := TypeSTRING | TypeLONG | TypeDATETIME.

Record Dimension := {
  dim_name : string;
  dim_type : DimType
}.

#[local] Unset Elimination Schemes.

(** Modelled from the spec: [DimensionSpec] of
    [core.signal_processing.dimension_constructs] is not part of the sources
    at hand. Its shape is the one [ApplicationExt._create_spec] builds with
    [spec.add_dimension(Dimension(...), sub_spec)]: an ordered collection of
    dimensions, each with an optional nested spec. Dimension names are the
    keys of the flattened map and so differ within one spec. *)
Inductive DimensionSpec :=
| DimensionSpecOf (dims : list (Dimension * option DimensionSpec)).
#[local] Set Elimination Schemes.

(** Structural induction through the nested specs. *)
Section DimensionSpecInduction.

Variable P : DimensionSpec -> Prop.

Definition nested_holds (entry : Dimension * option DimensionSpec) : Prop :=
  match snd entry with
  | Some s => P s
  | None => True
  end.

Hypothesis step :
  forall dims, Forall nested_holds dims -> P (DimensionSpecOf dims).

Fixpoint DimensionSpec_nested_ind (spec : DimensionSpec) : P spec :=
  match spec with
  | DimensionSpecOf dims =>
      step
        ((fix each (l : list (Dimension * option DimensionSpec))
           : Forall nested_holds l :=
            match l with
            | [] => Forall_nil _
            | (d, sub) :: rest =>
                @Forall_cons _ nested_holds (d, sub) rest
                  (match sub return nested_holds (d, sub) with
                   | Some s => DimensionSpec_nested_ind s
                   | None => I
                   end)
                  (each rest)
            end) dims)
  end.

End DimensionSpecInduction.

(** Modelled from the spec: [DimensionVariant], with the materiality
    predicate of the filter algebra ([is_material_value]) recorded as a
    field: a literal value is material, a wildcard or a relative range is
    not. *)
Record DimensionVariant := {
  var_name : string;
  var_type : DimType;
  var_value : Value;
  is_material_value : bool
}.

(** Modelled from the spec: [DimensionFilter], the variants of a signal's
    filter in declaration order. *)
Definition DimensionFilter := list DimensionVariant.

(** [ApplicationExt._create_spec]: one dimension per level, in the order
    of the variants. *)
Fixpoint _create_spec (variants : list DimensionVariant)
  : option DimensionSpec :=
  match variants with
  | [] => None
  | dimension_variant :: rest =>
      Some (DimensionSpecOf
              [({| dim_name := var_name dimension_variant;
                   dim_type := var_type dimension_variant |},
                _create_spec rest)])
  end.

(** Modelled from the spec: [DimensionSpec.get_flattened_dimension_map], the
    dimensions of a spec keyed by name, a dimension before the dimensions
    nested under it and before its later siblings (declaration order). *)
Fixpoint get_flattened_dimension_map (spec : DimensionSpec)
  : list (string * Dimension) :=
  match spec with
  | DimensionSpecOf dims =>
      (fix siblings (l : list (Dimension * option DimensionSpec)) :=
         match l with
         | [] => []
         | (d, sub) :: rest =>
             (dim_name d, d)
               :: match sub with
                  | Some s => get_flattened_dimension_map s
                  | None => []
                  end
               ++ siblings rest
         end) dims
  end.

(** Modelled from the spec: [DimensionSpec.find_dimension_by_name], the
    first dimension of that name in the same order, [None] when there is
    none. *)
Fixpoint spec_find_dimension_by_name (spec : DimensionSpec) (name : string)
  : option Dimension :=
  match spec with
  | DimensionSpecOf dims =>
      (fix siblings (l : list (Dimension * option DimensionSpec)) :=
         match l with
         | [] => None
         | (d, sub) :: rest =>
             if String.eqb name (dim_name d) then Some d
             else
               match match sub with
                     | Some s => spec_find_dimension_by_name s name
                     | None => None
                     end with
               | Some found => Some found
               | None => siblings rest
               end
         end) dims
  end.

(** The same two functions on an optional nested spec. *)
Definition nested_map (sub : option DimensionSpec)
  : list (string * Dimension) :=
  match sub with
  | Some s => get_flattened_dimension_map s
  | None => []
  end.

Definition nested_find (sub : option DimensionSpec) (name : string)
  : option Dimension :=
  match sub with
  | Some s => spec_find_dimension_by_name s name
  | None => None
  end.

(** Modelled from the spec: [DimensionFilter.find_dimension_by_name]. *)
Definition filter_find_dimension_by_name (filter : DimensionFilter)
           (name : string) : option DimensionVariant :=
  find (fun v => String.eqb name (var_name v)) filter.

Record SignalDomainSpec := {
  dimension_spec : DimensionSpec;
  dimension_filter_spec : DimensionFilter
}.

(** [Signal], with the fields the resolver reads. *)
Record Signal := {
  alias : option string;
  is_dependent : bool;
  domain_spec : SignalDomainSpec
}.

(** Modelled from the spec: [Signal.clone(alias)], the same signal under
    another alias. *)
Definition clone (s : Signal) (new_alias : option string) : Signal :=
  {| alias := new_alias;
     is_dependent := is_dependent s;
     domain_spec := domain_spec s |}.

(** [SignalDimensionTuple(signal, dimension)]; the dimension is whatever
    [find_dimension_by_name] returned. *)
Record SignalDimensionTuple := {
  sdt_signal : Signal;
  sdt_dimension : option Dimension
}.

Definition DimensionVariantMapFunc := Value -> Value.

(** Either side of an output link. *)
Inductive LinkEnd :=
| OutputDimension (name : string)
| OutputDimensions (names : list string)
| InputDimension (t : SignalDimensionTuple)
| Literal (v : Value).

(** [(target, mapper, source)]; the mapper [None] is the identity. *)
Definition Link := (LinkEnd * option DimensionVariantMapFunc * LinkEnd)%type.

(** [inputs]: a list, or a dict whose values count in insertion order. *)
Inductive Inputs :=
| InputsList (l : list Signal)
| InputsDict (d : list (string * Signal)).

(** [all_signals]; [_get_input_signal] has already turned each node or
    view into its signal. *)
Definition all_signals_of (inputs : Inputs) : list Signal :=
  match inputs with
  | InputsList l => l
  | InputsDict d => map snd d
  end.

(** Links of an independent first input (lines 993-1002). *)
Definition identity_links (output_signal : Signal) : list Link :=
  map (fun dim_name =>
         (OutputDimension dim_name, None,
          InputDimension
            {| sdt_signal := output_signal;
               sdt_dimension :=
                 spec_find_dimension_by_name
                   (dimension_spec (domain_spec output_signal)) dim_name |}))
      (map fst (get_flattened_dimension_map
                  (dimension_spec (domain_spec output_signal)))).

(** The inner [for other_indep_input in independent_signals] loop with its
    [break] (lines 1019-1024). *)
Fixpoint link_from_independent (dim_name : string)
         (independent_signals : list Signal) : option Link :=
  match independent_signals with
  | [] => None
  | other_indep_input :: rest =>
      match spec_find_dimension_by_name
              (dimension_spec (domain_spec other_indep_input)) dim_name with
      | Some other_dim =>
          Some (OutputDimension dim_name, None,
                InputDimension
                  {| sdt_signal := clone other_indep_input None;
                     sdt_dimension := Some other_dim |})
      | None => link_from_independent dim_name rest
      end
  end.

(** One round of the loop over the flattened dimensions of a dependent
    first input (lines 1008-1030). A filter without a variant of that name
    makes [dim_variant] [None], and the method call on it fails. *)
Definition link_dependent_dimension (id : string) (first_signal : Signal)
           (output_signal : Signal) (independent_signals : list Signal)
           (entry : string * Dimension) : result Link :=
  let dim_name := fst entry in
  match filter_find_dimension_by_name
          (dimension_filter_spec (domain_spec output_signal)) dim_name with
  | None => Raise AttributeError
  | Some dim_variant =>
      if is_material_value dim_variant
      then Ok (OutputDimension dim_name, None, Literal (var_value dim_variant))
      else
        match link_from_independent dim_name independent_signals with
        | None =>
            Raise (ValueError
                     (MsgCannotLinkDimension dim_name (alias first_signal) id))
        | Some link => Ok link
        end
  end.

Definition dependent_links (id : string) (first_signal : Signal)
           (all_signals : list Signal) : result (list Link) :=
  let output_signal := clone first_signal None in
  let independent_signals :=
    filter (fun input => negb (is_dependent input)) all_signals in
  for_each
    (link_dependent_dimension id first_signal output_signal
                              independent_signals)
    (get_flattened_dimension_map
       (dimension_spec (domain_spec output_signal))).

(** [other] is the first input, in declaration order, that is independent
    and has a dimension [d] of that name. *)
Definition first_independent_exposing (name : string)
           (all_signals : list Signal) (other : Signal) (d : Dimension)
  : Prop :=
  exists before after,
    all_signals = before ++ other :: after
    /\ is_dependent other = false
    /\ spec_find_dimension_by_name (dimension_spec (domain_spec other)) name
       = Some d
    /\ Forall (fun s =>
                 is_dependent s = true
                 \/ spec_find_dimension_by_name
                      (dimension_spec (domain_spec s)) name = None)
              before.

(** Truthiness of [output_dim_links]: [None] and the empty sequence are
    both false. *)
Definition links_given (output_dim_links : option (list Link)) : bool :=
  match output_dim_links with
  | None | Some [] => false
  | Some (_ :: _) => true
  end.

(** Lines 975-1034 of [_create_or_update_data_with_defaults]: the output
    dimension spec and the output links handed on to
    [Application.create_data] / [update_data]. *)
Definition default_output_dimensions (id : string) (inputs : option Inputs)
           (output_dimension_spec : option DimensionSpec)
           (output_dim_links : option (list Link))
  : result (DimensionSpec * option (list Link)) :=
  match output_dimension_spec with
  | Some spec => Ok (spec, output_dim_links)
  | None =>
      match option_map all_signals_of inputs with
      | Some ((first_signal :: _) as all_signals) =>
          let output_dimension_spec :=
            dimension_spec (domain_spec first_signal) in
          if links_given output_dim_links
          then Ok (output_dimension_spec, output_dim_links)
          else
            let output_signal := clone first_signal None in
            if negb (is_dependent output_signal)
            then Ok (output_dimension_spec,
                     Some (identity_links output_signal))
            else
              links <- dependent_links id first_signal all_signals ;;
              Ok (output_dimension_spec, Some links)
      | _ => Ok (DimensionSpecOf [], Some [])
      end
  end.

(** Compute targets: the code of one batch job, or descriptors. *)
Inductive ComputeTargets :=
| TargetCode (code : string)
| TargetDescriptors (descriptors : list string).

Inductive GlueWorkerType := G_1X | G_2X | Standard.

Inductive ComputeDescriptor :=
| GlueBatchCompute (code : string) (worker_type : GlueWorkerType)
                   (number_of_workers : Z) (timeout : Z)
| Descriptor (d : string).

(** What is passed on to [Application.create_data] or [update_data]. *)
Record DataNodeArgs := {
  arg_id : string;
  arg_output_dimension_spec : DimensionSpec;
  arg_output_dim_links : list Link;
  arg_compute_targets : list ComputeDescriptor
}.

(** Lines 975-1044: the arguments the call makes up. [Ok] holds what is
    handed to [Application.create_data] or [update_data]; that call, which
    can raise as well, is in [CreateData]. *)
Definition _create_or_update_data_with_defaults (id : string)
           (inputs : option Inputs)
           (output_dimension_spec : option DimensionSpec)
           (output_dim_links : option (list Link))
           (compute_targets : option ComputeTargets)
  : result DataNodeArgs :=
  defaults <- default_output_dimensions id inputs
                output_dimension_spec output_dim_links ;;
  let '(spec, links) := defaults in
  match compute_targets with
  | None | Some (TargetCode "") | Some (TargetDescriptors []) =>
      Raise (ValueError (MsgNoComputeTargets id))
  | Some targets =>
      Ok {| arg_id := id;
            arg_output_dimension_spec := spec;
            arg_output_dim_links :=
              if links_given links
              then match links with Some l => l | None => [] end
              else [];
            arg_compute_targets :=
              match targets with
              | TargetCode code =>
                  [GlueBatchCompute code G_1X 100 (12 * 60)]
              | TargetDescriptors ds => map Descriptor ds
              end |}
  end.

End DimLinks.

(** ** [ApplicationExt.load_data] *)

Module LoadData.

(** A decoded record and a physical partition [(physical_path, data)]. *)
Definition Row := list string.
Definition Partition := (string * string)%type.

Inductive DataFrameFormat := SPARK | PANDAS | ORIGINAL.

Definition ascii_upper (c : ascii) : ascii :=
  let n := nat_of_ascii c in
  if (97 <=? n) && (n <=? 122) then ascii_of_nat (n - 32) else c.

(** [str.upper] on ASCII text. [str.upper] knows Unicode: on text with
    other characters it is not this function. *)
Fixpoint upper (s : string) : string :=
  match s with
  | EmptyString => EmptyString
  | String c s' => String (ascii_upper c) (upper s')
  end.

(** [DataFrameFormat(value)]: the enum member of that value. *)
Definition DataFrameFormat_of (value : string) : result DataFrameFormat :=
  if String.eqb value "SPARK" then Ok SPARK
  else if String.eqb value "PANDAS" then Ok PANDAS
  else if String.eqb value "ORIGINAL" then Ok ORIGINAL
  else Raise (ValueError (MsgNotADataFrameFormat value)).

(** [DatasetSignalSourceFormat], compared case-insensitively by the code. *)
Inductive DatasetSignalSourceFormat :=
| CSV
| PARQUET
| JSON
| OtherDataFormat (name : string).

(** The fields of [DatasetSignalSourceAccessSpec] read by [load_data]. *)
Record DatasetSignalSourceAccessSpec := {
  data_format : DatasetSignalSourceFormat;
  data_delimiter : option string;
  data_encoding : string;
  data_header_exists : bool;
  data_compression : option string
}.

Inductive NodeBound :=
| InternalDataNode (data_id : string)
| ExternalDataNode (data_id : string)
| OtherNode.

Record MarshalerNode := { bound : NodeBound }.

(** The [output] argument. *)
Inductive Output :=
| MarshalingView (marshaler_node : MarshalerNode)
| Marshaler (node : MarshalerNode)
| NotANode.

(** The [limit] argument when it is not [None]. A [bool] is an [int] in
    Python ([True] is 1, [False] is 0). *)
Inductive LimitArg :=
| IntLimit (n : Z)
| NotAnInt.

(** What the collaborators of one call answer: the materialized signal of
    the output ([_get_input_signal]), [Application.poll],
    [Storage.load_internal], [Application.materialize] and
    [_load_external_data]. The iterators are exhausted without an
    exception here, and the library calls of the decoders raise nothing;
    [LoadDataRaising] has the runs in which they do. *)
Record Collaborators := {
  dimension_values : string;
  is_material : bool;
  resource_access_spec : DatasetSignalSourceAccessSpec;
  poll : option string;
  load_internal : list Partition;
  materialize : string;
  load_external_data : result (list Partition)
}.

Inductive LogRecord :=
| LogWrongInput
| LogCheckingExistence (data_id values : string)
| LogOutputAbsent (data_id values : string)
| LogNotMaterialized (data_id : string)
| LogNodeTypeNotSupported
| LogLoading (limit : option Z) (materialized_path : option string)
| LogReturningPart (physical_path : string) (retrieved_so_far : Z)
| LogRetrieved (records : Z)
| LogTransformationNotSupported.

(** What the generator hands to its consumer. *)
Inductive Item :=
| NoneItem
| DataFrame (rows : list Row)
| CsvRows (rows : list Row)
| RawPartition (p : Partition).

(** The generator seen from outside: the records it logs, the partitions it
    pulls from [data_it] and the items it yields, in order. *)
Inductive Event :=
| Log (r : LogRecord)
| Read (physical_path : string)
| Yield (i : Item).

Inductive Status :=
| Returned
| Raised (e : exn)
| HandedToSpark.

Definition Trace := (list Event * Status)%type.

Definition emit (e : Event) (t : Trace) : Trace := (e :: fst t, snd t).
Definition emits (es : list Event) (t : Trace) : Trace :=
  (es ++ fst t, snd t).

Definition yielded (t : Trace) : list Item :=
  flat_map (fun e => match e with Yield i => [i] | _ => [] end) (fst t).

Definition partitions_read (t : Trace) : list string :=
  flat_map (fun e => match e with Read p => [p] | _ => [] end) (fst t).

Definition len {A} (l : list A) : Z := Z.of_nat (List.length l).

(** [read] is the shortest run of leading partitions whose records, added
    to the [gathered] ones, reach the limit, or all the partitions when
    the limit is not reached: reading stopped where the counter reached the
    limit. *)
Definition stops_at_limit {P} (rows_of : list P -> Z) (limit gathered : Z)
           (parts read : list P) : Prop :=
  exists unread,
    parts = read ++ unread
    /\ (forall shorter p, read = shorter ++ [p] ->
                          (gathered + rows_of shorter < limit)%Z)
    /\ (unread <> [] -> (limit <= gathered + rows_of read)%Z).

(** Lines 528-534 and 652-657, after [retrieved_so_far] was increased:
    [(stop, rows, retrieved_so_far)]. *)
Definition apply_limit (limit : option Z) (retrieved_so_far : Z)
           (rows : list Row) : bool * list Row * Z :=
  match limit with
  | Some limit =>
      if (limit <=? retrieved_so_far)%Z
      then
        if (limit <? retrieved_so_far)%Z
        then (true, slice_to (limit - retrieved_so_far) rows, limit)
        else (true, rows, retrieved_so_far)
      else (false, rows, retrieved_so_far)
  | None => (false, rows, retrieved_so_far)
  end.

Section Decoders.

(** The library calls that turn a payload into records:
    [list(csv.reader(data.decode(data_encoding).splitlines()))],
    [pd.read_csv] without [nrows], [pd.read_parquet] ([None] when it
    raises the [ValueError] the code catches) and [pd.read_json]. *)
Variable csv_reader : string -> list Row.
Variable pd_read_csv : string -> list Row.
Variable pd_read_parquet : string -> option (list Row).
Variable pd_read_json : string -> list Row.

Inductive Decoded :=
| Frame (df : list Row)
| Skipped
| Failed (e : exn).

(** Lines 507-526. [limit - retrieved_so_far] is evaluated for a CSV
    payload whatever [limit] is; inside the loop the counter is below the
    limit, so [nrows] is positive. *)
Definition pandas_decode (format : DatasetSignalSourceFormat)
           (limit : option Z) (retrieved_so_far : Z) (data : string)
  : Decoded :=
  match format with
  | CSV =>
      match limit with
      | None => Failed TypeError
      | Some limit =>
          Frame (firstn (Z.to_nat (limit - retrieved_so_far))
                        (pd_read_csv data))
      end
  | PARQUET =>
      match pd_read_parquet data with
      | Some df => Frame df
      | None => Skipped
      end
  | JSON => Frame (pd_read_json data)
  | OtherDataFormat _ => Failed NotImplementedError
  end.

(** Lines 547-552. *)
Definition pandas_merge (iterate : bool) (pandas_df_list : list (list Row))
  : Trace :=
  if iterate then ([], Returned)
  else
    match pandas_df_list with
    | [] => ([], Raised IndexError)
    | df0 :: _ =>
        let merged_df :=
          if 1 <? List.length pandas_df_list
          then List.concat pandas_df_list else df0 in
        ([Log (LogRetrieved (len merged_df)); Yield (DataFrame merged_df)],
         Returned)
    end.

(** Lines 502-546: the loop over [data_it]. *)
Fixpoint pandas_loop (format : DatasetSignalSourceFormat)
         (limit : option Z) (iterate : bool) (data_it : list Partition)
         (pandas_df_list : list (list Row)) (retrieved_so_far : Z)
  : Trace :=
  match data_it with
  | [] => pandas_merge iterate pandas_df_list
  | (physical_path, data) :: rest =>
      emit (Read physical_path)
        (if String.eqb data ""
         then pandas_loop format limit iterate rest
                          pandas_df_list retrieved_so_far
         else
           match pandas_decode format limit retrieved_so_far data with
           | Failed e => ([], Raised e)
           | Skipped => pandas_loop format limit iterate rest
                                    pandas_df_list retrieved_so_far
           | Frame df =>
               let '(stop, df, retrieved_so_far) :=
                 apply_limit limit (retrieved_so_far + len df) df in
               if iterate
               then
                 emits [Log (LogReturningPart physical_path
                                              retrieved_so_far);
                        Yield (DataFrame df)]
                   (if stop then pandas_merge iterate pandas_df_list
                    else pandas_loop format limit iterate rest
                                     pandas_df_list retrieved_so_far)
               else
                 if stop
                 then pandas_merge iterate (pandas_df_list ++ [df])
                 else pandas_loop format limit iterate rest
                                  (pandas_df_list ++ [df])
                                  retrieved_so_far
           end)
  end.

(** Lines 677-679. *)
Definition csv_merge (iterate : bool) (all_data : list Row) : Trace :=
  if iterate then ([], Returned)
  else ([Log (LogRetrieved (len all_data)); Yield (CsvRows all_data)],
        Returned).

(** Line 668: [data_header_exists and len(all_data) > 0 and
    all_data[0] == csv_data[0]], evaluated left to right. *)
Definition same_header (data_header_exists : bool)
           (all_data csv_data : list Row) : result bool :=
  if data_header_exists
  then
    match all_data with
    | [] => Ok false
    | header :: _ =>
        match csv_data with
        | [] => Raise IndexError
        | first :: _ =>
            Ok (if list_eq_dec string_dec header first then true else false)
        end
    end
  else Ok false.

(** Lines 647-675: the loop over [data_it]; [limit] is the limit already
    increased for the header. *)
Fixpoint csv_loop (data_header_exists : bool) (limit : option Z)
         (iterate : bool) (data_it : list Partition)
         (all_data : list Row) (retrieved_so_far : Z) : Trace :=
  match data_it with
  | [] => csv_merge iterate all_data
  | (physical_path, data) :: rest =>
      emit (Read physical_path)
        (if String.eqb data ""
         then csv_loop data_header_exists limit iterate rest
                       all_data retrieved_so_far
         else
           let csv_data := csv_reader data in
           let '(stop, csv_data, retrieved_so_far) :=
             apply_limit limit (retrieved_so_far + len csv_data) csv_data in
           if iterate
           then
             match csv_data with
             | [] => ([], Raised IndexError)
             | _ :: _ =>
                 emits [Log (LogReturningPart physical_path
                                              retrieved_so_far);
                        Yield (CsvRows csv_data)]
                   (if stop then csv_merge iterate all_data
                    else csv_loop data_header_exists limit iterate rest
                                  all_data retrieved_so_far)
             end
           else
             match same_header data_header_exists all_data csv_data with
             | Raise e => ([], Raised e)
             | Ok skip =>
                 let all_data :=
                   all_data
                     ++ (if skip then slice_from_1 csv_data else csv_data) in
                 if stop then csv_merge iterate all_data
                 else csv_loop data_header_exists limit iterate rest
                               all_data retrieved_so_far
             end)
  end.

(** Line 646: [limit = limit if not data_header_exists else limit + 1]. *)
Definition csv_limit (data_header_exists : bool) (limit : option Z)
  : result (option Z) :=
  if negb data_header_exists then Ok limit
  else
    match limit with
    | Some limit => Ok (Some (limit + 1)%Z)
    | None => Raise TypeError
    end.

(** Line 683: [yield from data_it]. *)
Fixpoint yield_from (data_it : list Partition) : Trace :=
  match data_it with
  | [] => ([], Returned)
  | (physical_path, data) :: rest =>
      emits [Read physical_path; Yield (RawPartition (physical_path, data))]
            (yield_from rest)
  end.

(** Lines 490-683: decoding, the same for internal and external data. *)
Definition decode_partitions (limit : option Z)
           (format : option DataFrameFormat) (iterate : bool)
           (materialized_path : option string)
           (dataset_access_spec : DatasetSignalSourceAccessSpec)
           (data_it : list Partition) : Trace :=
  emit (Log (LogLoading limit materialized_path))
    match format with
    | Some PANDAS =>
        pandas_loop (data_format dataset_access_spec) limit iterate
                    data_it [] 0%Z
    | Some SPARK => ([], HandedToSpark)
    | _ =>
        match data_format dataset_access_spec with
        | CSV =>
            match csv_limit (data_header_exists dataset_access_spec)
                            limit with
            | Raise e => ([], Raised e)
            | Ok limit =>
                csv_loop (data_header_exists dataset_access_spec) limit
                         iterate data_it [] 0%Z
            end
        | _ =>
            emits [Log LogTransformationNotSupported] (yield_from data_it)
        end
    end.

(** Line 447. *)
Definition check_limit (limit : option LimitArg) : result (option Z) :=
  match limit with
  | None => Ok None
  | Some NotAnInt => Raise (ValueError MsgLimitNotPositiveInt)
  | Some (IntLimit n) =>
      if (n <=? 0)%Z then Raise (ValueError MsgLimitNotPositiveInt)
      else Ok (Some n)
  end.

(** Lines 450-451. *)
Definition check_format (format : option string)
  : result (option DataFrameFormat) :=
  match format with
  | None | Some "" => Ok None
  | Some f => f' <- DataFrameFormat_of (upper f) ;; Ok (Some f')
  end.

(** The generator run to its end. A consumer that stops asking sees a
    prefix of the trace that ends in a [Yield]. The Spark branch (lines
    553-637) is left to the Spark session: [HandedToSpark]. *)
Definition load_data (output : Output) (limit : option LimitArg)
           (format : option string) (iterate : bool)
           (env : Collaborators) : Trace :=
  match match output with
        | MarshalingView marshaler_node => Some marshaler_node
        | Marshaler node => Some node
        | NotANode => None
        end with
  | None => ([Log LogWrongInput], Raised (ValueError MsgWrongInputType))
  | Some node =>
      match check_limit limit with
      | Raise e => ([], Raised e)
      | Ok limit =>
          match check_format format with
          | Raise e => ([], Raised e)
          | Ok format =>
              match bound node with
              | InternalDataNode data_id =>
                  emit (Log (LogCheckingExistence
                               data_id (dimension_values env)))
                    (emits
                       match poll env with
                       | None =>
                           [Log (LogOutputAbsent
                                   data_id (dimension_values env));
                            Yield NoneItem]
                       | Some _ => []
                       end
                       (decode_partitions limit format iterate (poll env)
                          (resource_access_spec env) (load_internal env)))
              | ExternalDataNode data_id =>
                  if negb (is_material env)
                  then ([Log (LogNotMaterialized data_id)],
                        Raised (ValueError MsgNotMaterialized))
                  else
                    match load_external_data env with
                    | Raise e => ([], Raised e)
                    | Ok data_it =>
                        decode_partitions limit format iterate
                          (Some (materialize env))
                          (resource_access_spec env) data_it
                    end
              | OtherNode =>
                  ([Log LogNodeTypeNotSupported],
                   Raised (ValueError MsgNodeTypeNotSupported))
              end
          end
      end
  end.

(** What a load can draw on: the records of the partitions with a
    payload, in partition order, as the CSV reader and as pandas decode
    them. *)
Definition csv_records (data_it : list Partition) : list Row :=
  flat_map (fun p => if String.eqb (snd p) "" then []
                     else csv_reader (snd p)) data_it.

Definition pandas_frame (format : DatasetSignalSourceFormat)
           (data : string) : list (list Row) :=
  match format with
  | CSV => [pd_read_csv data]
  | PARQUET =>
      match pd_read_parquet data with
      | Some df => [df]
      | None => []
      end
  | JSON => [pd_read_json data]
  | OtherDataFormat _ => []
  end.

Definition pandas_frames (format : DatasetSignalSourceFormat)
           (data_it : list Partition) : list (list Row) :=
  flat_map (fun p => if String.eqb (snd p) "" then []
                     else pandas_frame format (snd p)) data_it.

Definition csv_count (data_it : list Partition) : Z :=
  len (csv_records data_it).

Definition pandas_count (format : DatasetSignalSourceFormat)
           (data_it : list Partition) : Z :=
  len (List.concat (pandas_frames format data_it)).

End Decoders.

End LoadData.

(** ** [AWSApplication._load_external_data] *)

Module TransientLoad.

Definition Partition := (string * string)%type.

Inductive SignalSourceType := S3 | GLUE_TABLE | OtherSource.

(** [Storage.delete_internal]: it answers [True] or [False], or raises. *)
Inductive DeleteOutcome := Deleted | NotDeleted | DeleteRaised.

(** How the caller uses the generator: it iterates to the end, or it takes
    [n] partitions and closes the generator (also what dropping the last
    reference to it does). *)
Inductive Consumer :=
| Exhaust
| CloseAfter (n : nat).

Inductive Exit :=
| Exhausted
| Closed
| Failed (e : exn).

Inductive LogRecord :=
| LogNotInDevContext (data_id : string)
| LogCleanupProblems (data_id : string)
| LogResidualPaths.

(** What the collaborators of one call answer. [s3_objects] is what lines
    1103-1110 yield, taken as it comes: for every materialized path and
    every object listed under it, the pair of path/key and body. *)
Record Collaborators := {
  source : SignalSourceType;
  s3_objects : list Partition;
  in_dev_context : bool;
  create_data_raises : option exn;
  execute_raises : option exn;
  load_internal : list Partition;
  load_internal_raises_after : option (nat * exn);
  delete_internal : DeleteOutcome
}.

(** The partitions the consumer receives from a source that can produce
    [available] and then ends with [fin]. *)
Definition consume (c : Consumer) (available : list Partition) (fin : Exit)
  : list Partition * Exit :=
  match c with
  | Exhaust => (available, fin)
  | CloseAfter n =>
      if n <=? List.length available
      then (firstn n available, Closed)
      else (available, fin)
  end.

Section Session.

(** A development or active context: the nodes of the application. *)
Variable Context : Type.

(** Modelled from the spec: the session of [Application] (core API, not
    among the sources at hand): the context under development, the
    activated context if the application was ever activated, whether the
    application is running (activated and not paused), and the single slot
    that holds a saved development state. *)
Record Session := {
  dev_context : Context;
  active_context : option Context;
  running : bool;
  saved_dev_state : option Context
}.

(** Modelled from the spec: [save_dev_state] captures the pending edits in
    the single slot. *)
Definition save_dev_state (self : Session) : Session :=
  {| dev_context := dev_context self;
     active_context := active_context self;
     running := running self;
     saved_dev_state := Some (dev_context self) |}.

(** Modelled from the spec: [load_dev_state] restores the captured edits
    and discards the slot. *)
Definition load_dev_state (self : Session) : Session :=
  {| dev_context := match saved_dev_state self with
                    | Some saved => saved
                    | None => dev_context self
                    end;
     active_context := active_context self;
     running := running self;
     saved_dev_state := None |}.

(** Modelled from the spec: [activate] makes the context under development
    the active one and runs it. *)
Definition activate (self : Session) : Session :=
  {| dev_context := dev_context self;
     active_context := Some (dev_context self);
     running := true;
     saved_dev_state := saved_dev_state self |}.

(** Modelled from the spec: [pause] stops a running application. *)
Definition pause (self : Session) : Session :=
  {| dev_context := dev_context self;
     active_context := active_context self;
     running := false;
     saved_dev_state := saved_dev_state self |}.

(** [self._dev_context = active_state] *)
Definition set_dev_context (c : Context) (self : Session) : Session :=
  {| dev_context := c;
     active_context := active_context self;
     running := running self;
     saved_dev_state := saved_dev_state self |}.

(** What [create_data] of the transient node and [execute] on it do to
    the session (the latter by its outcome). *)
Variable create_data_effect : Session -> Session.
Variable execute_effect : option exn -> Session -> Session.

Record Run := {
  session : Session;
  yields : list Partition;
  exit : Exit;
  log : list LogRecord
}.

(** Lines 1131-1140, the body of [try]: the session it leaves, what was
    yielded and how it was left. *)
Definition try_body (o : Collaborators) (c : Consumer) (self : Session)
  : Session * list Partition * Exit :=
  let self := execute_effect (execute_raises o) self in
  match execute_raises o with
  | Some e => (self, [], Failed e)
  | None =>
      let '(ys, ex) :=
        match load_internal_raises_after o with
        | Some (n, e) => consume c (firstn n (load_internal o)) (Failed e)
        | None => consume c (load_internal o) Exhausted
        end in
      (self, ys, ex)
  end.

(** Lines 1141-1170, the [finally] block. *)
Definition finally_block (data_id : string) (o : Collaborators)
           (active_state : option Context) (self : Session)
  : Session * list LogRecord :=
  let complete_cleanup :=
    match delete_internal o with
    | Deleted => true
    | NotDeleted | DeleteRaised => false
    end in
  let log :=
    if complete_cleanup then []
    else [LogCleanupProblems data_id; LogResidualPaths] in
  let self :=
    match active_state with
    | Some active_state => activate (set_dev_context active_state self)
    | None => pause self
    end in
  (load_dev_state self, log).

(** Lines 1111-1170, once the generator has been started. *)
Definition glue_table_branch (data_id : string) (o : Collaborators)
           (c : Consumer) (self : Session) : Run :=
  if negb (in_dev_context o)
  then {| session := self; yields := [];
          exit := Failed (ValueError (MsgNotInDevContext data_id));
          log := [LogNotInDevContext data_id] |}
  else
    let self := save_dev_state self in
    let active_state := active_context self in
    match create_data_raises o with
    | Some e => {| session := self; yields := []; exit := Failed e;
                   log := [] |}
    | None =>
        let self := create_data_effect self in
        let '(self, ys, ex) := try_body o c self in
        let '(self, log) := finally_block data_id o active_state self in
        {| session := self; yields := ys; exit := ex; log := log |}
    end.

(** The generator from its creation to its end. Nothing of the body runs
    before the first item is asked for. *)
Definition _load_external_data (data_id : string) (o : Collaborators)
           (c : Consumer) (self : Session) : Run :=
  match c with
  | CloseAfter 0 =>
      {| session := self; yields := []; exit := Closed; log := [] |}
  | _ =>
      match source o with
      | S3 =>
          let '(ys, ex) := consume c (s3_objects o) Exhausted in
          {| session := self; yields := ys; exit := ex; log := [] |}
      | GLUE_TABLE => glue_table_branch data_id o c self
      | OtherSource =>
          {| session := self; yields := []; exit := Exhausted; log := [] |}
      end
  end.

End Session.

End TransientLoad.

(** ** [load_data] with library calls and iterators that can raise *)

Module LoadDataRaising.

Import LoadData.

(** [data_it] as the loops see it: the partitions it hands out, then how
    it ends: exhausted, or with an exception at the pull after the last
    partition. *)
Record Iterator := {
  items : list Partition;
  ending : option exn
}.

Section Decoders.

(** The library calls with their exceptions: [str(data, data_encoding)] and
    [data.decode(data_encoding)]; [list(csv.reader(text.splitlines()))];
    [pd.read_csv] without [nrows], [pd.read_parquet] and [pd.read_json].
    The subclasses of [ValueError] they raise ([UnicodeDecodeError],
    [EmptyDataError] and the like) are [ValueError]s here. *)
Variable decode : string -> result string.
Variable csv_reader : string -> result (list Row).
Variable pd_read_csv : string -> result (list Row).
Variable pd_read_parquet : string -> result (list Row).
Variable pd_read_json : string -> result (list Row).

(** Lines 507-526. The arguments of [pd.read_csv] are evaluated in order:
    the text is decoded before [limit - retrieved_so_far] is computed. Of
    the exceptions of [pd.read_parquet] the [ValueError]s are caught. *)
Definition pandas_decode (format : DatasetSignalSourceFormat)
           (limit : option Z) (retrieved_so_far : Z) (data : string)
  : Decoded :=
  match format with
  | CSV =>
      match decode data with
      | Raise e => Failed e
      | Ok text =>
          match limit with
          | None => Failed TypeError
          | Some limit =>
              match pd_read_csv text with
              | Raise e => Failed e
              | Ok df =>
                  Frame (firstn (Z.to_nat (limit - retrieved_so_far)) df)
              end
          end
      end
  | PARQUET =>
      match pd_read_parquet data with
      | Ok df => Frame df
      | Raise (ValueError _) => Skipped
      | Raise e => Failed e
      end
  | JSON =>
      match decode data with
      | Raise e => Failed e
      | Ok text =>
          match pd_read_json text with
          | Raise e => Failed e
          | Ok df => Frame df
          end
      end
  | OtherDataFormat _ => Failed NotImplementedError
  end.

(** The [for] statement asks the iterator for the next partition. *)
Definition at_end (ending : option exn) (otherwise : Trace) : Trace :=
  match ending with
  | Some e => ([], Raised e)
  | None => otherwise
  end.

(** Lines 502-552. *)
Fixpoint pandas_loop (format : DatasetSignalSourceFormat)
         (limit : option Z) (iterate : bool) (data_it : list Partition)
         (ending : option exn)
         (pandas_df_list : list (list Row)) (retrieved_so_far : Z)
  : Trace :=
  match data_it with
  | [] => at_end ending (pandas_merge iterate pandas_df_list)
  | (physical_path, data) :: rest =>
      emit (Read physical_path)
        (if String.eqb data ""
         then pandas_loop format limit iterate rest ending
                          pandas_df_list retrieved_so_far
         else
           match pandas_decode format limit retrieved_so_far data with
           | Failed e => ([], Raised e)
           | Skipped => pandas_loop format limit iterate rest ending
                                    pandas_df_list retrieved_so_far
           | Frame df =>
               let '(stop, df, retrieved_so_far) :=
                 apply_limit limit (retrieved_so_far + len df) df in
               if iterate
               then
                 emits [Log (LogReturningPart physical_path
                                              retrieved_so_far);
                        Yield (DataFrame df)]
                   (if stop then pandas_merge iterate pandas_df_list
                    else pandas_loop format limit iterate rest ending
                                     pandas_df_list retrieved_so_far)
               else
                 if stop
                 then pandas_merge iterate (pandas_df_list ++ [df])
                 else pandas_loop format limit iterate rest ending
                                  (pandas_df_list ++ [df])
                                  retrieved_so_far
           end)
  end.

(** Line 650. *)
Definition csv_decode (data : string) : result (list Row) :=
  text <- decode data ;; csv_reader text.

(** Lines 647-679; [limit] is the limit already increased for the
    header. *)
Fixpoint csv_loop (data_header_exists : bool) (limit : option Z)
         (iterate : bool) (data_it : list Partition) (ending : option exn)
         (all_data : list Row) (retrieved_so_far : Z) : Trace :=
  match data_it with
  | [] => at_end ending (csv_merge iterate all_data)
  | (physical_path, data) :: rest =>
      emit (Read physical_path)
        (if String.eqb data ""
         then csv_loop data_header_exists limit iterate rest ending
                       all_data retrieved_so_far
         else
           match csv_decode data with
           | Raise e => ([], Raised e)
           | Ok csv_data =>
               let '(stop, csv_data, retrieved_so_far) :=
                 apply_limit limit (retrieved_so_far + len csv_data)
                             csv_data in
               if iterate
               then
                 match csv_data with
                 | [] => ([], Raised IndexError)
                 | _ :: _ =>
                     emits [Log (LogReturningPart physical_path
                                                  retrieved_so_far);
                            Yield (CsvRows csv_data)]
                       (if stop then csv_merge iterate all_data
                        else csv_loop data_header_exists limit iterate rest
                                      ending all_data retrieved_so_far)
                 end
               else
                 match same_header data_header_exists all_data csv_data with
                 | Raise e => ([], Raised e)
                 | Ok skip =>
                     let all_data :=
                       all_data
                         ++ (if skip then slice_from_1 csv_data
                             else csv_data) in
                     if stop then csv_merge iterate all_data
                     else csv_loop data_header_exists limit iterate rest
                                   ending all_data retrieved_so_far
                 end
           end)
  end.

(** Line 683: [yield from data_it]. *)
Fixpoint yield_from (data_it : list Partition) (ending : option exn)
  : Trace :=
  match data_it with
  | [] => at_end ending ([], Returned)
  | (physical_path, data) :: rest =>
      emits [Read physical_path; Yield (RawPartition (physical_path, data))]
            (yield_from rest ending)
  end.

(** Lines 490-683. *)
Definition decode_partitions (limit : option Z)
           (format : option DataFrameFormat) (iterate : bool)
           (materialized_path : option string)
           (dataset_access_spec : DatasetSignalSourceAccessSpec)
           (data_it : Iterator) : Trace :=
  emit (Log (LogLoading limit materialized_path))
    match format with
    | Some PANDAS =>
        pandas_loop (data_format dataset_access_spec) limit iterate
                    (items data_it) (ending data_it) [] 0%Z
    | Some SPARK => ([], HandedToSpark)
    | _ =>
        match data_format dataset_access_spec with
        | CSV =>
            match csv_limit (data_header_exists dataset_access_spec)
                            limit with
            | Raise e => ([], Raised e)
            | Ok limit =>
                csv_loop (data_header_exists dataset_access_spec) limit
                         iterate (items data_it) (ending data_it) [] 0%Z
            end
        | _ =>
            emits [Log LogTransformationNotSupported]
                  (yield_from (items data_it) (ending data_it))
        end
    end.

(** What the collaborators of one call answer. [_load_external_data]
    either raises at the call, as the one of [ApplicationExt] does, or
    returns an iterator, which for a generator, as the one of
    [AWSApplication], raises nothing before its first pull. *)
Record Collaborators := {
  dimension_values : string;
  is_material : bool;
  resource_access_spec : DatasetSignalSourceAccessSpec;
  poll : option string;
  load_internal : Iterator;
  materialize : string;
  load_external_data : result Iterator
}.

(** Lines 417-683, the generator run to its end. *)
Definition load_data (output : Output) (limit : option LimitArg)
           (format : option string) (iterate : bool)
           (env : Collaborators) : Trace :=
  match match output with
        | MarshalingView marshaler_node => Some marshaler_node
        | Marshaler node => Some node
        | NotANode => None
        end with
  | None => ([Log LogWrongInput], Raised (ValueError MsgWrongInputType))
  | Some node =>
      match check_limit limit with
      | Raise e => ([], Raised e)
      | Ok limit =>
          match check_format format with
          | Raise e => ([], Raised e)
          | Ok format =>
              match bound node with
              | InternalDataNode data_id =>
                  emit (Log (LogCheckingExistence
                               data_id (dimension_values env)))
                    (emits
                       match poll env with
                       | None =>
                           [Log (LogOutputAbsent
                                   data_id (dimension_values env));
                            Yield NoneItem]
                       | Some _ => []
                       end
                       (decode_partitions limit format iterate (poll env)
                          (resource_access_spec env) (load_internal env)))
              | ExternalDataNode data_id =>
                  if negb (is_material env)
                  then ([Log (LogNotMaterialized data_id)],
                        Raised (ValueError MsgNotMaterialized))
                  else
                    match load_external_data env with
                    | Raise e => ([], Raised e)
                    | Ok data_it =>
                        decode_partitions limit format iterate
                          (Some (materialize env))
                          (resource_access_spec env) data_it
                    end
              | OtherNode =>
                  ([Log LogNodeTypeNotSupported],
                   Raised (ValueError MsgNodeTypeNotSupported))
              end
          end
      end
  end.

(** [e] is raised by one of the library calls on the payload [data]. *)
Definition decoder_raises (data : string) (e : exn) : Prop :=
  decode data = Raise e
  \/ pd_read_parquet data = Raise e
  \/ exists text,
      decode data = Ok text
      /\ (csv_reader text = Raise e \/ pd_read_csv text = Raise e
          \/ pd_read_json text = Raise e).

End Decoders.

(** Library calls that raise nothing and iterators that are exhausted
    without an exception: the setting of [LoadData]. *)
Definition total {A B} (f : A -> B) (a : A) : result B := Ok (f a).

Definition total_parquet (pd_read_parquet : string -> option (list Row))
           (data : string) : result (list Row) :=
  match pd_read_parquet data with
  | Some df => Ok df
  | None => Raise (ValueError (MsgCollaborator "pd.read_parquet"))
  end.

Definition exhausted (data_it : list Partition) : Iterator :=
  {| items := data_it; ending := None |}.

Definition of_total (env : LoadData.Collaborators) : Collaborators :=
  {| dimension_values := LoadData.dimension_values env;
     is_material := LoadData.is_material env;
     resource_access_spec := LoadData.resource_access_spec env;
     poll := LoadData.poll env;
     load_internal := exhausted (LoadData.load_internal env);
     materialize := LoadData.materialize env;
     load_external_data :=
       match LoadData.load_external_data env with
       | Ok data_it => Ok (exhausted data_it)
       | Raise e => Raise e
       end |}.

End LoadDataRaising.

(** ** [ApplicationExt.preview_data] *)

Module Preview.

Import LoadData.

(** [importlib.util.find_spec(...) is not None] for the two optional
    runtimes. *)
Record Runtime := {
  pandas_found : bool;
  pyspark_found : bool
}.

(** [next(generator)] on a generator that was just created. *)
Inductive Next :=
| NextItem (i : Item)
| NextRaised (e : exn)
| NextStopIteration
| NextLeftToSpark.

Fixpoint first_yield (events : list Event) : option Item :=
  match events with
  | [] => None
  | Yield i :: _ => Some i
  | _ :: rest => first_yield rest
  end.

Definition next (t : Trace) : Next :=
  match first_yield (fst t) with
  | Some i => NextItem i
  | None =>
      match snd t with
      | Returned => NextStopIteration
      | Raised e => NextRaised e
      | HandedToSpark => NextLeftToSpark
      end
  end.

(** What [preview_data] comes to: the pair it returns, an exception, or
    the hand-over to Spark. *)
Inductive Outcome :=
| Previewed (data : Item) (format : DataFrameFormat)
| PreviewRaised (e : exn)
| PreviewStopIteration
| PreviewLeftToSpark.

Section Decoders.

Variable csv_reader : string -> list Row.
Variable pd_read_csv : string -> list Row.
Variable pd_read_parquet : string -> option (list Row).
Variable pd_read_json : string -> list Row.

(** [with pd.option_context("max_rows", limit, "max_columns", columns)]
    (line 396): entering the context raises when pandas does not take the
    two options (an [OptionError] where a name matches several options),
    and returns otherwise. *)
Variable pd_option_context : option LimitArg -> option Z -> option exn.

(** Lines 384-415. With pandas the data is loaded first; then, inside the
    option context, it is displayed, or printed when [display] fails. With
    Spark, [data.show] is called on the data; otherwise its lines are
    printed, which iterates over it. *)
Definition preview_data (runtime : Runtime) (output : Output)
           (limit : option LimitArg) (columns : option Z)
           (env : Collaborators) : Outcome :=
  let load format :=
    next (load_data csv_reader pd_read_csv pd_read_parquet pd_read_json
                    output limit (Some format) false env) in
  if pandas_found runtime
  then
    match load "PANDAS" with
    | NextItem data =>
        match pd_option_context limit columns with
        | Some e => PreviewRaised e
        | None => Previewed data PANDAS
        end
    | NextRaised e => PreviewRaised e
    | NextStopIteration => PreviewStopIteration
    | NextLeftToSpark => PreviewLeftToSpark
    end
  else if pyspark_found runtime
  then
    match load "SPARK" with
    | NextItem NoneItem => PreviewRaised AttributeError
    | NextItem _ => PreviewLeftToSpark
    | NextRaised e => PreviewRaised e
    | NextStopIteration => PreviewStopIteration
    | NextLeftToSpark => PreviewLeftToSpark
    end
  else
    match load "ORIGINAL" with
    | NextItem NoneItem => PreviewRaised TypeError
    | NextItem data => Previewed data ORIGINAL
    | NextRaised e => PreviewRaised e
    | NextStopIteration => PreviewStopIteration
    | NextLeftToSpark => PreviewLeftToSpark
    end.

End Decoders.

End Preview.

(** ** Keyword arguments and their defaults *)

Module Kwargs.

Section Dict.

Variable V : Type.

(** A [dict] with [str] keys, in insertion order, each key once. *)
Definition dict := list (string * V).

(** [d.get(k)] *)
Fixpoint get (d : dict) (k : string) : option V :=
  match d with
  | [] => None
  | (k', v) :: rest => if String.eqb k k' then Some v else get rest k
  end.

(** [k in d] *)
Definition contains (d : dict) (k : string) : bool :=
  match get d k with
  | Some _ => true
  | None => false
  end.

(** [d[k] = v]: a key that is there keeps its place. *)
Fixpoint set (d : dict) (k : string) (v : V) : dict :=
  match d with
  | [] => [(k, v)]
  | (k', v') :: rest =>
      if String.eqb k k' then (k, v) :: rest else (k', v') :: set rest k v
  end.

(** [if k not in d: d[k] = v] *)
Definition setdefault (d : dict) (k : string) (v : V) : dict :=
  if contains d k then d else set d k v.

Definition keys (d : dict) : list string := map fst d.

End Dict.

Arguments get {V} d k.
Arguments contains {V} d k.
Arguments set {V} d k v.
Arguments setdefault {V} d k v.
Arguments keys {V} d.

End Kwargs.

(** ** Compute descriptors: [GlueBatchCompute], [Spark], [SparkSQL],
    [PrestoSQL] *)

Module Descriptors.

Import Kwargs.

Inductive Lang := PYTHON | SCALA | SPARK_SQL | PRESTO_SQL.

Inductive ABI := GLUE_EMBEDDED | PARAMETRIZED_QUERY.

(** The values of keyword arguments: what a caller passes, and the two enum
    values the defaults use ([GlueVersion.AUTO.value],
    [GlueWorkerType.G_1X.value]). *)
Inductive KwValue :=
| KwInt (z : Z)
| KwStr (s : string)
| GlueVersion_AUTO
| GlueWorkerType_G_1X.

(** What reaches [InternalDataNode.BatchComputeDescriptor.__init__]. *)
Record BatchComputeDescriptor := {
  code : string;
  lang : Lang;
  abi : ABI;
  extra_permissions : option (list string);
  retry_count : Z;
  kwargs : dict KwValue
}.

(** Lines 114-131. *)
Definition glue_defaults (kwargs : dict KwValue) : dict KwValue :=
  let kwargs := setdefault kwargs "Timeout" (KwInt 600) in
  let kwargs := setdefault kwargs "GlueVersion" GlueVersion_AUTO in
  if contains kwargs "MaxCapacity" then kwargs
  else
    let kwargs := setdefault kwargs "WorkerType" GlueWorkerType_G_1X in
    setdefault kwargs "NumberOfWorkers" (KwInt 25).

Definition GlueBatchCompute (code : string) (lang : Lang) (abi : ABI)
           (extra_permissions : option (list string)) (retry_count : Z)
           (kwargs : dict KwValue) : BatchComputeDescriptor :=
  {| code := code; lang := lang; abi := abi;
     extra_permissions := extra_permissions; retry_count := retry_count;
     kwargs := glue_defaults kwargs |}.

Definition Spark (code : string) (lang : Lang) (abi : ABI)
           (extra_permissions : option (list string)) (retry_count : Z)
           (kwargs : dict KwValue) : BatchComputeDescriptor :=
  {| code := code; lang := lang; abi := abi;
     extra_permissions := extra_permissions; retry_count := retry_count;
     kwargs := kwargs |}.

(** Lines 159-164. *)
Definition spark_sql_defaults (kwargs : dict KwValue) : dict KwValue :=
  let kwargs := setdefault kwargs "WorkerType" GlueWorkerType_G_1X in
  let kwargs := setdefault kwargs "NumberOfWorkers" (KwInt 25) in
  if negb (contains kwargs "GlueVersion")
     && negb (contains kwargs "RuntimeConfig")
  then set kwargs "GlueVersion" GlueVersion_AUTO
  else kwargs.

Definition triple_quote : string :=
  let q := String (ascii_of_nat 34) EmptyString in (q ++ q ++ q)%string.

(** Line 167: the code between triple quotes, as the argument of
    [spark.sql], assigned to [output]. *)
Definition spark_sql_code (code : string) : string :=
  ("output=spark.sql(" ++ triple_quote ++ code ++ triple_quote ++ ")")%string.

Definition SparkSQL (code : string)
           (extra_permissions : option (list string)) (retry_count : Z)
           (kwargs : dict KwValue) : BatchComputeDescriptor :=
  {| code := spark_sql_code code; lang := PYTHON; abi := GLUE_EMBEDDED;
     extra_permissions := extra_permissions; retry_count := retry_count;
     kwargs := spark_sql_defaults kwargs |}.

Definition PrestoSQL (code : string)
           (extra_permissions : option (list string)) (retry_count : Z)
           (kwargs : dict KwValue) : BatchComputeDescriptor :=
  {| code := code; lang := PRESTO_SQL; abi := PARAMETRIZED_QUERY;
     extra_permissions := extra_permissions; retry_count := retry_count;
     kwargs := kwargs |}.

End Descriptors.

(** ** [AnyDate], [AnyString], [AnyLong] and [ApplicationExt.add_timer] *)

Module Timer.

Import Kwargs.

Section Variants.

(** The values of dimension parameters, with those of [str] among them, and
    the constants of the core package the code refers to: the parameter
    names of [DateVariant], the default granularity, the value of a
    granularity and the special value of [AnyVariant]. *)
Variable ParamValue : Type.
Variable str_value : string -> ParamValue.
Variable DatetimeGranularity : Type.
Variable granularity_value : DatetimeGranularity -> ParamValue.
Variable FORMAT_PARAM TIMEZONE_PARAM GRANULARITY_PARAM : string.
Variable DEFAULT_DATETIME_GRANULARITY : ParamValue.
Variable ANY_DIMENSION_VALUE_SPECIAL_CHAR : string.

(** What reaches [AnyVariant.__init__], and [_value]. *)
Record AnyVariant := {
  name : string;
  type : DimLinks.DimType;
  params : option (dict ParamValue);
  value : string
}.

(** Lines 69-76: [params] is completed only when it is not empty. *)
Definition date_params (params : option (dict ParamValue))
  : option (dict ParamValue) :=
  match params with
  | None | Some [] => params
  | Some params =>
      let params := setdefault params FORMAT_PARAM (str_value "%Y-%m-%d") in
      Some (setdefault params GRANULARITY_PARAM DEFAULT_DATETIME_GRANULARITY)
  end.

Definition AnyDate (name : string) (params : option (dict ParamValue))
  : AnyVariant :=
  {| name := name; type := DimLinks.TypeDATETIME;
     params := date_params params;
     value := ANY_DIMENSION_VALUE_SPECIAL_CHAR |}.

Definition AnyString (name : string) (params : option (dict ParamValue))
  : AnyVariant :=
  {| name := name; type := DimLinks.TypeSTRING; params := params;
     value := ANY_DIMENSION_VALUE_SPECIAL_CHAR |}.

Definition AnyLong (name : string) (params : option (dict ParamValue))
  : AnyVariant :=
  {| name := name; type := DimLinks.TypeLONG; params := params;
     value := ANY_DIMENSION_VALUE_SPECIAL_CHAR |}.

(** What [add_timer] passes to [Application.create_timer]. *)
Record TimerArgs := {
  timer_id : string;
  schedule_expression : string;
  time_dim : AnyVariant
}.

(** Lines 261-266; a granularity that is given is a member of the enum,
    which is truthy. *)
Definition add_timer (id schedule_expression : string)
           (time_dimension_id time_dimension_format : string)
           (time_dimension_granularity : option DatetimeGranularity)
  : TimerArgs :=
  let time_dim_params :=
    [(FORMAT_PARAM, str_value time_dimension_format)] in
  let time_dim_params := set time_dim_params TIMEZONE_PARAM (str_value "UTC") in
  let time_dim_params :=
    match time_dimension_granularity with
    | Some g => set time_dim_params GRANULARITY_PARAM (granularity_value g)
    | None => time_dim_params
    end in
  {| timer_id := id;
     schedule_expression := schedule_expression;
     time_dim := AnyDate time_dimension_id (Some time_dim_params) |}.

End Variants.

End Timer.

(** ** [S3], [_create_filter] and [ApplicationExt.add_external_data] *)

Module ExternalData.

Import Kwargs DimLinks.

Record S3DatasetExt := {
  account_id : string;
  bucket : string;
  folder : string;
  dimension_vars : list DimensionVariant;
  attrs : dict string
}.

(** Line 63: [bucket[len("s3://"):] if bucket.startswith("s3://") else
    bucket]. *)
Definition strip_scheme (bucket : string) : string :=
  if String.prefix "s3://" bucket
  then String.substring 5 (String.length bucket - 5) bucket
  else bucket.

Definition S3 (account_id bucket key_prefix : string)
           (dimension : list DimensionVariant) (kwargs : dict string)
  : S3DatasetExt :=
  {| account_id := account_id;
     bucket := strip_scheme bucket;
     folder := key_prefix;
     dimension_vars := dimension;
     attrs := kwargs |}.

#[local] Unset Elimination Schemes.

(** [DimensionFilter] of the core package is not part of the sources at
    hand. Its shape is the one [_create_filter] builds with
    [filter.add_dimension(dimension_variant, sub_filter)]: an ordered
    collection of variants, each with an optional nested filter. *)
Inductive NestedFilter :=
| NestedFilterOf (dims : list (DimensionVariant * option NestedFilter)).

#[local] Set Elimination Schemes.

(** [ApplicationExt._create_filter], the twin of [_create_spec]. *)
Fixpoint _create_filter (variants : list DimensionVariant)
  : option NestedFilter :=
  match variants with
  | [] => None
  | dimension_variant :: rest =>
      Some (NestedFilterOf [(dimension_variant, _create_filter rest)])
  end.

(** The variants of a nested filter in declaration order: a variant before
    those nested under it and before its later siblings. *)
Fixpoint filter_variants (filter : NestedFilter) : DimensionFilter :=
  match filter with
  | NestedFilterOf dims =>
      (fix siblings (l : list (DimensionVariant * option NestedFilter)) :=
         match l with
         | [] => []
         | (v, sub) :: rest =>
             v :: match sub with
                  | Some f => filter_variants f
                  | None => []
                  end
               ++ siblings rest
         end) dims
  end.

(** [SignalIntegrityProtocol("FILE_CHECK", {"file": completion_file})] *)
Record SignalIntegrityProtocol := {
  protocol_type : string;
  protocol_file : string
}.

(** What [add_external_data] passes to [marshal_external_data]: the
    [S3Dataset] with its partition keys, the id, spec, filter and
    protocol. *)
Record ExternalDataArgs := {
  dataset_account_id : string;
  dataset_bucket : string;
  dataset_folder : string;
  partition_keys : list string;
  dataset_attrs : dict string;
  data_id : string;
  spec : option DimensionSpec;
  filter : option NestedFilter;
  protocol : option SignalIntegrityProtocol
}.

(** Lines 209-226. *)
Definition add_external_data (data_id : string) (s3_dataset : S3DatasetExt)
           (completion_file : string) : ExternalDataArgs :=
  {| dataset_account_id := account_id s3_dataset;
     dataset_bucket := bucket s3_dataset;
     dataset_folder := folder s3_dataset;
     partition_keys := map (fun dim => "{}") (dimension_vars s3_dataset);
     dataset_attrs := attrs s3_dataset;
     data_id := data_id;
     spec := _create_spec (dimension_vars s3_dataset);
     filter := _create_filter (dimension_vars s3_dataset);
     protocol :=
       if String.eqb completion_file "" then None
       else Some {| protocol_type := "FILE_CHECK";
                    protocol_file := completion_file |} |}.

End ExternalData.

(** ** [AWSApplication.glue_table] *)

Module GlueTable.

Import Kwargs.

Section Metadata.

(** The values of catalog metadata, and the key constant of the core
    package. *)
Variable MetaValue : Type.
Variable PRIMARY_KEYS_KEY : string.

(** Lines 784-791: the metadata handed to [GlueTable(database, table_name,
    **metadata)]. *)
Definition glue_table_metadata (source_account_id table_type
                                primary_keys : option MetaValue)
           (metadata : dict MetaValue) : dict MetaValue :=
  let metadata :=
    match source_account_id with
    | Some v => set metadata "account_id" v
    | None => metadata
    end in
  let metadata :=
    match table_type with
    | Some v => set metadata "table_type" v
    | None => metadata
    end in
  match primary_keys with
  | Some v => set metadata PRIMARY_KEYS_KEY v
  | None => metadata
  end.

End Metadata.

End GlueTable.

(** ** [AWSApplication.__init__] and [aws_app] *)

Module AppInit.

(** The second positional argument: a region, a platform or anything
    else. *)
Inductive RegionOrPlatform (HostPlatform : Type) :=
| ArgRegion (region : string)
| ArgPlatform (platform : HostPlatform)
| ArgOther.

Arguments ArgRegion {HostPlatform} region.
Arguments ArgPlatform {HostPlatform} platform.
Arguments ArgOther {HostPlatform}.

(** [dev_role_account_id]: an account id, or the [bool] that [aws_app]
    passes in its place. *)
Inductive AccountArg :=
| AccountId (id : string)
| AccountFlag (flag : bool).

Definition truthy (a : option AccountArg) : bool :=
  match a with
  | None => false
  | Some (AccountId id) => negb (String.eqb id "")
  | Some (AccountFlag flag) => flag
  end.

(** The credentials the configuration builder is given. *)
Inductive Credentials :=
| DevRoleCredentials (account : AccountArg)
| AdminAccessPair (access_id access_key : string)
| DefaultCredentialsAsAdmin.

(** What [__init__] comes to: the platform handed to
    [ApplicationExt.__init__], built from credentials and a region or given
    by the caller, or the [ValueError] of line 735. *)
Inductive Init (HostPlatform : Type) :=
| BuiltPlatform (credentials : Credentials) (region : string)
| GivenPlatform (platform : HostPlatform)
| NoPlatformOrRegion.

Arguments BuiltPlatform {HostPlatform} credentials region.
Arguments GivenPlatform {HostPlatform} platform.
Arguments NoPlatformOrRegion {HostPlatform}.

Section Init.

Variable HostPlatform : Type.

(** Lines 720-735; [kwargs_region] is [kwargs["region"]] when that key is
    there. *)
Definition credentials_of (dev_role_account_id : option AccountArg)
           (access_id access_key : option string) : Credentials :=
  match dev_role_account_id with
  | Some account =>
      if truthy dev_role_account_id then DevRoleCredentials account
      else
        match access_id, access_key with
        | Some id, Some key => AdminAccessPair id key
        | _, _ => DefaultCredentialsAsAdmin
        end
  | None =>
      match access_id, access_key with
      | Some id, Some key => AdminAccessPair id key
      | _, _ => DefaultCredentialsAsAdmin
      end
  end.

Definition __init__ (region_or_platform : RegionOrPlatform HostPlatform)
           (dev_role_account_id : option AccountArg)
           (access_id access_key : option string)
           (kwargs_region : option string) : Init HostPlatform :=
  let build region :=
    BuiltPlatform
      (credentials_of dev_role_account_id access_id access_key) region in
  match region_or_platform, kwargs_region with
  | ArgRegion region, _ => build region
  | _, Some region => build region
  | ArgPlatform platform, None => GivenPlatform platform
  | ArgOther, None => NoPlatformOrRegion
  end.

(** Lines 1173-1174: [AWSApplication(app_name, region, use_dev_role)]. *)
Definition aws_app (region : string) (use_dev_role : bool)
  : Init HostPlatform :=
  __init__ (ArgRegion region) (Some (AccountFlag use_dev_role)) None None None.

End Init.

End AppInit.

(** ** Compute records: [has_session_failed], [has_started],
    [get_execution_details] *)

Module ComputeRecords.

Inductive ComputeSessionStateType := PROCESSING | COMPLETED | FAILED.

Section Records.

Variable ComputeExecutionDetails : Type.

Record ComputeSessionState := {
  state_type : ComputeSessionStateType;
  executions : list ComputeExecutionDetails
}.

(** [RoutingTable.ComputeRecord], with the field the three functions
    read. *)
Record ComputeRecord := {
  session_state : option ComputeSessionState
}.

(** What an [and] of an optional object and a comparison evaluates to. *)
Inductive AndValue :=
| AndNone
| AndBool (b : bool).

Definition is_failed (t : ComputeSessionStateType) : bool :=
  match t with
  | FAILED => true
  | _ => false
  end.

(** Lines 1178-1179. *)
Definition has_session_failed (compute_record : ComputeRecord) : AndValue :=
  match session_state compute_record with
  | None => AndNone
  | Some state => AndBool (is_failed (state_type state))
  end.

(** Line 1183. *)
Definition has_started (compute_record : ComputeRecord) : bool :=
  match session_state compute_record with
  | None => false
  | Some _ => true
  end.

(** Line 1187. *)
Definition get_execution_details (compute_record : ComputeRecord)
  : result (list ComputeExecutionDetails) :=
  match session_state compute_record with
  | None => Raise AttributeError
  | Some state => Ok (executions state)
  end.

End Records.

End ComputeRecords.

(** ** [AWSApplication.create_data] and [update_data] *)

Module CreateData.

Section Core.

(** [Application.create_data] and [Application.update_data] of the core
    package: each returns the node it made or raises. *)
Variable MarshalerNode : Type.
Variable Application_create_data : DimLinks.DataNodeArgs
                                   -> result MarshalerNode.
Variable Application_update_data : DimLinks.DataNodeArgs
                                   -> result MarshalerNode.

(** Lines 948-1080 with the call they end in: lines 975-1044 make the
    arguments ([DimLinks._create_or_update_data_with_defaults]), lines
    1046-1080 hand them to the core method chosen by [is_update]. *)
Definition _create_or_update_data_with_defaults (is_update : bool)
           (id : string) (inputs : option DimLinks.Inputs)
           (output_dimension_spec : option DimLinks.DimensionSpec)
           (output_dim_links : option (list DimLinks.Link))
           (compute_targets : option DimLinks.ComputeTargets)
  : result MarshalerNode :=
  args <- DimLinks._create_or_update_data_with_defaults
            id inputs output_dimension_spec output_dim_links
            compute_targets ;;
  if is_update then Application_update_data args
  else Application_create_data args.

(** Lines 881-897. *)
Definition create_data := _create_or_update_data_with_defaults false.

(** Lines 929-946. *)
Definition update_data := _create_or_update_data_with_defaults true.

End Core.

End CreateData.

(** ** The transient node of [_load_external_data] *)

Module TransientNode.

Import DimLinks.

(** The [limit] argument: an [int], or a [bool], which passes for one. *)
Inductive Limit :=
| IntValue (n : Z)
| BoolValue (b : bool).

(** [if limit] *)
Definition truthy (limit : option Limit) : bool :=
  match limit with
  | None => false
  | Some (IntValue n) => negb (n =? 0)%Z
  | Some (BoolValue b) => b
  end.

(** [str(limit)], as the f-string renders it. *)
Definition str (limit : Limit) : string :=
  match limit with
  | IntValue n => NilZero.string_of_int (Z.to_int n)
  | BoolValue true => "True"
  | BoolValue false => "False"
  end.

(** Line 1129:
    [f"output={materialized_output.alias}{f'.limit({limit})' if limit else ''}"] *)
Definition compute_code (alias : option string) (limit : option Limit)
  : string :=
  ("output="
     ++ match alias with Some a => a | None => "None" end
     ++ match limit with
        | Some given =>
            if truthy limit then ".limit(" ++ str given ++ ")" else ""
        | None => ""
        end)%string.

Section Core.

Variable MarshalerNode : Type.
Variable Application_create_data : DataNodeArgs -> result MarshalerNode.
Variable Application_update_data : DataNodeArgs -> result MarshalerNode.

(** Lines 1126-1130: [self.create_data(id=..., inputs=[output],
    compute_targets=...)]. *)
Definition create_transient_node (id : string)
           (output materialized_output : Signal) (limit : option Limit)
  : result MarshalerNode :=
  CreateData.create_data
    Application_create_data Application_update_data
    id (Some (InputsList [output])) None None
    (Some (TargetCode (compute_code (alias materialized_output) limit))).

End Core.

End TransientNode.

(** ** Concrete inputs

    Decoders for plain text and the inputs at which the statements below are
    evaluated. *)

Module Scenarios.

Import LoadData.

Definition newline : ascii := ascii_of_nat 10.
Definition nl : string := String newline EmptyString.

(** [str.splitlines] on text whose only line boundary is the newline
    character. *)
Fixpoint splitlines_from (line : string) (s : string) : list string :=
  match s with
  | EmptyString => if String.eqb line "" then [] else [line]
  | String c s' =>
      if Ascii.eqb c newline then line :: splitlines_from "" s'
      else splitlines_from (line ++ String c "")%string s'
  end.

Definition splitlines (s : string) : list string := splitlines_from "" s.

Fixpoint fields_from (field : string) (s : string) : list string :=
  match s with
  | EmptyString => [field]
  | String c s' =>
      if Ascii.eqb c ","%char then field :: fields_from "" s'
      else fields_from (field ++ String c "")%string s'
  end.

(** [csv.reader] with the default dialect on lines without quote
    characters: the fields between commas, no field for an empty line. *)
Definition plain_csv_reader (data : string) : list Row :=
  map (fun line => if String.eqb line "" then [] else fields_from "" line)
      (splitlines data).

(** [pd.read_csv] on such text: the first line names the columns, the
    other lines are the records. *)
Definition plain_read_csv (data : string) : list Row :=
  tl (plain_csv_reader data).

Definition no_parquet (data : string) : option (list Row) := None.

Definition plain_load_data :=
  load_data plain_csv_reader plain_read_csv no_parquet plain_csv_reader.

Definition csv_with_header : DatasetSignalSourceAccessSpec :=
  {| data_format := CSV;
     data_delimiter := Some ",";
     data_encoding := "utf-8";
     data_header_exists := true;
     data_compression := None |}.

Definition internal_node : Output :=
  Marshaler {| bound := InternalDataNode "daily_sales" |}.

Definition part (path line1 line2 : string) : Partition :=
  (path, (line1 ++ nl ++ line2 ++ nl)%string).

(** An internal output that exists and holds the given partitions. *)
Definition produced (parts : list Partition) : Collaborators :=
  {| dimension_values := "{day: 2021-03-01}";
     is_material := true;
     resource_access_spec := csv_with_header;
     poll := Some "s3://bucket/daily_sales/2021-03-01";
     load_internal := parts;
     materialize := "s3://bucket/daily_sales/2021-03-01";
     load_external_data := Raise NotImplementedError |}.

(** An internal output that was not produced yet: nothing under its path. *)
Definition not_produced : Collaborators :=
  {| dimension_values := "{day: 2021-03-01}";
     is_material := true;
     resource_access_spec := csv_with_header;
     poll := None;
     load_internal := [];
     materialize := "s3://bucket/daily_sales/2021-03-01";
     load_external_data := Raise NotImplementedError |}.

Definition two_partitions : list Partition :=
  [part "part-0" "h,v" "1,a"; part "part-1" "h,v" "2,b"].

Definition three_partitions : list Partition :=
  [part "part-0" "h,v" "1,a"; part "part-1" "h,v" "2,b";
   part "part-2" "h,v" "3,c"].

(** The records of a frame that starts with the header line. *)
Definition records (rows : list Row) : list Row := tl rows.

(** All records the partitions hold, headers left out. *)
Definition available_records (parts : list Partition) : list Row :=
  flat_map (fun p => records (plain_csv_reader (snd p))) parts.

(** An application with two data nodes under one id, one under another,
    a timer, a metric and an alarm. *)
Definition shop : NodeLookup.Application nat unit :=
  {| NodeLookup.app_id := "shop";
     NodeLookup.get_data := fun data_id =>
       if String.eqb data_id "orders" then [1; 2]
       else if String.eqb data_id "sales" then [3] else [];
     NodeLookup.get_timer := fun timer_id =>
       if String.eqb timer_id "daily" then [4]
       else if String.eqb timer_id "sales" then [5] else [];
     NodeLookup.get_metric := fun metric_id _ =>
       if String.eqb metric_id "latency" then [6] else [];
     NodeLookup.get_alarm := fun alarm_id _ =>
       if String.eqb alarm_id "pager" then [7] else [] |}.

(** Signals: exchange rates looked up relative to another input
    (dependent) with a literal region and an open day; two independent
    inputs, the first without a region. *)
Definition region : DimLinks.Dimension :=
  {| DimLinks.dim_name := "region"; DimLinks.dim_type := DimLinks.TypeSTRING |}.

Definition day : DimLinks.Dimension :=
  {| DimLinks.dim_name := "day"; DimLinks.dim_type := DimLinks.TypeDATETIME |}.

Definition region_day : DimLinks.DimensionSpec :=
  DimLinks.DimensionSpecOf
    [(region, Some (DimLinks.DimensionSpecOf [(day, None)]))].

Definition day_only : DimLinks.DimensionSpec :=
  DimLinks.DimensionSpecOf [(day, None)].

Definition region_NA : DimLinks.DimensionVariant :=
  {| DimLinks.var_name := "region"; DimLinks.var_type := DimLinks.TypeSTRING;
     DimLinks.var_value := DimLinks.VStr "NA";
     DimLinks.is_material_value := true |}.

Definition any_region : DimLinks.DimensionVariant :=
  {| DimLinks.var_name := "region"; DimLinks.var_type := DimLinks.TypeSTRING;
     DimLinks.var_value := DimLinks.VStr "*";
     DimLinks.is_material_value := false |}.

Definition any_day : DimLinks.DimensionVariant :=
  {| DimLinks.var_name := "day"; DimLinks.var_type := DimLinks.TypeDATETIME;
     DimLinks.var_value := DimLinks.VStr "*";
     DimLinks.is_material_value := false |}.

Definition rates : DimLinks.Signal :=
  {| DimLinks.alias := Some "rates";
     DimLinks.is_dependent := true;
     DimLinks.domain_spec :=
       {| DimLinks.dimension_spec := region_day;
          DimLinks.dimension_filter_spec := [region_NA; any_day] |} |}.

Definition orders : DimLinks.Signal :=
  {| DimLinks.alias := Some "orders";
     DimLinks.is_dependent := false;
     DimLinks.domain_spec :=
       {| DimLinks.dimension_spec := day_only;
          DimLinks.dimension_filter_spec := [any_day] |} |}.

Definition clicks : DimLinks.Signal :=
  {| DimLinks.alias := Some "clicks";
     DimLinks.is_dependent := false;
     DimLinks.domain_spec :=
       {| DimLinks.dimension_spec := region_day;
          DimLinks.dimension_filter_spec := [any_region; any_day] |} |}.

(** A session whose contexts are lists of node ids: [create_data] adds the
    transient node to the context under development, [execute] activates
    that context before it runs the node. *)
Definition add_transient_node (self : TransientLoad.Session (list string))
  : TransientLoad.Session (list string) :=
  TransientLoad.set_dev_context
    ("2f1c-transient" :: TransientLoad.dev_context self) self.

Definition activate_and_run (outcome : option exn)
           (self : TransientLoad.Session (list string))
  : TransientLoad.Session (list string) :=
  TransientLoad.activate self.

(** A running application with an edit that is not activated yet. *)
Definition running_session : TransientLoad.Session (list string) :=
  {| TransientLoad.dev_context := ["table"; "report"; "draft"];
     TransientLoad.active_context := Some ["table"; "report"];
     TransientLoad.running := true;
     TransientLoad.saved_dev_state := None |}.


(** A catalog table whose transient node runs and leaves two partitions. *)
Definition glue_success : TransientLoad.Collaborators :=
  {| TransientLoad.source := TransientLoad.GLUE_TABLE;
     TransientLoad.s3_objects := [];
     TransientLoad.in_dev_context := true;
     TransientLoad.create_data_raises := None;
     TransientLoad.execute_raises := None;
     TransientLoad.load_internal := [("part-0", "a"); ("part-1", "b")];
     TransientLoad.load_internal_raises_after := None;
     TransientLoad.delete_internal := TransientLoad.Deleted |}.



(** The same, when the transient node cannot be created. *)
Definition glue_create_fails : TransientLoad.Collaborators :=
  {| TransientLoad.source := TransientLoad.GLUE_TABLE;
     TransientLoad.s3_objects := [];
     TransientLoad.in_dev_context := true;
     TransientLoad.create_data_raises :=
       Some (ValueError (MsgCollaborator "create_data"));
     TransientLoad.execute_raises := None;
     TransientLoad.load_internal := [];
     TransientLoad.load_internal_raises_after := None;
     TransientLoad.delete_internal := TransientLoad.Deleted |}.

(** Partitions with a completion marker between them. *)
Definition with_marker : list Partition :=
  [part "part-0" "h,v" "1,a"; ("_SUCCESS", ""); part "part-1" "h,v" "2,b"].

(** One partition that holds a header line and three records. *)
Definition one_partition : list Partition :=
  [("part-0", ("h,v" ++ nl ++ "1,a" ++ nl ++ "2,b" ++ nl ++ "3,c" ++ nl)%string)].

Definition csv_without_header : DatasetSignalSourceAccessSpec :=
  {| data_format := CSV;
     data_delimiter := Some ",";
     data_encoding := "utf-8";
     data_header_exists := false;
     data_compression := None |}.

Definition parquet : DatasetSignalSourceAccessSpec :=
  {| data_format := PARQUET;
     data_delimiter := None;
     data_encoding := "utf-8";
     data_header_exists := false;
     data_compression := None |}.

(** An internal output that exists, written without header lines. *)
Definition produced_without_header (parts : list Partition) : Collaborators :=
  {| dimension_values := "{day: 2021-03-01}";
     is_material := true;
     resource_access_spec := csv_without_header;
     poll := Some "s3://bucket/daily_sales/2021-03-01";
     load_internal := parts;
     materialize := "s3://bucket/daily_sales/2021-03-01";
     load_external_data := Raise NotImplementedError |}.

(** An application whose metric ["latency"] is told apart by its
    sub-dimensions only, and whose id ["sales"] names two data nodes and a
    timer. *)
Definition crowded : NodeLookup.Application nat string :=
  {| NodeLookup.app_id := "crowded";
     NodeLookup.get_data := fun data_id =>
       if String.eqb data_id "sales" then [1; 2] else [];
     NodeLookup.get_timer := fun timer_id =>
       if String.eqb timer_id "sales" then [5] else [];
     NodeLookup.get_metric := fun metric_id sub_dimensions =>
       if String.eqb metric_id "latency"
       then match sub_dimensions with
            | None => [8; 9]
            | Some region => if String.eqb region "eu" then [8] else [9]
            end
       else [];
     NodeLookup.get_alarm := fun alarm_id _ =>
       if String.eqb alarm_id "pager" then [7] else [] |}.

(** The same metrics and alarms, without data nodes and timers. *)
Definition metrics_only : NodeLookup.Application nat string :=
  {| NodeLookup.app_id := "crowded";
     NodeLookup.get_data := fun _ => [];
     NodeLookup.get_timer := fun _ => [];
     NodeLookup.get_metric := NodeLookup.get_metric crowded;
     NodeLookup.get_alarm := NodeLookup.get_alarm crowded |}.

(** A catalog table whose transient node runs and leaves two partitions
    that cannot be deleted afterwards. *)
Definition glue_cleanup_fails : TransientLoad.Collaborators :=
  {| TransientLoad.source := TransientLoad.GLUE_TABLE;
     TransientLoad.s3_objects := [];
     TransientLoad.in_dev_context := true;
     TransientLoad.create_data_raises := None;
     TransientLoad.execute_raises := None;
     TransientLoad.load_internal := [("part-0", "a"); ("part-1", "b")];
     TransientLoad.load_internal_raises_after := None;
     TransientLoad.delete_internal := TransientLoad.NotDeleted |}.

(** A dataset of daily partitions per region, declared with the scheme in
    the bucket name. *)
Definition sales_dataset : ExternalData.S3DatasetExt :=
  ExternalData.S3 "111122223333" "s3://sales-bucket" "daily"
                  [any_region; any_day] [].


(** Library calls that raise: decoding refuses bytes outside ASCII,
    [pd.read_csv] refuses text without a column ([EmptyDataError], a
    [ValueError]). *)
Definition ascii_decode (data : string) : result string :=
  if forallb (fun c => nat_of_ascii c <? 128) (list_ascii_of_string data)
  then Ok data
  else Raise (ValueError (MsgCollaborator "UnicodeDecodeError")).

Definition strict_read_csv (text : string) : result (list Row) :=
  match plain_csv_reader text with
  | [] | [] :: _ => Raise (ValueError (MsgCollaborator "EmptyDataError"))
  | _ :: records => Ok records
  end.

(** A partition that holds a line break only, after one with records. *)
Definition with_blank_partition : list Partition :=
  [part "part-0" "h,v" "1,a"; ("part-1", nl)].

(** An external output on a catalog table that is missing from the
    development context: the generator raises at its first pull. *)
Definition missing_table : LoadDataRaising.Collaborators :=
  {| LoadDataRaising.dimension_values := "{day: 2021-03-01}";
     LoadDataRaising.is_material := true;
     LoadDataRaising.resource_access_spec := csv_with_header;
     LoadDataRaising.poll := None;
     LoadDataRaising.load_internal := LoadDataRaising.exhausted [];
     LoadDataRaising.materialize := "glue_table://sales/daily/2021-03-01";
     LoadDataRaising.load_external_data :=
       Ok {| LoadDataRaising.items := [];
             LoadDataRaising.ending :=
               Some (ValueError (MsgNotInDevContext "daily")) |} |}.

Definition external_node : Output :=
  Marshaler {| bound := ExternalDataNode "daily" |}.

(** A pandas that takes the display options of [preview_data], and one
    that refuses the name [max_rows] with its [OptionError], which is an
    [AttributeError]. *)
Definition options_taken (limit : option LimitArg) (columns : option Z)
  : option exn := None.

Definition options_refused (limit : option LimitArg) (columns : option Z)
  : option exn := Some AttributeError.

(** Core methods: one that makes every node, named by its id, and one
    that refuses every node. *)
Definition accepting_core (args : DimLinks.DataNodeArgs) : result string :=
  Ok (DimLinks.arg_id args).

Definition refusing_core (args : DimLinks.DataNodeArgs) : result string :=
  Raise (ValueError (MsgCollaborator "Application.create_data")).

End Scenarios.

(** * Properties *)

(** ** Node lookup *)

Module NodeLookupFacts.

Import NodeLookup.

Section Facts.

Variable MarshalerNode : Type.
Variable MetricSubDimensionMap : Type.

Lemma unique_or_none_empty (ambiguous : nat -> message) :
  unique_or_none (@nil MarshalerNode) ambiguous = Ok None.
Proof. reflexivity. Qed.

Lemma unique_or_none_single (m : MarshalerNode) ambiguous :
  unique_or_none [m] ambiguous = Ok (Some m).
Proof. reflexivity. Qed.

Lemma unique_or_none_many (ms : list MarshalerNode) ambiguous :
  1 < List.length ms ->
  unique_or_none ms ambiguous
  = Raise (ValueError (ambiguous (List.length ms))).
Proof.
  intros Hlen. unfold unique_or_none.
  destruct ms as [|m0 rest]; [simpl in Hlen; lia|].
  apply Nat.ltb_lt in Hlen. now rewrite Hlen.
Qed.

(** An accessor never answers [None] for a non-empty list, and what it
    raises is a [ValueError]. *)
Lemma unique_or_none_cases (ms : list MarshalerNode) ambiguous :
  (ms = [] /\ unique_or_none ms ambiguous = Ok None)
  \/ (exists m, ms = [m] /\ unique_or_none ms ambiguous = Ok (Some m))
  \/ (1 < List.length ms
      /\ unique_or_none ms ambiguous
         = Raise (ValueError (ambiguous (List.length ms)))).
Proof.
  destruct ms as [|m0 [|m1 rest]].
  - left. now split.
  - right; left. exists m0. now split.
  - right; right. split; [simpl; lia|].
    apply unique_or_none_many. simpl; lia.
Qed.

(** C9. [Application::data]: an id that maps to more than one data node
    raises a [ValueError] whose message carries the id and the number of
    mapped nodes; an id that maps to exactly one node returns that
    node. *)
Theorem data_resolves_exactly_one
        (self : Application MarshalerNode MetricSubDimensionMap)
        (data_id : string) :
  (1 < List.length (get_data self data_id) ->
   data self data_id
   = Raise (ValueError
              (MsgAmbiguousData data_id
                                (List.length (get_data self data_id)))))
  /\ (forall node, get_data self data_id = [node] ->
                   data self data_id = Ok (Some node)).
Proof.
  split.
  - intros Hlen. now apply unique_or_none_many.
  - intros node Hone. unfold data. now rewrite Hone.
Qed.

(** C10. [__getitem__] on a [str]: data nodes are consulted first, then
    timers, then metrics, then alarms; the node of the first kind that
    knows the id is returned; when no kind knows the id a [ValueError]
    is raised; [None] is never returned. *)
Theorem getitem_str_lookup_order
        (self : Application MarshalerNode MetricSubDimensionMap)
        (entity_id : string) :
  let r := __getitem__ self (KeyStr entity_id) in
  r <> Ok None
  /\ ((exists node, r = Ok (Some node)) \/ (exists m, r = Raise (ValueError m)))
  /\ (forall node, get_data self entity_id = [node] -> r = Ok (Some node))
  /\ (get_data self entity_id = [] ->
      forall node, get_timer self entity_id = [node] -> r = Ok (Some node))
  /\ (get_data self entity_id = [] -> get_timer self entity_id = [] ->
      forall node, get_metric self entity_id None = [node] ->
                   r = Ok (Some node))
  /\ (get_data self entity_id = [] -> get_timer self entity_id = [] ->
      get_metric self entity_id None = [] ->
      forall node, get_alarm self entity_id AlarmALL = [node] ->
                   r = Ok (Some node))
  /\ (get_data self entity_id = [] -> get_timer self entity_id = [] ->
      get_metric self entity_id None = [] ->
      get_alarm self entity_id AlarmALL = [] ->
      r = Raise (ValueError (MsgNoActiveNode (Some entity_id)
                                             (app_id self)))).
Proof.
  cbv zeta. unfold __getitem__, data, timer, metric, alarm.
  refine (conj _ (conj _ (conj _ (conj _ (conj _ (conj _ _)))))).
  - destruct (unique_or_none_cases (get_data self entity_id)
                (MsgAmbiguousData entity_id))
      as [[_ ->]|[[n [_ ->]]| [_ ->]]]; simpl; try discriminate.
    destruct (unique_or_none_cases (get_timer self entity_id)
                (MsgAmbiguousTimer entity_id))
      as [[_ ->]|[[n [_ ->]]| [_ ->]]]; simpl; try discriminate.
    destruct (unique_or_none_cases (get_metric self entity_id None)
                (MsgAmbiguousMetric entity_id))
      as [[_ ->]|[[n [_ ->]]| [_ ->]]]; simpl; try discriminate.
    destruct (unique_or_none_cases (get_alarm self entity_id AlarmALL)
                (MsgAmbiguousAlarm entity_id))
      as [[_ ->]|[[n [_ ->]]| [_ ->]]]; simpl; discriminate.
  - destruct (unique_or_none_cases (get_data self entity_id)
                (MsgAmbiguousData entity_id))
      as [[_ ->]|[[n [_ ->]]| [_ ->]]]; simpl; eauto.
    destruct (unique_or_none_cases (get_timer self entity_id)
                (MsgAmbiguousTimer entity_id))
      as [[_ ->]|[[n [_ ->]]| [_ ->]]]; simpl; eauto.
    destruct (unique_or_none_cases (get_metric self entity_id None)
                (MsgAmbiguousMetric entity_id))
      as [[_ ->]|[[n [_ ->]]| [_ ->]]]; simpl; eauto.
    destruct (unique_or_none_cases (get_alarm self entity_id AlarmALL)
                (MsgAmbiguousAlarm entity_id))
      as [[_ ->]|[[n [_ ->]]| [_ ->]]]; simpl; eauto.
  - intros node ->. reflexivity.
  - intros -> node ->. reflexivity.
  - intros -> -> node ->. reflexivity.
  - intros -> -> -> node ->. reflexivity.
  - intros -> -> -> ->. reflexivity.
Qed.

End Facts.

(** C9 at an id with two data nodes and at an id with one. *)
Lemma data_resolves_exactly_one_witness :
  data Scenarios.shop "orders"
  = Raise (ValueError (MsgAmbiguousData "orders" 2))
  /\ data Scenarios.shop "sales" = Ok (Some 3).
Proof.
  split.
  - apply (proj1 (data_resolves_exactly_one Scenarios.shop "orders")).
    simpl. lia.
  - apply (proj2 (data_resolves_exactly_one Scenarios.shop "sales")).
    reflexivity.
Defined.

(** C10 at an id known as data node and as timer, at a timer id and at an
    unknown id. *)
Lemma getitem_str_lookup_order_witness :
  __getitem__ Scenarios.shop (KeyStr "sales") = Ok (Some 3)
  /\ __getitem__ Scenarios.shop (KeyStr "daily") = Ok (Some 4)
  /\ __getitem__ Scenarios.shop (KeyStr "nobody")
     = Raise (ValueError (MsgNoActiveNode (Some "nobody") "shop")).
Proof.
  pose proof (getitem_str_lookup_order Scenarios.shop "sales") as Hs.
  pose proof (getitem_str_lookup_order Scenarios.shop "daily") as Hd.
  pose proof (getitem_str_lookup_order Scenarios.shop "nobody") as Hn.
  cbv zeta in Hs, Hd, Hn.
  destruct Hs as (_ & _ & Hs & _).
  destruct Hd as (_ & _ & _ & Hd & _).
  destruct Hn as (_ & _ & _ & _ & _ & _ & Hn).
  refine (conj _ (conj _ _)).
  - apply Hs. reflexivity.
  - apply Hd; reflexivity.
  - apply Hn; reflexivity.
Defined.

End NodeLookupFacts.

(** ** Loops that may raise *)

Module PyFacts.

Section ForEach.

Variables A B : Type.
Variable f : A -> result B.

Lemma for_each_cons_ok (x : A) (xs : list A) (y : B) (ys : list B) :
  f x = Ok y -> for_each f xs = Ok ys ->
  for_each f (x :: xs) = Ok (y :: ys).
Proof. intros Hx Hxs. simpl. now rewrite Hx, Hxs. Qed.

Lemma for_each_cons_inv (x : A) (xs : list A) (zs : list B) :
  for_each f (x :: xs) = Ok zs ->
  exists y ys, f x = Ok y /\ for_each f xs = Ok ys /\ zs = y :: ys.
Proof.
  simpl. destruct (f x) as [y|e]; simpl; [|discriminate].
  destruct (for_each f xs) as [ys|e]; simpl; [|discriminate].
  intros [= <-]. now exists y, ys.
Qed.

(** A loop that ends normally has run its body on every element, in
    order. *)
Lemma for_each_ok_nth (xs : list A) :
  forall ys, for_each f xs = Ok ys ->
  forall i x, nth_error xs i = Some x ->
  exists y, f x = Ok y /\ nth_error ys i = Some y.
Proof.
  induction xs as [|x0 xs IH]; intros ys Hok i x Hi.
  - destruct i; discriminate.
  - apply for_each_cons_inv in Hok as (y & ys' & Hy & Hys & ->).
    destruct i as [|i]; simpl in Hi.
    + injection Hi as <-. now exists y.
    + apply (IH ys' Hys i x Hi).
Qed.

(** A loop that raises does so at the first element whose body raises. *)
Lemma for_each_raise (xs : list A) (e : exn) :
  for_each f xs = Raise e ->
  exists before x after,
    xs = before ++ x :: after
    /\ f x = Raise e
    /\ Forall (fun x' => exists y, f x' = Ok y) before.
Proof.
  induction xs as [|x0 xs IH]; simpl; [discriminate|].
  destruct (f x0) as [y|e0] eqn:Hx0; simpl.
  - destruct (for_each f xs) as [ys|e1]; simpl; [discriminate|].
    intros [= ->].
    destruct (IH eq_refl) as (before & x & after & -> & Hx & Hbefore).
    exists (x0 :: before), x, after. repeat split; auto.
    constructor; eauto.
  - intros [= ->]. exists [], x0, xs. repeat split; auto.
Qed.

(** A loop whose body raises nowhere ends normally. *)
Lemma for_each_total (xs : list A) :
  (forall x, In x xs -> exists y, f x = Ok y) ->
  exists ys, for_each f xs = Ok ys.
Proof.
  induction xs as [|x0 xs IH]; intros Hall.
  - now exists [].
  - destruct (Hall x0 (or_introl eq_refl)) as [y Hy].
    destruct IH as [ys Hys]; [intros x Hx; apply Hall; now right|].
    exists (y :: ys). now apply for_each_cons_ok.
Qed.

(** A loop over a list with an element whose body raises does raise. *)
Lemma for_each_fails (xs : list A) (x : A) (e : exn) :
  In x xs -> f x = Raise e -> exists e', for_each f xs = Raise e'.
Proof.
  intros Hin Hx.
  destruct (for_each f xs) as [ys|e'] eqn:Hrun; [|now exists e'].
  apply In_nth_error in Hin as [i Hi].
  destruct (for_each_ok_nth _ Hrun _ Hi) as (y & Hy & _). congruence.
Qed.

End ForEach.

End PyFacts.

(** ** Default output dimensions and links *)

Module DimLinksFacts.

Import DimLinks PyFacts.

(** *** The flattened map and the lookup by name *)

Lemma flattened_cons d sub rest :
  get_flattened_dimension_map (DimensionSpecOf ((d, sub) :: rest))
  = (dim_name d, d)
      :: nested_map sub ++ get_flattened_dimension_map (DimensionSpecOf rest).
Proof. destruct sub; reflexivity. Qed.

Lemma find_cons d sub rest name :
  spec_find_dimension_by_name (DimensionSpecOf ((d, sub) :: rest)) name
  = if String.eqb name (dim_name d) then Some d
    else match nested_find sub name with
         | Some found => Some found
         | None => spec_find_dimension_by_name (DimensionSpecOf rest) name
         end.
Proof. destruct sub; reflexivity. Qed.

(** Every entry of the flattened map is keyed by the name of its
    dimension. *)
Lemma flattened_keys spec :
  forall name dim,
    In (name, dim) (get_flattened_dimension_map spec) -> name = dim_name dim.
Proof.
  induction spec as [dims IH] using DimensionSpec_nested_ind.
  induction IH as [|[d sub] rest Hsub _ IHrest]; intros name dim Hin.
  - contradiction.
  - rewrite flattened_cons in Hin. destruct Hin as [Heq|Hin].
    + now injection Heq as <- <-.
    + apply in_app_or in Hin as [Hin|Hin].
      * destruct sub as [s|]; [|contradiction].
        exact (Hsub name dim Hin).
      * exact (IHrest name dim Hin).
Qed.

(** What the lookup finds has the name asked for. *)
Lemma find_has_name spec :
  forall name d, spec_find_dimension_by_name spec name = Some d ->
                 dim_name d = name.
Proof.
  induction spec as [dims IH] using DimensionSpec_nested_ind.
  induction IH as [|[d0 sub] rest Hsub _ IHrest]; intros name d Hfind.
  - discriminate.
  - rewrite find_cons in Hfind.
    destruct (String.eqb name (dim_name d0)) eqn:Hname.
    + injection Hfind as <-. apply String.eqb_eq in Hname. now symmetry.
    + destruct sub as [s|]; simpl in Hfind.
      * destruct (spec_find_dimension_by_name s name) as [found|] eqn:Hs.
        -- injection Hfind as <-. exact (Hsub name found Hs).
        -- exact (IHrest name d Hfind).
      * exact (IHrest name d Hfind).
Qed.

(** Every name of the flattened map is found. *)
Lemma find_flattened spec :
  forall name dim,
    In (name, dim) (get_flattened_dimension_map spec) ->
    exists d, spec_find_dimension_by_name spec name = Some d.
Proof.
  induction spec as [dims IH] using DimensionSpec_nested_ind.
  induction IH as [|[d0 sub] rest Hsub _ IHrest]; intros name dim Hin.
  - contradiction.
  - rewrite flattened_cons in Hin. rewrite find_cons.
    destruct (String.eqb name (dim_name d0)) eqn:Hname; [now exists d0|].
    destruct Hin as [Heq|Hin].
    + injection Heq as <- <-. now rewrite String.eqb_refl in Hname.
    + apply in_app_or in Hin as [Hin|Hin].
      * destruct sub as [s|]; [|contradiction]. simpl.
        destruct (Hsub name dim Hin) as [d ->]. now exists d.
      * destruct (nested_find sub name) as [found|]; [now exists found|].
        exact (IHrest name dim Hin).
Qed.

(** *** The search through the independent inputs *)

Lemma link_from_independent_none name signals :
  link_from_independent name signals = None <->
  Forall (fun s => spec_find_dimension_by_name
                     (dimension_spec (domain_spec s)) name = None) signals.
Proof.
  induction signals as [|s signals IH]; simpl.
  - split; [constructor|reflexivity].
  - destruct (spec_find_dimension_by_name
                (dimension_spec (domain_spec s)) name) eqn:Hs.
    + split; [discriminate|]. intros Hall. inversion Hall; congruence.
    + rewrite IH. split; [now constructor|]. intros Hall. now inversion Hall.
Qed.

(** The link found points at the first independent input, in declaration
    order, that has the dimension. *)
Lemma link_from_independent_first name all_signals :
  forall link,
    link_from_independent
      name (filter (fun input => negb (is_dependent input)) all_signals)
    = Some link ->
    exists other d,
      first_independent_exposing name all_signals other d
      /\ link = (OutputDimension name, None,
                 InputDimension {| sdt_signal := clone other None;
                                   sdt_dimension := Some d |}).
Proof.
  induction all_signals as [|s rest IH]; intros link Hlink.
  - discriminate.
  - simpl in Hlink. destruct (is_dependent s) eqn:Hdep; simpl in Hlink.
    + destruct (IH link Hlink)
        as (other & d & (before & after & -> & Hind & Hd & Hbefore) & ->).
      exists other, d. split; [|reflexivity].
      exists (s :: before), after. repeat split; auto.
    + destruct (spec_find_dimension_by_name
                  (dimension_spec (domain_spec s)) name) as [d|] eqn:Hs.
      * injection Hlink as <-. exists s, d. split; [|reflexivity].
        exists [], rest. repeat split; auto.
      * destruct (IH link Hlink)
          as (other & d & (before & after & -> & Hind & Hd & Hbefore) & ->).
        exists other, d. split; [|reflexivity].
        exists (s :: before), after. repeat split; auto.
Qed.

Lemma link_from_independent_none_all name all_signals :
  link_from_independent
    name (filter (fun input => negb (is_dependent input)) all_signals)
  = None <->
  (forall s, In s all_signals -> is_dependent s = false ->
             spec_find_dimension_by_name
               (dimension_spec (domain_spec s)) name = None).
Proof.
  rewrite link_from_independent_none, Forall_forall. split.
  - intros H s Hin Hdep. apply H. apply filter_In. split; [assumption|].
    now rewrite Hdep.
  - intros H s Hin. apply filter_In in Hin as [Hin Hdep].
    apply H; [assumption|]. now destruct (is_dependent s).
Qed.

(** *** The call itself *)

Lemma link_dependent_dimension_eq id first independent_signals name dim :
  link_dependent_dimension id first (clone first None) independent_signals
                           (name, dim)
  = match filter_find_dimension_by_name
            (dimension_filter_spec (domain_spec first)) name with
    | None => Raise AttributeError
    | Some dim_variant =>
        if is_material_value dim_variant
        then Ok (OutputDimension name, None, Literal (var_value dim_variant))
        else
          match link_from_independent name independent_signals with
          | None =>
              Raise (ValueError
                       (MsgCannotLinkDimension name (alias first) id))
          | Some link => Ok link
          end
    end.
Proof. reflexivity. Qed.

(** With inputs, no spec and no links given, a dependent first input sends
    the call through the loop over its flattened dimensions. *)
Lemma default_output_dimensions_dependent id inputs first rest links_arg :
  all_signals_of inputs = first :: rest ->
  is_dependent first = true ->
  links_given links_arg = false ->
  default_output_dimensions id (Some inputs) None links_arg
  = (links <- dependent_links id first (first :: rest) ;;
     Ok (dimension_spec (domain_spec first), Some links)).
Proof.
  intros Hall Hdep Hlinks. unfold default_output_dimensions. simpl.
  rewrite Hall, Hlinks. simpl. rewrite Hdep. reflexivity.
Qed.

Lemma default_output_dimensions_independent id inputs first rest links_arg :
  all_signals_of inputs = first :: rest ->
  is_dependent first = false ->
  links_given links_arg = false ->
  default_output_dimensions id (Some inputs) None links_arg
  = Ok (dimension_spec (domain_spec first),
        Some (identity_links (clone first None))).
Proof.
  intros Hall Hdep Hlinks. unfold default_output_dimensions. simpl.
  rewrite Hall, Hlinks. simpl. rewrite Hdep. reflexivity.
Qed.

(** The loop ends normally when every dimension of the first input has a
    variant that is material or is found on an independent input. *)
Lemma dependent_links_total id first all_signals :
  (forall name dim,
      In (name, dim)
         (get_flattened_dimension_map (dimension_spec (domain_spec first))) ->
      exists variant,
        filter_find_dimension_by_name
          (dimension_filter_spec (domain_spec first)) name = Some variant
        /\ (is_material_value variant = true
            \/ exists s d,
                In s all_signals /\ is_dependent s = false
                /\ spec_find_dimension_by_name
                     (dimension_spec (domain_spec s)) name = Some d)) ->
  exists links, dependent_links id first all_signals = Ok links.
Proof.
  intros Hall. unfold dependent_links. apply for_each_total.
  intros [name dim] Hin. simpl in Hin.
  destruct (Hall name dim Hin) as (variant & Hvar & Hlinkable).
  rewrite link_dependent_dimension_eq. rewrite Hvar.
  destruct (is_material_value variant) eqn:Hmat; [eauto|].
  destruct Hlinkable as [Hm|(s & d & Hs & Hind & Hd)]; [discriminate|].
  destruct (link_from_independent name
              (filter (fun input => negb (is_dependent input)) all_signals))
    as [link|] eqn:Hlink; [eauto|].
  rewrite link_from_independent_none_all in Hlink.
  rewrite (Hlink s Hs Hind) in Hd. discriminate.
Qed.

(** With compute targets given, [_create_or_update_data_with_defaults] hands
    on the spec and the links of [default_output_dimensions]; when these
    cannot be had, it raises what [default_output_dimensions] raises. *)
Lemma create_or_update_hands_on_defaults
      id inputs output_dimension_spec output_dim_links code :
  code <> "" ->
  _create_or_update_data_with_defaults
    id inputs output_dimension_spec output_dim_links (Some (TargetCode code))
  = (defaults <- default_output_dimensions
                   id inputs output_dimension_spec output_dim_links ;;
     Ok {| arg_id := id;
           arg_output_dimension_spec := fst defaults;
           arg_output_dim_links :=
             match snd defaults with Some l => l | None => [] end;
           arg_compute_targets :=
             [GlueBatchCompute code G_1X 100 (12 * 60)] |}).
Proof.
  intros Hcode. unfold _create_or_update_data_with_defaults.
  destruct (default_output_dimensions
              id inputs output_dimension_spec output_dim_links)
    as [[spec links]|e]; [|reflexivity].
  simpl. destruct code as [|c code]; [now contradiction Hcode|].
  do 2 f_equal. now destruct links as [[|l links]|].
Qed.

(** C3. With inputs, no output spec and no output links given and a
    dependent first input: a dimension whose variant on that input holds a
    material value is linked to the literal value of the variant, by the
    loop body and in the links the call hands on, and that link does not
    refer to an input signal. *)
Theorem dependent_first_input_literal_links
        id inputs first rest links_arg i name dim variant :
  all_signals_of inputs = first :: rest ->
  is_dependent first = true ->
  links_given links_arg = false ->
  nth_error (get_flattened_dimension_map
               (dimension_spec (domain_spec first))) i = Some (name, dim) ->
  filter_find_dimension_by_name
    (dimension_filter_spec (domain_spec first)) name = Some variant ->
  is_material_value variant = true ->
  link_dependent_dimension
    id first (clone first None)
    (filter (fun input => negb (is_dependent input)) (first :: rest))
    (name, dim)
  = Ok (OutputDimension name, None, Literal (var_value variant))
  /\ forall spec links,
      default_output_dimensions id (Some inputs) None links_arg
      = Ok (spec, links) ->
      exists ls,
        links = Some ls
        /\ nth_error ls i
           = Some (OutputDimension name, None, Literal (var_value variant))
        /\ forall t, nth_error ls i
                     <> Some (OutputDimension name, None, InputDimension t).
Proof.
  intros Hall Hdep Hlinks Hi Hvar Hmat.
  assert (Hbody :
            link_dependent_dimension
              id first (clone first None)
              (filter (fun input => negb (is_dependent input)) (first :: rest))
              (name, dim)
            = Ok (OutputDimension name, None, Literal (var_value variant))).
  { rewrite link_dependent_dimension_eq. now rewrite Hvar, Hmat. }
  split; [exact Hbody|].
  intros spec links Hcall.
  rewrite (default_output_dimensions_dependent id inputs links_arg
             Hall Hdep Hlinks) in Hcall.
  destruct (dependent_links id first (first :: rest)) as [ls|e] eqn:Hloop;
    simpl in Hcall; [|discriminate].
  injection Hcall as _ <-. exists ls. split; [reflexivity|].
  unfold dependent_links in Hloop.
  destruct (for_each_ok_nth _ _ Hloop _ Hi) as (link & Hlink & Hnth).
  rewrite Hbody in Hlink. injection Hlink as <-.
  split; [exact Hnth|]. intros t. rewrite Hnth. discriminate.
Qed.

(** C4. With inputs, no output spec and no output links given and a
    dependent first input: when the call returns, a dimension whose variant
    is not material is linked to the same-named dimension of the first
    independent input in declaration order that has one; when such a
    dimension is on no independent input, the call raises a [ValueError]
    that names a dimension in that situation; the call returns whenever
    every dimension is material or on an independent input. *)
Theorem dependent_first_input_independent_links
        id inputs first rest links_arg :
  all_signals_of inputs = first :: rest ->
  is_dependent first = true ->
  links_given links_arg = false ->
  let flat :=
    get_flattened_dimension_map (dimension_spec (domain_spec first)) in
  let variant_of :=
    filter_find_dimension_by_name
      (dimension_filter_spec (domain_spec first)) in
  let on_no_independent name :=
    forall s, In s (first :: rest) -> is_dependent s = false ->
              spec_find_dimension_by_name
                (dimension_spec (domain_spec s)) name = None in
  let r := default_output_dimensions id (Some inputs) None links_arg in
  (forall spec links, r = Ok (spec, links) ->
     forall i name dim variant,
       nth_error flat i = Some (name, dim) ->
       variant_of name = Some variant ->
       is_material_value variant = false ->
       exists other d ls,
         first_independent_exposing name (first :: rest) other d
         /\ dim_name d = name
         /\ links = Some ls
         /\ nth_error ls i
            = Some (OutputDimension name, None,
                    InputDimension {| sdt_signal := clone other None;
                                      sdt_dimension := Some d |}))
  /\ ((forall name dim, In (name, dim) flat -> variant_of name <> None) ->
      forall name dim variant,
        In (name, dim) flat ->
        variant_of name = Some variant ->
        is_material_value variant = false ->
        on_no_independent name ->
        exists name' dim' variant',
          r = Raise (ValueError
                       (MsgCannotLinkDimension name' (alias first) id))
          /\ In (name', dim') flat
          /\ variant_of name' = Some variant'
          /\ is_material_value variant' = false
          /\ on_no_independent name')
  /\ ((forall name dim,
         In (name, dim) flat ->
         exists variant,
           variant_of name = Some variant
           /\ (is_material_value variant = true
               \/ exists s d,
                   In s (first :: rest) /\ is_dependent s = false
                   /\ spec_find_dimension_by_name
                        (dimension_spec (domain_spec s)) name = Some d)) ->
      exists ls, r = Ok (dimension_spec (domain_spec first), Some ls)).
Proof.
  intros Hall Hdep Hlinks flat variant_of on_no_independent r.
  subst r. rewrite (default_output_dimensions_dependent id inputs links_arg
                      Hall Hdep Hlinks).
  refine (conj _ (conj _ _)).
  - intros spec links Hcall i name dim variant Hi Hvar Hmat.
    destruct (dependent_links id first (first :: rest)) as [ls|e] eqn:Hloop;
      simpl in Hcall; [|discriminate].
    injection Hcall as _ <-.
    unfold dependent_links in Hloop.
    destruct (for_each_ok_nth _ _ Hloop _ Hi) as (link & Hlink & Hnth).
    rewrite link_dependent_dimension_eq in Hlink.
    subst variant_of. simpl in Hvar. rewrite Hvar, Hmat in Hlink.
    destruct (link_from_independent name
                (filter (fun input => negb (is_dependent input))
                        (first :: rest))) as [l|] eqn:Hfound;
      [|discriminate].
    injection Hlink as <-.
    destruct (link_from_independent_first _ _ Hfound)
      as (other & d & Hfirst & ->).
    exists other, d, ls. repeat split; auto.
    destruct Hfirst as (before & after & _ & _ & Hd & _).
    exact (find_has_name _ _ Hd).
  - intros Hwf name dim variant Hin Hvar Hmat Hnone.
    assert (Hbody :
              link_dependent_dimension
                id first (clone first None)
                (filter (fun input => negb (is_dependent input))
                        (first :: rest)) (name, dim)
              = Raise (ValueError
                         (MsgCannotLinkDimension name (alias first) id))).
    { rewrite link_dependent_dimension_eq.
      subst variant_of. simpl in Hvar. rewrite Hvar, Hmat.
      now rewrite (proj2 (link_from_independent_none_all name (first :: rest))
                         Hnone). }
    destruct (for_each_fails _ _ _ Hin Hbody) as [e Hloop].
    assert (Hloop' : dependent_links id first (first :: rest) = Raise e)
      by exact Hloop.
    rewrite Hloop'. simpl.
    apply for_each_raise in Hloop
      as (before & [name' dim'] & after & Hflat & Hraise & _).
    assert (Hin' : In (name', dim') flat).
    { subst flat. simpl in Hflat. rewrite Hflat.
      apply in_or_app. right. now left. }
    rewrite link_dependent_dimension_eq in Hraise.
    specialize (Hwf name' dim' Hin'). subst variant_of. simpl in Hwf.
    destruct (filter_find_dimension_by_name
                (dimension_filter_spec (domain_spec first)) name')
      as [variant'|] eqn:Hvar'; [|contradiction].
    destruct (is_material_value variant') eqn:Hmat'; [discriminate|].
    destruct (link_from_independent name'
                (filter (fun input => negb (is_dependent input))
                        (first :: rest))) as [l|] eqn:Hfound;
      [discriminate|].
    injection Hraise as <-.
    exists name', dim', variant'. repeat split; auto.
    exact (proj1 (link_from_independent_none_all name' (first :: rest))
                 Hfound).
  - intros Hall'.
    destruct (dependent_links_total id first (first :: rest) Hall')
      as [ls Hls].
    exists ls. now rewrite Hls.
Qed.

(** C5. With inputs and no output spec given and an independent first
    input: the output spec is the spec of the first input, as it is; and
    when no output links are given either, there is one link per dimension
    of the flattened spec, in order, from the output dimension of that name
    through the identity (no mapper) to the dimension of that name on the
    first input. *)
Theorem independent_first_input_defaults id inputs first rest links_arg :
  all_signals_of inputs = first :: rest ->
  is_dependent first = false ->
  let flat :=
    get_flattened_dimension_map (dimension_spec (domain_spec first)) in
  let r := default_output_dimensions id (Some inputs) None links_arg in
  (exists links, r = Ok (dimension_spec (domain_spec first), links))
  /\ (links_given links_arg = false ->
      exists ls,
        r = Ok (dimension_spec (domain_spec first), Some ls)
        /\ List.length ls = List.length flat
        /\ forall i name dim,
            nth_error flat i = Some (name, dim) ->
            exists d,
              spec_find_dimension_by_name
                (dimension_spec (domain_spec first)) name = Some d
              /\ dim_name d = name
              /\ nth_error ls i
                 = Some (OutputDimension name, None,
                         InputDimension {| sdt_signal := clone first None;
                                           sdt_dimension := Some d |})).
Proof.
  intros Hall Hdep flat r. split.
  - destruct (links_given links_arg) eqn:Hlinks.
    + exists links_arg. subst r. unfold default_output_dimensions. simpl.
      now rewrite Hall, Hlinks.
    + subst r. rewrite (default_output_dimensions_independent
                          id inputs links_arg Hall Hdep Hlinks). eauto.
  - intros Hlinks. subst r.
    rewrite (default_output_dimensions_independent
               id inputs links_arg Hall Hdep Hlinks).
    exists (identity_links (clone first None)).
    split; [reflexivity|]. unfold identity_links. simpl. fold flat.
    split; [now rewrite !length_map|].
    intros i name dim Hi.
    destruct (find_flattened _ _ _ (nth_error_In _ _ Hi)) as [d Hd].
    exists d. split; [exact Hd|]. split; [exact (find_has_name _ _ Hd)|].
    rewrite !nth_error_map, Hi. simpl. now rewrite Hd.
Qed.

(** C3 at the inputs [rates, orders, clicks]: the region of the dependent
    [rates] is the literal ["NA"]. *)
Lemma dependent_first_input_literal_links_witness :
  exists ls,
    default_output_dimensions
      "converted" (Some (InputsList [Scenarios.rates; Scenarios.orders;
                                     Scenarios.clicks])) None None
    = Ok (Scenarios.region_day, Some ls)
    /\ nth_error ls 0
       = Some (OutputDimension "region", None, Literal (VStr "NA")).
Proof.
  destruct (dependent_first_input_literal_links
              "converted"
              (InputsList [Scenarios.rates; Scenarios.orders;
                           Scenarios.clicks])
              (rest := [Scenarios.orders; Scenarios.clicks])
              None 0 (dim := Scenarios.region) (variant := Scenarios.region_NA)
              eq_refl eq_refl eq_refl eq_refl eq_refl eq_refl)
    as [_ Hcall].
  destruct (Hcall Scenarios.region_day _ eq_refl) as (ls & Hls & Hnth & _).
  exists ls. split; [|exact Hnth].
  simpl. simpl in Hls. now rewrite <- Hls.
Defined.

(** C4 at the inputs [rates, orders, clicks]: the day comes from [orders],
    the first independent input; and at [rates] alone, where it comes from
    nowhere. *)
Lemma dependent_first_input_independent_links_witness :
  (exists ls,
      default_output_dimensions
        "converted" (Some (InputsList [Scenarios.rates; Scenarios.orders;
                                       Scenarios.clicks])) None None
      = Ok (Scenarios.region_day, Some ls)
      /\ nth_error ls 1
         = Some (OutputDimension "day", None,
                 InputDimension
                   {| sdt_signal := clone Scenarios.orders None;
                      sdt_dimension := Some Scenarios.day |}))
  /\ default_output_dimensions
       "converted" (Some (InputsList [Scenarios.rates])) None None
     = Raise (ValueError
                (MsgCannotLinkDimension "day" (Some "rates") "converted")).
Proof.
  split.
  - destruct (dependent_first_input_independent_links
                "converted"
                (InputsList [Scenarios.rates; Scenarios.orders;
                             Scenarios.clicks])
                (rest := [Scenarios.orders; Scenarios.clicks])
                None eq_refl eq_refl eq_refl) as (Hok & _ & _).
    destruct (Hok Scenarios.region_day _ eq_refl 1 "day" Scenarios.day
                  Scenarios.any_day eq_refl eq_refl eq_refl)
      as (other & d & ls & _ & _ & Hls & _).
    exists ls. injection Hls as <-. split; reflexivity.
  - destruct (dependent_first_input_independent_links
                "converted" (InputsList [Scenarios.rates]) (rest := [])
                None eq_refl eq_refl eq_refl) as (_ & Hfail & _).
    destruct (Hfail) with (name := "day") (dim := Scenarios.day)
                          (variant := Scenarios.any_day)
      as (name' & dim' & variant' & Hraise & _).
    + intros name dim [Heq|[Heq|[]]]; injection Heq as <- <-; discriminate.
    + right. now left.
    + reflexivity.
    + reflexivity.
    + intros s [<-|[]]. discriminate.
    + reflexivity.
Defined.

(** C5 at the inputs [clicks, rates]: the spec of [clicks], and the day
    linked to the day of [clicks]. *)
Lemma independent_first_input_defaults_witness :
  exists ls,
    default_output_dimensions
      "report" (Some (InputsList [Scenarios.clicks; Scenarios.rates]))
      None None
    = Ok (Scenarios.region_day, Some ls)
    /\ nth_error ls 1
       = Some (OutputDimension "day", None,
               InputDimension {| sdt_signal := clone Scenarios.clicks None;
                                 sdt_dimension := Some Scenarios.day |}).
Proof.
  destruct (independent_first_input_defaults
              "report" (InputsList [Scenarios.clicks; Scenarios.rates])
              (rest := [Scenarios.rates]) None eq_refl eq_refl)
    as [_ Hlinks].
  destruct (Hlinks eq_refl) as (ls & Hcall & _ & _).
  exists ls. split; [exact Hcall|].
  injection Hcall as <-. reflexivity.
Defined.

End DimLinksFacts.

(** ** The transient load of a catalog table *)

Module TransientLoadFacts.

Import TransientLoad.

Section Facts.

Variable Context : Type.
Variable create_data_effect : Session Context -> Session Context.
Variable execute_effect : option exn -> Session Context -> Session Context.

(** Creating and executing a node leave the slot of the saved development
    state alone. *)
Hypothesis create_data_keeps_slot :
  forall self,
    saved_dev_state (create_data_effect self) = saved_dev_state self.
Hypothesis execute_keeps_slot :
  forall outcome self,
    saved_dev_state (execute_effect outcome self) = saved_dev_state self.





(** The paths that do not reach the staging: a generator that is never
    started, an object-store source, a node that is not in the
    development context. The session is not touched. *)
Lemma load_external_data_untouched data_id o c (self : Session Context) :
  c = CloseAfter 0 \/ source o <> GLUE_TABLE \/ in_dev_context o = false ->
  session (_load_external_data create_data_effect execute_effect
                              data_id o c self) = self.
Proof.
  intros Hpath. unfold _load_external_data.
  destruct c as [|[|n]]; try reflexivity;
    destruct Hpath as [Hc|[Hs|Hd]]; try discriminate;
    destruct (source o); try reflexivity; try (now contradiction Hs);
    try match goal with
        | |- context [consume ?c ?l ?f] =>
            destruct (consume c l f); reflexivity
        end;
    unfold glue_table_branch; rewrite Hd; reflexivity.
Qed.

(** [create_data] is called before [try]: when it raises, nothing is
    unwound; the contexts are as they were found and the saved development
    state stays in the slot. *)
Lemma create_data_failure_keeps_snapshot data_id o c e
      (self : Session Context) :
  source o = GLUE_TABLE ->
  in_dev_context o = true ->
  create_data_raises o = Some e ->
  c <> CloseAfter 0 ->
  let run := _load_external_data create_data_effect execute_effect
                                data_id o c self in
  exit run = Failed e
  /\ session run = save_dev_state self.
Proof.
  intros Hsource Hdev Hcreate Hstarted. unfold _load_external_data.
  rewrite Hsource.
  destruct c as [|[|n]]; try (now contradiction Hstarted);
    unfold glue_table_branch; rewrite Hdev, Hcreate; now split.
Qed.

End Facts.


End TransientLoadFacts.

(** ** Loading data *)

Module LoadDataFacts.

Import LoadData.

(** *** Slices and the limit *)

Lemma len_app {A} (l1 l2 : list A) : len (l1 ++ l2) = (len l1 + len l2)%Z.
Proof. unfold len. rewrite length_app. lia. Qed.

Lemma len_nonneg {A} (l : list A) : (0 <= len l)%Z.
Proof. unfold len. lia. Qed.

(** With the counter [r] below the limit before the partition: the loop
    stops when the limit is reached, keeps the first [limit - r] records
    of the partition, and the counter never passes the limit. *)
Lemma apply_limit_below (limit r : Z) (rows : list Row) :
  (r < limit)%Z ->
  apply_limit (Some limit) (r + len rows) rows
  = ((limit <=? r + len rows)%Z,
     firstn (Z.to_nat (limit - r)) rows,
     Z.min limit (r + len rows)).
Proof.
  intros Hr. unfold apply_limit, slice_to, len.
  destruct (limit <=? r + Z.of_nat (List.length rows))%Z eqn:Hstop.
  - apply Z.leb_le in Hstop.
    destruct (limit <? r + Z.of_nat (List.length rows))%Z eqn:Hover.
    + apply Z.ltb_lt in Hover.
      destruct (0 <=? limit - (r + Z.of_nat (List.length rows)))%Z eqn:Hneg;
        [apply Z.leb_le in Hneg; lia|].
      f_equal; [do 2 f_equal; lia | lia].
    + apply Z.ltb_ge in Hover.
      rewrite firstn_all2 by lia. f_equal; lia.
  - apply Z.leb_gt in Hstop.
    rewrite firstn_all2 by lia. f_equal; lia.
Qed.

Lemma apply_limit_none (r : Z) (rows : list Row) :
  apply_limit None r rows = (false, rows, r).
Proof. reflexivity. Qed.

(** The first [n] records of what was gathered and what one more partition
    adds, when the gathered records are fewer than [n]. *)
Lemma firstn_gathered {A} (n : Z) (gathered more rest : list A) :
  (len gathered < n)%Z ->
  (n <= len gathered + len more)%Z ->
  firstn (Z.to_nat n) (gathered ++ more ++ rest)
  = gathered ++ firstn (Z.to_nat (n - len gathered)) more.
Proof.
  unfold len. intros Hlt Hle.
  rewrite firstn_app, firstn_all2 by lia. f_equal.
  rewrite firstn_app.
  replace (Z.to_nat n - List.length gathered - List.length more) with 0
    by lia.
  rewrite firstn_O, app_nil_r. f_equal. lia.
Qed.

#[local] Arguments apply_limit : simpl never.

(** *** Where reading stops *)

Lemma stops_at_limit_last {P} (rows_of : list P -> Z) limit gathered p rest :
  rows_of [] = 0%Z ->
  (gathered < limit)%Z ->
  (limit <= gathered + rows_of [p])%Z ->
  stops_at_limit rows_of limit gathered (p :: rest) [p].
Proof.
  intros Hnil Hbelow Hreach. exists rest. repeat split; auto.
  intros shorter q Heq.
  destruct shorter as [|s shorter]; [rewrite Hnil; lia|].
  destruct shorter; discriminate.
Qed.

Lemma stops_at_limit_next {P} (rows_of : list P -> Z)
      limit gathered p rest read :
  rows_of [] = 0%Z ->
  (forall l, rows_of (p :: l) = rows_of [p] + rows_of l)%Z ->
  (gathered < limit)%Z ->
  stops_at_limit rows_of limit (gathered + rows_of [p]) rest read ->
  stops_at_limit rows_of limit gathered (p :: rest) (p :: read).
Proof.
  intros Hnil Hcons Hbelow (unread & -> & Hshort & Hreach).
  exists unread. repeat split; auto.
  - intros shorter q Heq.
    destruct shorter as [|s shorter]; [rewrite Hnil; lia|].
    injection Heq as <- Heq. rewrite Hcons.
    specialize (Hshort _ _ Heq). lia.
  - intros Hun. rewrite Hcons. specialize (Hreach Hun). lia.
Qed.

Lemma stops_at_limit_nil {P} (rows_of : list P -> Z) limit gathered :
  stops_at_limit rows_of limit gathered [] [].
Proof.
  exists []. repeat split; auto.
  - intros shorter p Heq. destruct shorter; discriminate.
  - intros H. now contradiction H.
Qed.

Section Facts.

Variable csv_reader : string -> list Row.
Variable pd_read_csv : string -> list Row.
Variable pd_read_parquet : string -> option (list Row).
Variable pd_read_json : string -> list Row.

Local Abbreviation load_data :=
  (LoadData.load_data csv_reader pd_read_csv pd_read_parquet pd_read_json).
Local Abbreviation decode_partitions :=
  (LoadData.decode_partitions csv_reader pd_read_csv pd_read_parquet
                              pd_read_json).
Local Abbreviation csv_count := (LoadData.csv_count csv_reader).
Local Abbreviation pandas_count :=
  (LoadData.pandas_count pd_read_csv pd_read_parquet pd_read_json).
Local Abbreviation frame :=
  (LoadData.pandas_frame pd_read_csv pd_read_parquet pd_read_json).
Local Abbreviation frames :=
  (LoadData.pandas_frames pd_read_csv pd_read_parquet pd_read_json).
Local Abbreviation decode :=
  (LoadData.pandas_decode pd_read_csv pd_read_parquet pd_read_json).

(** *** The loops in merged mode, under a limit *)

Lemma yielded_emit_read p t : yielded (emit (Read p) t) = yielded t.
Proof. reflexivity. Qed.

Lemma read_emit_read p t :
  partitions_read (emit (Read p) t) = p :: partitions_read t.
Proof. reflexivity. Qed.

Lemma csv_records_cons path data rest :
  csv_records csv_reader ((path, data) :: rest)
  = (if String.eqb data "" then [] else csv_reader data)
      ++ csv_records csv_reader rest.
Proof. reflexivity. Qed.


Lemma csv_count_one path data :
  csv_count [(path, data)]
  = len (if String.eqb data "" then [] else csv_reader data).
Proof.
  unfold LoadData.csv_count. rewrite csv_records_cons.
  simpl (csv_records csv_reader []). now rewrite app_nil_r.
Qed.

Lemma csv_count_cons p l : csv_count (p :: l) = (csv_count [p] + csv_count l)%Z.
Proof.
  destruct p as [path data]. unfold LoadData.csv_count.
  rewrite !csv_records_cons. simpl (csv_records csv_reader []).
  rewrite app_nil_r. apply len_app.
Qed.

Lemma csv_loop_no_header_merged (limit : Z) (parts : list Partition) :
  forall all_data,
    (len all_data < limit)%Z ->
    let t := csv_loop csv_reader false (Some limit) false parts
                      all_data (len all_data) in
    yielded t
    = [CsvRows (firstn (Z.to_nat limit)
                       (all_data ++ csv_records csv_reader parts))]
    /\ snd t = Returned
    /\ exists read,
        partitions_read t = map fst read
        /\ stops_at_limit csv_count limit (len all_data) parts read.
Proof.
  induction parts as [|[path data] rest IH]; intros all_data Hbelow.
  - simpl. rewrite app_nil_r, firstn_all2 by (unfold len in Hbelow; lia).
    repeat split. exists []. split; [reflexivity|].
    apply stops_at_limit_nil.
  - cbv zeta. rewrite csv_records_cons. cbn [csv_loop].
    rewrite yielded_emit_read, read_emit_read.
    change (snd (emit (Read path) ?t)) with (snd t).
    destruct (String.eqb data "") eqn:Hdata.
    { destruct (IH all_data Hbelow) as (Hy & Hs & read & Hr & Hstop).
      split; [exact Hy|]. split; [exact Hs|].
      exists ((path, data) :: read).
      split; [simpl; now rewrite Hr|].
      apply (@stops_at_limit_next _ csv_count limit _ (path, data) rest read
                eq_refl (csv_count_cons (path, data)) Hbelow).
      match goal with
      | |- stops_at_limit _ _ (_ + ?c)%Z _ _ => replace c with 0%Z
      end; [now rewrite Z.add_0_r|].
      rewrite csv_count_one. now rewrite Hdata. }
    pose proof (csv_count_one path data) as Hcount.
    rewrite Hdata in Hcount.
    rewrite (apply_limit_below _ Hbelow). simpl same_header. cbv iota beta.
    destruct (limit <=? len all_data + len (csv_reader data))%Z eqn:Hstop.
    + apply Z.leb_le in Hstop. simpl.
      split; [now rewrite (firstn_gathered _ _ _ Hbelow Hstop)|].
      split; [reflexivity|].
      exists [(path, data)]. split; [reflexivity|].
      apply (@stops_at_limit_last _ csv_count limit _ (path, data) rest
                eq_refl Hbelow).
      match goal with
      | |- (_ <= _ + ?c)%Z => replace c with (len (csv_reader data))
      end; [exact Hstop | ..]; now symmetry.
    + apply Z.leb_gt in Hstop.
      rewrite firstn_all2 by (unfold len in *; lia).
      replace (Z.min limit (len all_data + len (csv_reader data)))
        with (len (all_data ++ csv_reader data))
        by (rewrite len_app; lia).
      rewrite app_assoc.
      destruct (IH (all_data ++ csv_reader data))
        as (Hy & Hs & read & Hr & Hstops);
        [rewrite len_app; lia|].
      split; [exact Hy|]. split; [exact Hs|].
      exists ((path, data) :: read).
      split; [simpl; now rewrite Hr|].
      apply (@stops_at_limit_next _ csv_count limit _ (path, data) rest read
                eq_refl (csv_count_cons (path, data)) Hbelow).
      match goal with
      | |- stops_at_limit _ _ (_ + ?c)%Z _ _ =>
          replace c with (len (csv_reader data))
      end; [now rewrite len_app in Hstops | ..]; now symmetry.
Qed.


Lemma pandas_frames_cons format path data rest :
  frames format ((path, data) :: rest)
  = (if String.eqb data "" then [] else frame format data)
      ++ frames format rest.
Proof. reflexivity. Qed.

Lemma pandas_count_cons format p l :
  pandas_count format (p :: l)
  = (pandas_count format [p] + pandas_count format l)%Z.
Proof.
  destruct p as [path data]. unfold LoadData.pandas_count.
  rewrite !pandas_frames_cons. simpl (frames format []).
  rewrite app_nil_r, concat_app. apply len_app.
Qed.

Lemma pandas_count_one format path data :
  pandas_count format [(path, data)]
  = len (List.concat (if String.eqb data "" then []
                      else frame format data)).
Proof.
  unfold LoadData.pandas_count. rewrite pandas_frames_cons.
  simpl (frames format []). now rewrite app_nil_r.
Qed.


Lemma pandas_merge_concat (dfs : list (list Row)) :
  dfs <> [] ->
  pandas_merge false dfs
  = ([Log (LogRetrieved (len (List.concat dfs)));
      Yield (DataFrame (List.concat dfs))], Returned).
Proof.
  destruct dfs as [|df0 [|df1 dfs]]; intros Hne.
  - now contradiction Hne.
  - simpl. now rewrite app_nil_r.
  - reflexivity.
Qed.

(** What pandas makes of a partition with a payload, against the whole
    frame [full] the partition holds: the frame read agrees with [full]
    on the records still wanted, and it is all of [full] unless it was
    cut to the number still wanted. *)
Lemma pandas_decode_frame format limit r data :
  (r < limit)%Z ->
  (forall name, format <> OtherDataFormat name) ->
  match decode format (Some limit) r data with
  | Frame df =>
      exists full,
        frame format data = [full]
        /\ firstn (Z.to_nat (limit - r)) df
           = firstn (Z.to_nat (limit - r)) full
        /\ (df = full
            \/ (len df = limit - r /\ limit - r <= len full)%Z)
  | Skipped => frame format data = []
  | Failed _ => False
  end.
Proof.
  intros Hbelow Hformat. unfold pandas_decode, pandas_frame.
  destruct format as [| | |name].
  - exists (pd_read_csv data). split; [reflexivity|].
    split; [now rewrite firstn_firstn, Nat.min_id|].
    destruct (Z_lt_le_dec (len (pd_read_csv data)) (limit - r)) as [H|H].
    + left. apply firstn_all2. unfold len in H. lia.
    + right. split; [|exact H]. unfold len in *.
      rewrite length_firstn. lia.
  - destruct (pd_read_parquet data) as [df|]; [|reflexivity].
    exists df. auto.
  - exists (pd_read_json data). auto.
  - now contradiction (Hformat name).
Qed.

Lemma pandas_loop_merged format (limit : Z) (parts : list Partition) :
  (forall name, format <> OtherDataFormat name) ->
  forall dfs,
    (len (List.concat dfs) < limit)%Z ->
    dfs <> [] \/ frames format parts <> [] ->
    let t := pandas_loop pd_read_csv pd_read_parquet pd_read_json
                         format (Some limit) false parts dfs
                         (len (List.concat dfs)) in
    yielded t
    = [DataFrame (firstn (Z.to_nat limit)
                         (List.concat dfs
                            ++ List.concat (frames format parts)))]
    /\ snd t = Returned
    /\ exists read,
        partitions_read t = map fst read
        /\ stops_at_limit (pandas_count format) limit (len (List.concat dfs))
                          parts read.
Proof.
  intros Hformat.
  induction parts as [|[path data] rest IH]; intros dfs Hbelow Hsome.
  - destruct Hsome as [Hsome|Hsome]; [|now contradiction Hsome].
    cbv zeta. cbn [pandas_loop]. rewrite (pandas_merge_concat Hsome).
    simpl. rewrite app_nil_r, firstn_all2 by (unfold len in Hbelow; lia).
    repeat split. exists []. split; [reflexivity|].
    apply stops_at_limit_nil.
  - cbv zeta. rewrite pandas_frames_cons. cbn [pandas_loop].
    rewrite yielded_emit_read, read_emit_read.
    change (snd (emit (Read path) ?t)) with (snd t).
    rewrite pandas_frames_cons in Hsome.
    pose proof (pandas_count_one format path data) as Hcount.
    destruct (String.eqb data "") eqn:Hdata.
    { destruct (IH dfs Hbelow Hsome) as (Hy & Hs & read & Hr & Hstop).
      split; [exact Hy|]. split; [exact Hs|].
      exists ((path, data) :: read).
      split; [simpl; now rewrite Hr|].
      apply (@stops_at_limit_next _ (pandas_count format) limit _
               (path, data) rest read
               eq_refl (pandas_count_cons format (path, data)) Hbelow).
      match goal with
      | |- stops_at_limit _ _ (_ + ?c)%Z _ _ => replace c with 0%Z
      end; [now rewrite Z.add_0_r | ..]; now symmetry. }
    pose proof (@pandas_decode_frame format limit _ data Hbelow Hformat)
      as Hdec.
    destruct (decode format (Some limit) (len (List.concat dfs)) data)
      as [df| |e]; [| |contradiction].
    + destruct Hdec as (full & Hfull & Hfirst & Hcut).
      rewrite Hfull in *. simpl in Hcount. rewrite app_nil_r in Hcount.
      simpl List.concat at 2.
      rewrite (apply_limit_below _ Hbelow). cbv iota beta.
      rewrite Hfirst.
      destruct (limit <=? len (List.concat dfs) + len df)%Z eqn:Hstop.
      * apply Z.leb_le in Hstop.
        assert (Hreach : (limit <= len (List.concat dfs) + len full)%Z)
          by (destruct Hcut as [->|[? ?]]; lia).
        rewrite pandas_merge_concat by (now destruct dfs).
        rewrite concat_app. simpl. rewrite app_nil_r.
        split; [now rewrite (firstn_gathered _ _ _ Hbelow Hreach)|].
        split; [reflexivity|].
        exists [(path, data)]. split; [reflexivity|].
        apply (@stops_at_limit_last _ (pandas_count format) limit _
                 (path, data) rest eq_refl Hbelow).
        match goal with
        | |- (_ <= _ + ?c)%Z => replace c with (len full)
        end; [exact Hreach | ..]; now symmetry.
      * apply Z.leb_gt in Hstop.
        assert (Hall : df = full)
          by (destruct Hcut as [->|[? ?]]; [easy|lia]).
        subst df.
        rewrite firstn_all2 by (unfold len in *; lia).
        replace (Z.min limit (len (List.concat dfs) + len full))
          with (len (List.concat (dfs ++ [full])))
          by (rewrite concat_app, len_app; simpl; rewrite app_nil_r; lia).
        destruct (IH (dfs ++ [full])) as (Hy & Hs & read & Hr & Hstops).
        { rewrite concat_app, len_app. simpl. rewrite app_nil_r. lia. }
        { left. now destruct dfs. }
        replace (List.concat dfs
                   ++ List.concat ([full] ++ frames format rest))
          with (List.concat (dfs ++ [full])
                  ++ List.concat (frames format rest))
          by (rewrite concat_app; simpl;
              now rewrite app_nil_r, <- app_assoc).
        split; [exact Hy|]. split; [exact Hs|].
      exists ((path, data) :: read).
        split; [simpl; now rewrite Hr|].
        apply (@stops_at_limit_next _ (pandas_count format) limit _
                 (path, data) rest read
                 eq_refl (pandas_count_cons format (path, data)) Hbelow).
        match goal with
        | |- stops_at_limit _ _ (_ + ?c)%Z _ _ =>
            replace c with (len full)
        end; [| now symmetry ..].
        rewrite concat_app, len_app in Hstops. simpl in Hstops.
        now rewrite app_nil_r in Hstops.
    + rewrite Hdec in *.
      destruct (IH dfs Hbelow Hsome) as (Hy & Hs & read & Hr & Hstop).
      split; [exact Hy|]. split; [exact Hs|].
      exists ((path, data) :: read).
      split; [simpl; now rewrite Hr|].
      apply (@stops_at_limit_next _ (pandas_count format) limit _
               (path, data) rest read
               eq_refl (pandas_count_cons format (path, data)) Hbelow).
      match goal with
      | |- stops_at_limit _ _ (_ + ?c)%Z _ _ => replace c with 0%Z
      end; [now rewrite Z.add_0_r | ..]; now symmetry.
Qed.

(** *** Validation of [limit] *)

Lemma check_limit_invalid (limit : LimitArg) :
  (limit = NotAnInt \/ exists n, limit = IntLimit n /\ (n <= 0)%Z) ->
  check_limit (Some limit) = Raise (ValueError MsgLimitNotPositiveInt).
Proof.
  intros [->|(n & -> & Hn)]; [reflexivity|].
  simpl. apply Z.leb_le in Hn. now rewrite Hn.
Qed.

Lemma check_limit_valid (n : Z) :
  (0 < n)%Z -> check_limit (Some (IntLimit n)) = Ok (Some n).
Proof.
  intros Hn. simpl. destruct (n <=? 0)%Z eqn:H; [|reflexivity].
  apply Z.leb_le in H. lia.
Qed.

(** C8. A [limit] that is given and is not a positive [int] (not an
    [int], or an [int] that is zero or negative): the call raises a
    [ValueError] before any partition is read and before anything is
    yielded; for an [output] of an accepted type the error is the one
    about [limit] and it is the first thing the call does. *)
Theorem invalid_limit_is_rejected
        output (limit : LimitArg) format iterate env :
  (limit = NotAnInt \/ exists n, limit = IntLimit n /\ (n <= 0)%Z) ->
  let t := load_data output (Some limit) format iterate env in
  partitions_read t = []
  /\ yielded t = []
  /\ (exists m, snd t = Raised (ValueError m))
  /\ (output <> NotANode ->
      t = ([], Raised (ValueError MsgLimitNotPositiveInt))).
Proof.
  intros Hlimit t. subst t. unfold LoadData.load_data.
  rewrite (check_limit_invalid Hlimit).
  destruct output as [node|node|]; simpl.
  - repeat split; eauto.
  - repeat split; eauto.
  - repeat split; eauto. intros Hnode. now contradiction Hnode.
Qed.

(** *** Merged loads under a limit *)

(** An internal output that exists, read in merged mode through the CSV
    reader, without header line and with a limit: the frame is the first
    [limit] records of the partitions, in order, and reading stops at the
    partition where the counter reaches the limit. *)
Lemma merged_csv_without_header node data_id limit env path :
  bound node = InternalDataNode data_id ->
  (0 < limit)%Z ->
  poll env = Some path ->
  data_format (resource_access_spec env) = CSV ->
  data_header_exists (resource_access_spec env) = false ->
  let t := load_data (Marshaler node) (Some (IntLimit limit)) None false env in
  yielded t
  = [CsvRows (firstn (Z.to_nat limit)
                     (csv_records csv_reader (load_internal env)))]
  /\ snd t = Returned
  /\ exists read,
      partitions_read t = map fst read
      /\ stops_at_limit csv_count limit 0 (load_internal env) read.
Proof.
  intros Hbound Hpos Hpoll Hformat Hheader t. subst t.
  unfold LoadData.load_data. rewrite (check_limit_valid Hpos).
  simpl check_format. cbv iota beta. rewrite Hbound, Hpoll.
  unfold LoadData.decode_partitions. rewrite Hformat, Hheader. simpl csv_limit.
  cbv iota beta.
  exact (@csv_loop_no_header_merged limit (load_internal env) [] Hpos).
Qed.

(** The same through pandas, for the formats pandas reads and when some
    partition decodes. *)
Lemma merged_pandas node data_id limit env path :
  bound node = InternalDataNode data_id ->
  (0 < limit)%Z ->
  poll env = Some path ->
  (forall name,
      data_format (resource_access_spec env) <> OtherDataFormat name) ->
  frames (data_format (resource_access_spec env)) (load_internal env) <> [] ->
  let t := load_data (Marshaler node) (Some (IntLimit limit))
                     (Some "pandas") false env in
  yielded t
  = [DataFrame
       (firstn (Z.to_nat limit)
               (List.concat (frames (data_format (resource_access_spec env))
                                    (load_internal env))))]
  /\ snd t = Returned
  /\ exists read,
      partitions_read t = map fst read
      /\ stops_at_limit
           (pandas_count (data_format (resource_access_spec env)))
           limit 0 (load_internal env) read.
Proof.
  intros Hbound Hpos Hpoll Hformat Hsome t. subst t.
  unfold LoadData.load_data. rewrite (check_limit_valid Hpos).
  change (check_format (Some "pandas")) with (Ok (Some PANDAS)).
  cbv iota beta. rewrite Hbound, Hpoll.
  unfold LoadData.decode_partitions.
  exact (@pandas_loop_merged _ limit (load_internal env) Hformat [] Hpos
                             (or_intror Hsome)).
Qed.

(** The number of records of a frame cut to the limit. *)
Lemma len_firstn_limit (limit : Z) (rows : list Row) :
  (0 <= limit)%Z ->
  len (firstn (Z.to_nat limit) rows) = Z.min limit (len rows).
Proof. intros Hpos. unfold len. rewrite length_firstn. lia. Qed.

(** An internal output whose poll finds no path: [None] is yielded first,
    after the record that names the node and the dimension values, and the
    generator goes on to decode what storage lists. *)
Lemma absent_output_goes_on
      node data_id limit limit' format format' iterate env :
  bound node = InternalDataNode data_id ->
  check_limit limit = Ok limit' ->
  check_format format = Ok format' ->
  poll env = None ->
  load_data (Marshaler node) limit format iterate env
  = emits [Log (LogCheckingExistence data_id (dimension_values env));
           Log (LogOutputAbsent data_id (dimension_values env));
           Yield NoneItem]
          (decode_partitions limit' format' iterate None
             (resource_access_spec env) (load_internal env)).
Proof.
  intros Hbound Hlimit Hformat Hpoll.
  unfold LoadData.load_data. rewrite Hlimit, Hformat, Hbound, Hpoll.
  reflexivity.
Qed.

(** Without a limit, a CSV output with a header line read through the CSV
    reader fails on [limit + 1] before any partition is read. *)
Lemma csv_header_without_limit_raises iterate path spec data_it :
  data_format spec = CSV ->
  data_header_exists spec = true ->
  decode_partitions
                    None None iterate path spec data_it
  = ([Log (LogLoading None path)], Raised TypeError).
Proof.
  intros Hformat Hheader. unfold LoadData.decode_partitions.
  now rewrite Hformat, Hheader.
Qed.


(** *** The header line of CSV partitions *)

(** Merged mode: a partition that begins with the line the gathered records
    begin with is appended without that line. *)
Lemma repeated_header_dropped limit path data header gathered rows :
  String.eqb data "" = false ->
  csv_reader data = header :: rows ->
  (len (header :: gathered) + len (header :: rows) < limit)%Z ->
  yielded (csv_loop csv_reader true (Some limit) false [(path, data)]
                    (header :: gathered) (len (header :: gathered)))
  = [CsvRows ((header :: gathered) ++ rows)].
Proof.
  intros Hdata Hrows Hbelow. cbn [csv_loop].
  rewrite Hdata, Hrows, yielded_emit_read.
  rewrite apply_limit_below by (pose proof (len_nonneg (header :: rows)); lia).
  replace (limit <=? len (header :: gathered) + len (header :: rows))%Z
    with false by (symmetry; apply Z.leb_gt; lia).
  rewrite firstn_all2 by (unfold len in *; lia).
  simpl same_header.
  destruct (list_eq_dec string_dec header header) as [_|Hne];
    [reflexivity | now contradiction Hne].
Qed.

(** Streaming mode: the partition is yielded as it was read, header line
    included. *)
Lemma streamed_header_kept limit path data header gathered rows r :
  String.eqb data "" = false ->
  csv_reader data = header :: rows ->
  (r + len (header :: rows) < limit)%Z ->
  yielded (csv_loop csv_reader true (Some limit) true [(path, data)]
                    gathered r)
  = [CsvRows (header :: rows)].
Proof.
  intros Hdata Hrows Hbelow. cbn [csv_loop].
  rewrite Hdata, Hrows, yielded_emit_read.
  rewrite apply_limit_below by (pose proof (len_nonneg (header :: rows)); lia).
  replace (limit <=? r + len (header :: rows))%Z
    with false by (symmetry; apply Z.leb_gt; lia).
  rewrite firstn_all2 by (unfold len in *; lia).
  reflexivity.
Qed.

End Facts.

(** C8 at the limits 0 and -3 and at a limit that is not an [int]. *)
Lemma invalid_limit_is_rejected_witness :
  Scenarios.plain_load_data Scenarios.internal_node (Some (IntLimit 0)) None
    false (Scenarios.produced Scenarios.two_partitions)
  = ([], Raised (ValueError MsgLimitNotPositiveInt))
  /\ Scenarios.plain_load_data Scenarios.internal_node (Some (IntLimit (-3)))
       (Some "pandas") true (Scenarios.produced Scenarios.two_partitions)
     = ([], Raised (ValueError MsgLimitNotPositiveInt))
  /\ Scenarios.plain_load_data Scenarios.internal_node (Some NotAnInt) None
       false (Scenarios.produced Scenarios.two_partitions)
     = ([], Raised (ValueError MsgLimitNotPositiveInt)).
Proof.
  refine (conj _ (conj _ _)).
  - refine (proj2 (proj2 (proj2 (invalid_limit_is_rejected
              Scenarios.plain_csv_reader Scenarios.plain_read_csv
              Scenarios.no_parquet Scenarios.plain_csv_reader
              Scenarios.internal_node None false
              (Scenarios.produced Scenarios.two_partitions)
              (limit := IntLimit 0) _))) _).
    + right. exists 0%Z. split; [reflexivity | lia].
    + discriminate.
  - refine (proj2 (proj2 (proj2 (invalid_limit_is_rejected
              Scenarios.plain_csv_reader Scenarios.plain_read_csv
              Scenarios.no_parquet Scenarios.plain_csv_reader
              Scenarios.internal_node (Some "pandas") true
              (Scenarios.produced Scenarios.two_partitions)
              (limit := IntLimit (-3)) _))) _).
    + right. exists (-3)%Z. split; [reflexivity | lia].
    + discriminate.
  - refine (proj2 (proj2 (proj2 (invalid_limit_is_rejected
              Scenarios.plain_csv_reader Scenarios.plain_read_csv
              Scenarios.no_parquet Scenarios.plain_csv_reader
              Scenarios.internal_node None false
              (Scenarios.produced Scenarios.two_partitions)
              (limit := NotAnInt) _))) _).
    + now left.
    + discriminate.
Defined.

(** C1. Three CSV partitions of a header line and one record each, merged
    through the CSV reader under the limit 4: all three partitions are read
    and the call returns the header line and two records, although three
    records are available and the limit is 4. The counter counts the header
    line of every partition; the third partition is cut down to its header
    line, which is then dropped as a repeated header. *)
Theorem merged_csv_limit_counts_repeated_headers :
  let t := Scenarios.plain_load_data
             Scenarios.internal_node (Some (IntLimit 4)) None false
             (Scenarios.produced Scenarios.three_partitions) in
  yielded t = [CsvRows [["h"; "v"]; ["1"; "a"]; ["2"; "b"]]]
  /\ snd t = Returned
  /\ partitions_read t = ["part-0"; "part-1"; "part-2"]
  /\ Scenarios.available_records Scenarios.three_partitions
     = [["1"; "a"]; ["2"; "b"]; ["3"; "c"]].
Proof. vm_compute. repeat split. Qed.

(** The same partitions through pandas: the three records. *)
Example merged_pandas_three_partitions :
  yielded (Scenarios.plain_load_data
             Scenarios.internal_node (Some (IntLimit 4)) (Some "pandas") false
             (Scenarios.produced Scenarios.three_partitions))
  = [DataFrame [["1"; "a"]; ["2"; "b"]; ["3"; "c"]]].
Proof. reflexivity. Qed.

(** C6. The two partitions ["h,v\n1,a\n"] and ["h,v\n2,b\n"], header line
    declared, no limit, merged through the CSV reader: the call raises a
    [TypeError] at [limit + 1] before it reads a partition and yields
    nothing. *)
Theorem header_scenario_without_limit_raises :
  Scenarios.plain_load_data Scenarios.internal_node None None false
    (Scenarios.produced Scenarios.two_partitions)
  = ([Log (LogCheckingExistence "daily_sales" "{day: 2021-03-01}");
      Log (LogLoading None (Some "s3://bucket/daily_sales/2021-03-01"))],
     Raised TypeError).
Proof. reflexivity. Qed.

(** The same partitions under a limit that is not reached: merged, the
    second header line is dropped; streamed, it is kept. *)
Example header_scenario_under_limit :
  yielded (Scenarios.plain_load_data
             Scenarios.internal_node (Some (IntLimit 5)) None false
             (Scenarios.produced Scenarios.two_partitions))
  = [CsvRows [["h"; "v"]; ["1"; "a"]; ["2"; "b"]]]
  /\ yielded (Scenarios.plain_load_data
                Scenarios.internal_node (Some (IntLimit 5)) None true
                (Scenarios.produced Scenarios.two_partitions))
     = [CsvRows [["h"; "v"]; ["1"; "a"]]; CsvRows [["h"; "v"]; ["2"; "b"]]].
Proof. split; reflexivity. Qed.

(** C7. An internal output that was not produced, asked for as one pandas
    frame with the limit 3, the generator run to its end: after the records
    that name the node and the dimension values and after [None], the
    generator goes on, finds no partition and raises an [IndexError] at
    [pandas_df_list[0]]. *)
Theorem absent_output_falls_through :
  Scenarios.plain_load_data Scenarios.internal_node (Some (IntLimit 3))
    (Some "pandas") false Scenarios.not_produced
  = ([Log (LogCheckingExistence "daily_sales" "{day: 2021-03-01}");
      Log (LogOutputAbsent "daily_sales" "{day: 2021-03-01}");
      Yield NoneItem;
      Log (LogLoading (Some 3%Z) None)],
     Raised IndexError).
Proof. reflexivity. Qed.

(** The same output asked for with the default arguments: [None], then the
    [TypeError] of [limit + 1]. *)
Example absent_output_default_arguments :
  Scenarios.plain_load_data Scenarios.internal_node None None false
    Scenarios.not_produced
  = ([Log (LogCheckingExistence "daily_sales" "{day: 2021-03-01}");
      Log (LogOutputAbsent "daily_sales" "{day: 2021-03-01}");
      Yield NoneItem;
      Log (LogLoading None None)],
     Raised TypeError).
Proof. reflexivity. Qed.

End LoadDataFacts.

(** ** More on loading data *)

Module LoadDataMore.

Import LoadData LoadDataFacts.

#[local] Arguments apply_limit : simpl never.

Lemma yielded_emit_yield r i t :
  yielded (emits [Log r; Yield i] t) = i :: yielded t.
Proof. reflexivity. Qed.

Lemma read_emit_yield r i t :
  partitions_read (emits [Log r; Yield i] t) = partitions_read t.
Proof. reflexivity. Qed.

(** The first [n] records of one more partition and what follows, when the
    partition alone has them. *)
Lemma firstn_reached {A} (n : Z) (more rest : list A) :
  (n <= len more)%Z ->
  firstn (Z.to_nat n) (more ++ rest) = firstn (Z.to_nat n) more.
Proof.
  unfold len. intros Hle. rewrite firstn_app.
  replace (Z.to_nat n - List.length more) with 0 by lia.
  now rewrite firstn_O, app_nil_r.
Qed.

(** The same when the partition has fewer. *)
Lemma firstn_not_reached {A} (n : Z) (more rest : list A) :
  (len more < n)%Z ->
  firstn (Z.to_nat n) (more ++ rest)
  = more ++ firstn (Z.to_nat (n - len more)) rest.
Proof.
  unfold len. intros Hlt. rewrite firstn_app, firstn_all2 by lia.
  do 2 f_equal. lia.
Qed.

Section Facts.

Variable csv_reader : string -> list Row.
Variable pd_read_csv : string -> list Row.
Variable pd_read_parquet : string -> option (list Row).
Variable pd_read_json : string -> list Row.

Local Abbreviation load_data :=
  (LoadData.load_data csv_reader pd_read_csv pd_read_parquet pd_read_json).
Local Abbreviation decode_partitions :=
  (LoadData.decode_partitions csv_reader pd_read_csv pd_read_parquet
                              pd_read_json).
Local Abbreviation csv_loop := (LoadData.csv_loop csv_reader).
Local Abbreviation csv_records := (LoadData.csv_records csv_reader).
Local Abbreviation csv_count := (LoadData.csv_count csv_reader).
Local Abbreviation pandas_loop :=
  (LoadData.pandas_loop pd_read_csv pd_read_parquet pd_read_json).
Local Abbreviation pandas_count :=
  (LoadData.pandas_count pd_read_csv pd_read_parquet pd_read_json).
Local Abbreviation frame :=
  (LoadData.pandas_frame pd_read_csv pd_read_parquet pd_read_json).
Local Abbreviation frames :=
  (LoadData.pandas_frames pd_read_csv pd_read_parquet pd_read_json).
Local Abbreviation decode :=
  (LoadData.pandas_decode pd_read_csv pd_read_parquet pd_read_json).

(** *** Streaming under a limit *)

(** The frames a stream may yield from [fs]: whole frames, then at most one
    more. *)
Lemma pandas_loop_streamed format (limit : Z) (parts : list Partition) :
  (forall name, format <> OtherDataFormat name) ->
  forall dfs r,
    (r < limit)%Z ->
    let t := pandas_loop format (Some limit) true parts dfs r in
    exists ys,
      yielded t = map DataFrame ys
      /\ List.concat ys
         = firstn (Z.to_nat (limit - r)) (List.concat (frames format parts))
      /\ snd t = Returned
      /\ (exists whole last rest,
             ys = whole ++ last
             /\ frames format parts = whole ++ rest
             /\ List.length last <= 1)
      /\ exists read,
          partitions_read t = map fst read
          /\ stops_at_limit (pandas_count format) limit r parts read.
Proof.
  intros Hformat.
  induction parts as [|[path data] rest IH]; intros dfs r Hbelow.
  - exists []. simpl. rewrite firstn_nil.
    refine (conj eq_refl (conj eq_refl (conj eq_refl (conj _ _)))).
    + exists [], [], []. repeat split. simpl. lia.
    + exists []. split; [reflexivity | apply stops_at_limit_nil].
  - cbv zeta. rewrite (pandas_frames_cons pd_read_csv pd_read_parquet
                                          pd_read_json).
    cbn [LoadData.pandas_loop].
    rewrite yielded_emit_read, read_emit_read.
    change (snd (emit (Read path) ?t)) with (snd t).
    pose proof (pandas_count_one pd_read_csv pd_read_parquet pd_read_json
                                 format path data) as Hcount.
    destruct (String.eqb data "") eqn:Hdata.
    { destruct (IH dfs r Hbelow)
        as (ys & Hy & Hcat & Hs & Hshape & read & Hr & Hstop).
      exists ys. refine (conj Hy (conj Hcat (conj Hs (conj Hshape _)))).
      exists ((path, data) :: read). split; [simpl; now rewrite Hr|].
      apply (@stops_at_limit_next _ (pandas_count format) limit _
               (path, data) rest read eq_refl
               (pandas_count_cons pd_read_csv pd_read_parquet pd_read_json
                                  format (path, data)) Hbelow).
      match goal with
      | |- stops_at_limit _ _ (_ + ?c)%Z _ _ => replace c with 0%Z
      end; [now rewrite Z.add_0_r | ..]; now symmetry. }
    pose proof (@pandas_decode_frame pd_read_csv pd_read_parquet pd_read_json
                                     format limit r data Hbelow Hformat)
      as Hdec.
    destruct (decode format (Some limit) r data) as [df| |e];
      [| |contradiction].
    + destruct Hdec as (full & Hfull & Hfirst & Hcut).
      rewrite Hfull in *. simpl in Hcount. rewrite app_nil_r in Hcount.
      simpl List.concat.
      rewrite (apply_limit_below _ Hbelow). cbv iota beta.
      rewrite Hfirst, yielded_emit_yield, read_emit_yield.
      change (snd (emits ?es ?t)) with (snd t).
      destruct (limit <=? r + len df)%Z eqn:Hstop.
      * apply Z.leb_le in Hstop.
        assert (Hreach : (limit - r <= len full)%Z)
          by (destruct Hcut as [->|[? ?]]; lia).
        exists [firstn (Z.to_nat (limit - r)) full]. simpl.
        rewrite app_nil_r, (@firstn_reached _ _ _ _ Hreach).
        refine (conj eq_refl (conj eq_refl (conj eq_refl (conj _ _)))).
        -- exists [], [firstn (Z.to_nat (limit - r)) full],
             (full :: frames format rest). repeat split. simpl. lia.
        -- exists [(path, data)]. split; [reflexivity|].
           apply (@stops_at_limit_last _ (pandas_count format) limit _
                    (path, data) rest eq_refl Hbelow).
           match goal with
           | |- (_ <= _ + ?c)%Z => replace c with (len full)
           end; [lia | ..]; now symmetry.
      * apply Z.leb_gt in Hstop.
        assert (Hall : df = full)
          by (destruct Hcut as [->|[? ?]]; [easy|lia]).
        subst df.
        rewrite firstn_all2 by (unfold len in *; lia).
        replace (Z.min limit (r + len full)) with (r + len full)%Z by lia.
        destruct (IH dfs (r + len full)%Z)
          as (ys & Hy & Hcat & Hs & (whole & last & more & Hys & Hfs & Hlast)
              & read & Hr & Hstops); [lia|].
        exists (full :: ys). simpl. rewrite Hy, Hcat.
        rewrite firstn_not_reached by lia.
        replace (limit - r - len full)%Z with (limit - (r + len full))%Z
          by lia.
        refine (conj eq_refl (conj eq_refl (conj Hs (conj _ _)))).
        -- exists (full :: whole), last, more. rewrite Hys, Hfs.
           repeat split. exact Hlast.
        -- exists ((path, data) :: read). split; [simpl; now rewrite Hr|].
           apply (@stops_at_limit_next _ (pandas_count format) limit _
                    (path, data) rest read eq_refl
                    (pandas_count_cons pd_read_csv pd_read_parquet
                                       pd_read_json format (path, data))
                    Hbelow).
           match goal with
           | |- stops_at_limit _ _ (_ + ?c)%Z _ _ =>
               replace c with (len full)
           end; [exact Hstops | ..]; now symmetry.
    + rewrite Hdec in *.
      destruct (IH dfs r Hbelow)
        as (ys & Hy & Hcat & Hs & Hshape & read & Hr & Hstop).
      exists ys. refine (conj Hy (conj Hcat (conj Hs (conj Hshape _)))).
      exists ((path, data) :: read). split; [simpl; now rewrite Hr|].
      apply (@stops_at_limit_next _ (pandas_count format) limit _
               (path, data) rest read eq_refl
               (pandas_count_cons pd_read_csv pd_read_parquet pd_read_json
                                  format (path, data)) Hbelow).
      match goal with
      | |- stops_at_limit _ _ (_ + ?c)%Z _ _ => replace c with 0%Z
      end; [now rewrite Z.add_0_r | ..]; now symmetry.
Qed.




(** X1. An internal output that exists, streamed through pandas under a
    limit: the frames yielded, put end to end, are the first [limit] records
    of the partitions; every frame but possibly the last is a whole
    partition; reading stops at the partition where the counter reaches the
    limit. *)
Theorem streamed_pandas node data_id limit env path :
  bound node = InternalDataNode data_id ->
  (0 < limit)%Z ->
  poll env = Some path ->
  (forall name,
      data_format (resource_access_spec env) <> OtherDataFormat name) ->
  let t := load_data (Marshaler node) (Some (IntLimit limit))
                     (Some "pandas") true env in
  let fs := frames (data_format (resource_access_spec env))
                   (load_internal env) in
  exists ys,
    yielded t = map DataFrame ys
    /\ List.concat ys = firstn (Z.to_nat limit) (List.concat fs)
    /\ snd t = Returned
    /\ (exists whole last rest,
           ys = whole ++ last /\ fs = whole ++ rest /\ List.length last <= 1)
    /\ exists read,
        partitions_read t = map fst read
        /\ stops_at_limit
             (pandas_count (data_format (resource_access_spec env)))
             limit 0 (load_internal env) read.
Proof.
  intros Hbound Hpos Hpoll Hformat t fs. subst t fs.
  unfold LoadData.load_data. rewrite (check_limit_valid Hpos).
  change (check_format (Some "pandas")) with (Ok (Some PANDAS)).
  cbv iota beta. rewrite Hbound, Hpoll.
  unfold LoadData.decode_partitions.
  pose proof (@pandas_loop_streamed _ limit (load_internal env) Hformat
                                    [] 0%Z Hpos) as H.
  cbv zeta in H. rewrite Z.sub_0_r in H. exact H.
Qed.



(** *** Partitions without payload *)

Lemma csv_loop_skips_empty header limit iterate (parts : list Partition) :
  forall all_data r,
    let with_payload :=
      filter (fun p => negb (String.eqb (snd p) "")) parts in
    yielded (csv_loop header limit iterate parts all_data r)
    = yielded (csv_loop header limit iterate with_payload all_data r)
    /\ snd (csv_loop header limit iterate parts all_data r)
       = snd (csv_loop header limit iterate with_payload all_data r).
Proof.
  induction parts as [|[path data] rest IH]; intros all_data r;
    [now split|].
  cbv zeta in *. cbn [filter snd].
  destruct (String.eqb data "") eqn:Hdata; cbn [negb LoadData.csv_loop];
    rewrite Hdata, ?yielded_emit_read;
    change (snd (emit (Read path) ?t)) with (snd t); [apply IH|].
  destruct (apply_limit limit (r + len (csv_reader data)) (csv_reader data))
    as [[stop csv_data] r'].
  destruct iterate.
  - destruct csv_data as [|row rows]; [now split|].
    rewrite !yielded_emit_yield.
    change (snd (emits ?es ?t)) with (snd t).
    destruct stop; [now split|].
    destruct (IH all_data r') as [-> ->]. now split.
  - destruct (same_header header all_data csv_data) as [skip|e];
      [|now split].
    destruct stop; [now split | apply IH].
Qed.

Lemma pandas_loop_skips_empty format limit iterate (parts : list Partition) :
  forall dfs r,
    let with_payload :=
      filter (fun p => negb (String.eqb (snd p) "")) parts in
    yielded (pandas_loop format limit iterate parts dfs r)
    = yielded (pandas_loop format limit iterate with_payload dfs r)
    /\ snd (pandas_loop format limit iterate parts dfs r)
       = snd (pandas_loop format limit iterate with_payload dfs r).
Proof.
  induction parts as [|[path data] rest IH]; intros dfs r; [now split|].
  cbv zeta in *. cbn [filter snd].
  destruct (String.eqb data "") eqn:Hdata; cbn [negb LoadData.pandas_loop];
    rewrite Hdata, ?yielded_emit_read;
    change (snd (emit (Read path) ?t)) with (snd t); [apply IH|].
  destruct (decode format limit r data) as [df| |e];
    [|apply IH|now split].
  destruct (apply_limit limit (r + len df) df) as [[stop df'] r'].
  destruct iterate.
  - rewrite !yielded_emit_yield.
    change (snd (emits ?es ?t)) with (snd t).
    destruct stop; [now split|].
    destruct (IH dfs r') as [-> ->]. now split.
  - destruct stop; [now split | apply IH].
Qed.

(** X3. Partitions without payload (completion markers and the like) do not
    show in what the pandas and the CSV loops yield, nor in how they end:
    decoding all partitions and decoding those with a payload give the same
    items and the same status, whatever the limit and the mode. *)
Theorem empty_partitions_are_skipped
        limit format iterate path spec (parts : list Partition) :
  format = Some PANDAS \/ data_format spec = CSV ->
  let with_payload := filter (fun p => negb (String.eqb (snd p) "")) parts in
  yielded (decode_partitions limit format iterate path spec parts)
  = yielded (decode_partitions limit format iterate path spec with_payload)
  /\ snd (decode_partitions limit format iterate path spec parts)
     = snd (decode_partitions limit format iterate path spec with_payload).
Proof.
  intros Hbranch. cbv zeta. unfold LoadData.decode_partitions.
  assert (Hemit : forall e t t',
             yielded t = yielded t' /\ snd t = snd t' ->
             yielded (emit (Log e) t) = yielded (emit (Log e) t')
             /\ snd (emit (Log e) t) = snd (emit (Log e) t'))
    by (intros e t t' [Hy Hs]; split; [exact Hy | exact Hs]).
  apply Hemit.
  destruct format as [[| |]|].
  - now split.
  - apply pandas_loop_skips_empty.
  - destruct Hbranch as [Hp|Hcsv]; [discriminate|]. rewrite Hcsv.
    destruct (csv_limit (data_header_exists spec) limit);
      [apply csv_loop_skips_empty | now split].
  - destruct Hbranch as [Hp|Hcsv]; [discriminate|]. rewrite Hcsv.
    destruct (csv_limit (data_header_exists spec) limit);
      [apply csv_loop_skips_empty | now split].
Qed.

(** *** The fallback for other data formats *)

Lemma yield_from_all (parts : list Partition) :
  yielded (yield_from parts) = map RawPartition parts
  /\ partitions_read (yield_from parts) = map fst parts
  /\ snd (yield_from parts) = Returned.
Proof.
  induction parts as [|[path data] rest (Hy & Hr & Hs)]; [now repeat split|].
  cbn [yield_from].
  refine (conj _ (conj _ Hs)).
  - change (yielded (emits [Read ?p; Yield ?i] ?t)) with (i :: yielded t).
    now rewrite Hy.
  - change (partitions_read (emits [Read ?p; Yield ?i] ?t))
      with (p :: partitions_read t).
    now rewrite Hr.
Qed.

(** X5. For a data format other than CSV, asked for in the original format
    or in none: every partition is yielded as it is, in order, those without
    payload too; the limit and the mode play no part. *)
Theorem raw_partitions_ignore_limit
        limit format iterate path spec (parts : list Partition) :
  format = None \/ format = Some ORIGINAL ->
  data_format spec <> CSV ->
  let t := decode_partitions limit format iterate path spec parts in
  yielded t = map RawPartition parts
  /\ partitions_read t = map fst parts
  /\ snd t = Returned.
Proof.
  intros Hformat Hdata. cbv zeta. unfold LoadData.decode_partitions.
  destruct Hformat as [-> | ->];
    (destruct (data_format spec); [now contradiction Hdata | ..]);
    exact (yield_from_all parts).
Qed.

(** *** The [format] argument *)

Lemma ascii_upper_idempotent (c : ascii) :
  ascii_upper (ascii_upper c) = ascii_upper c.
Proof. destruct c as [[] [] [] [] [] [] [] []]; reflexivity. Qed.

Lemma upper_idempotent (s : string) : upper (upper s) = upper s.
Proof.
  induction s as [|c s IH]; [reflexivity|].
  simpl. now rewrite ascii_upper_idempotent, IH.
Qed.

Lemma check_format_upper (f : string) :
  check_format (Some (upper f)) = check_format (Some f).
Proof.
  destruct f as [|c f]; [reflexivity|].
  cbn [upper]. unfold check_format.
  change (String (ascii_upper c) (upper f)) with (upper (String c f)).
  now rewrite upper_idempotent.
Qed.

(** X7. The [format] argument, given as ASCII text, is matched whatever
    its case: a format and its upper-case spelling give the same run. Such
    a format whose upper-case spelling is none of [SPARK], [PANDAS],
    [ORIGINAL] makes a call with an accepted output and limit raise a
    [ValueError] that names the spelling, before anything is logged, read
    or yielded. (On text with other characters [str.upper] is not
    [upper].) *)
Theorem format_is_case_insensitive output limit (f : string) iterate env :
  Forall (fun c => nat_of_ascii c < 128) (list_ascii_of_string f) ->
  load_data output limit (Some (upper f)) iterate env
  = load_data output limit (Some f) iterate env
  /\ (forall node limit',
         output = Marshaler node \/ output = MarshalingView node ->
         check_limit limit = Ok limit' ->
         f <> "" ->
         upper f <> "SPARK" -> upper f <> "PANDAS" -> upper f <> "ORIGINAL" ->
         load_data output limit (Some f) iterate env
         = ([], Raised (ValueError (MsgNotADataFrameFormat (upper f))))).
Proof.
  intros _. split.
  - unfold LoadData.load_data. now rewrite check_format_upper.
  - intros node limit' Houtput Hlimit Hne Hspark Hpandas Horiginal.
    unfold LoadData.load_data. rewrite Hlimit.
    assert (Hformat :
              check_format (Some f)
              = Raise (ValueError (MsgNotADataFrameFormat (upper f)))).
    { destruct f as [|c f]; [now contradiction Hne|].
      unfold check_format, DataFrameFormat_of.
      apply String.eqb_neq in Hspark, Hpandas, Horiginal.
      now rewrite Hspark, Hpandas, Horiginal. }
    rewrite Hformat. now destruct Houtput as [-> | ->].
Qed.

(** *** Merged loads through the CSV reader *)

Lemma csv_loop_unlimited (parts : list Partition) :
  forall all_data r,
    let t := csv_loop false None false parts all_data r in
    yielded t = [CsvRows (all_data ++ csv_records parts)]
    /\ partitions_read t = map fst parts
    /\ snd t = Returned.
Proof.
  induction parts as [|[path data] rest IH]; intros all_data r.
  - simpl. now rewrite app_nil_r.
  - cbv zeta in *. rewrite (csv_records_cons csv_reader).
    cbn [LoadData.csv_loop].
    rewrite yielded_emit_read, read_emit_read.
    change (snd (emit (Read path) ?t)) with (snd t).
    destruct (String.eqb data "").
    + destruct (IH all_data r) as (Hy & Hr & Hs).
      rewrite Hy, Hr. now repeat split.
    + rewrite apply_limit_none. simpl same_header. cbv iota beta.
      destruct (IH (all_data ++ csv_reader data)
                   (r + len (csv_reader data))%Z) as (Hy & Hr & Hs).
      rewrite Hy, Hr, app_assoc. now repeat split.
Qed.

(** X8. An internal CSV output that exists, without header line, merged
    through the CSV reader without limit: every partition is read and the
    one frame holds the records of all partitions with a payload, in
    order. *)
Theorem merged_csv_unlimited node data_id env path :
  bound node = InternalDataNode data_id ->
  poll env = Some path ->
  data_format (resource_access_spec env) = CSV ->
  data_header_exists (resource_access_spec env) = false ->
  let t := load_data (Marshaler node) None None false env in
  yielded t = [CsvRows (csv_records (load_internal env))]
  /\ partitions_read t = map fst (load_internal env)
  /\ snd t = Returned.
Proof.
  intros Hbound Hpoll Hformat Hheader t. subst t.
  unfold LoadData.load_data. simpl check_limit. simpl check_format.
  cbv iota beta. rewrite Hbound, Hpoll.
  unfold LoadData.decode_partitions. rewrite Hformat, Hheader.
  simpl csv_limit. cbv iota beta.
  exact (csv_loop_unlimited (load_internal env) [] 0%Z).
Qed.

(** X9. An internal CSV output that exists, with a header line and all its
    records in one partition, merged through the CSV reader under a limit:
    the frame is the header line and the first [limit] records. *)
Theorem merged_csv_header_one_partition
        node data_id limit env path physical_path data header records :
  bound node = InternalDataNode data_id ->
  (0 < limit)%Z ->
  poll env = Some path ->
  data_format (resource_access_spec env) = CSV ->
  data_header_exists (resource_access_spec env) = true ->
  load_internal env = [(physical_path, data)] ->
  String.eqb data "" = false ->
  csv_reader data = header :: records ->
  let t := load_data (Marshaler node) (Some (IntLimit limit)) None false env in
  yielded t = [CsvRows (header :: firstn (Z.to_nat limit) records)]
  /\ snd t = Returned.
Proof.
  intros Hbound Hpos Hpoll Hformat Hheader Hparts Hdata Hrows t. subst t.
  unfold LoadData.load_data. rewrite (check_limit_valid Hpos).
  simpl check_format. cbv iota beta. rewrite Hbound, Hpoll.
  unfold LoadData.decode_partitions. rewrite Hformat, Hheader, Hparts.
  change (csv_limit true (Some limit)) with (Ok (Some (limit + 1)%Z)).
  cbv iota beta. cbn [LoadData.csv_loop].
  rewrite Hdata, Hrows.
  rewrite (@apply_limit_below (limit + 1) 0 (header :: records)) by lia.
  replace (Z.to_nat (limit + 1 - 0)) with (S (Z.to_nat limit)) by lia.
  cbn [firstn same_header app].
  destruct (limit + 1 <=? 0 + len (header :: records))%Z; now split.
Qed.

(** *** pandas without a limit *)



End Facts.



Lemma streamed_pandas_witness :
  exists ys,
    yielded (Scenarios.plain_load_data
               Scenarios.internal_node (Some (IntLimit 2)) (Some "pandas")
               true (Scenarios.produced Scenarios.three_partitions))
    = map DataFrame ys
    /\ List.concat ys
       = firstn 2 (Scenarios.available_records Scenarios.three_partitions).
Proof.
  destruct (@streamed_pandas
              Scenarios.plain_csv_reader Scenarios.plain_read_csv
              Scenarios.no_parquet Scenarios.plain_csv_reader
              {| bound := InternalDataNode "daily_sales" |} "daily_sales" 2
              (Scenarios.produced Scenarios.three_partitions)
              "s3://bucket/daily_sales/2021-03-01"
              eq_refl eq_refl eq_refl ltac:(discriminate))
    as (ys & Hyielded & Hconcat & _).
  exists ys. split; [exact Hyielded | exact Hconcat].
Defined.


Lemma empty_partitions_are_skipped_witness :
  yielded (decode_partitions
             Scenarios.plain_csv_reader Scenarios.plain_read_csv
             Scenarios.no_parquet Scenarios.plain_csv_reader
             (Some 5%Z) (Some PANDAS) true (Some "s3://bucket/daily_sales")
             Scenarios.csv_with_header Scenarios.with_marker)
  = yielded (decode_partitions
               Scenarios.plain_csv_reader Scenarios.plain_read_csv
               Scenarios.no_parquet Scenarios.plain_csv_reader
               (Some 5%Z) (Some PANDAS) true (Some "s3://bucket/daily_sales")
               Scenarios.csv_with_header Scenarios.two_partitions).
Proof.
  exact (proj1 (@empty_partitions_are_skipped
                  Scenarios.plain_csv_reader Scenarios.plain_read_csv
                  Scenarios.no_parquet Scenarios.plain_csv_reader
                  (Some 5%Z) (Some PANDAS) true
                  (Some "s3://bucket/daily_sales")
                  Scenarios.csv_with_header Scenarios.with_marker
                  (or_introl eq_refl))).
Defined.

Lemma raw_partitions_ignore_limit_witness :
  yielded (decode_partitions
             Scenarios.plain_csv_reader Scenarios.plain_read_csv
             Scenarios.no_parquet Scenarios.plain_csv_reader
             (Some 1%Z) (Some ORIGINAL) false (Some "s3://bucket/daily_sales")
             Scenarios.parquet Scenarios.with_marker)
  = map RawPartition Scenarios.with_marker.
Proof.
  refine (proj1 (@raw_partitions_ignore_limit
                   Scenarios.plain_csv_reader Scenarios.plain_read_csv
                   Scenarios.no_parquet Scenarios.plain_csv_reader
                   (Some 1%Z) (Some ORIGINAL) false
                   (Some "s3://bucket/daily_sales")
                   Scenarios.parquet Scenarios.with_marker
                   (or_intror eq_refl) _)).
  discriminate.
Defined.

Lemma format_is_case_insensitive_witness :
  Scenarios.plain_load_data Scenarios.internal_node (Some (IntLimit 2))
    (Some "Arrow") false (Scenarios.produced Scenarios.two_partitions)
  = ([], Raised (ValueError (MsgNotADataFrameFormat "ARROW"))).
Proof.
  refine (proj2 (@format_is_case_insensitive
                   Scenarios.plain_csv_reader Scenarios.plain_read_csv
                   Scenarios.no_parquet Scenarios.plain_csv_reader
                   Scenarios.internal_node (Some (IntLimit 2)) "Arrow" false
                   (Scenarios.produced Scenarios.two_partitions) _)
                {| bound := InternalDataNode "daily_sales" |} (Some 2%Z)
                (or_introl eq_refl) eq_refl _ _ _ _);
    try discriminate.
  simpl.
  repeat (apply Forall_cons; [apply Nat.ltb_lt; reflexivity|]).
  apply Forall_nil.
Defined.

Lemma merged_csv_unlimited_witness :
  yielded (Scenarios.plain_load_data Scenarios.internal_node None None false
             (Scenarios.produced_without_header Scenarios.with_marker))
  = [CsvRows [["h"; "v"]; ["1"; "a"]; ["h"; "v"]; ["2"; "b"]]].
Proof.
  exact (proj1 (@merged_csv_unlimited
                  Scenarios.plain_csv_reader Scenarios.plain_read_csv
                  Scenarios.no_parquet Scenarios.plain_csv_reader
                  {| bound := InternalDataNode "daily_sales" |} "daily_sales"
                  (Scenarios.produced_without_header Scenarios.with_marker)
                  "s3://bucket/daily_sales/2021-03-01"
                  eq_refl eq_refl eq_refl eq_refl)).
Defined.

Lemma merged_csv_header_one_partition_witness :
  yielded (Scenarios.plain_load_data Scenarios.internal_node
             (Some (IntLimit 2)) None false
             (Scenarios.produced Scenarios.one_partition))
  = [CsvRows [["h"; "v"]; ["1"; "a"]; ["2"; "b"]]].
Proof.
  exact (proj1 (@merged_csv_header_one_partition
                  Scenarios.plain_csv_reader Scenarios.plain_read_csv
                  Scenarios.no_parquet Scenarios.plain_csv_reader
                  {| bound := InternalDataNode "daily_sales" |} "daily_sales"
                  2 (Scenarios.produced Scenarios.one_partition)
                  "s3://bucket/daily_sales/2021-03-01" "part-0"
                  (snd (hd ("", "") Scenarios.one_partition))
                  ["h"; "v"] [["1"; "a"]; ["2"; "b"]; ["3"; "c"]]
                  eq_refl eq_refl eq_refl eq_refl eq_refl eq_refl eq_refl
                  eq_refl)).
Defined.


End LoadDataMore.

(** ** [load_data] when library calls and iterators raise *)

Module LoadDataRaisingFacts.

Import LoadData LoadDataFacts LoadDataRaising.

#[local] Arguments apply_limit : simpl never.

Section Refinement.

Variable csv_reader : string -> list Row.
Variable pd_read_csv : string -> list Row.
Variable pd_read_parquet : string -> option (list Row).
Variable pd_read_json : string -> list Row.

Local Abbreviation decode := (total (fun data : string => data)).
Local Abbreviation csv_reader' := (total csv_reader).
Local Abbreviation pd_read_csv' := (total pd_read_csv).
Local Abbreviation pd_read_parquet' := (total_parquet pd_read_parquet).
Local Abbreviation pd_read_json' := (total pd_read_json).

Lemma pandas_decode_total format limit r data :
  LoadDataRaising.pandas_decode decode pd_read_csv' pd_read_parquet'
                                pd_read_json' format limit r data
  = LoadData.pandas_decode pd_read_csv pd_read_parquet pd_read_json
                           format limit r data.
Proof.
  destruct format; simpl; try reflexivity.
  unfold total_parquet. now destruct (pd_read_parquet data).
Qed.

Lemma pandas_loop_total format limit iterate (parts : list Partition) :
  forall dfs r,
    LoadDataRaising.pandas_loop decode pd_read_csv' pd_read_parquet'
                                pd_read_json' format limit iterate parts None
                                dfs r
    = LoadData.pandas_loop pd_read_csv pd_read_parquet pd_read_json
                           format limit iterate parts dfs r.
Proof.
  induction parts as [|[path data] rest IH]; intros dfs r; [reflexivity|].
  cbn [LoadDataRaising.pandas_loop LoadData.pandas_loop].
  rewrite pandas_decode_total. f_equal.
  destruct (String.eqb data ""); [apply IH|].
  destruct (LoadData.pandas_decode pd_read_csv pd_read_parquet pd_read_json
                                   format limit r data) as [df| |e];
    [|apply IH|reflexivity].
  destruct (apply_limit limit (r + len df) df) as [[stop df'] r'].
  destruct iterate, stop; try reflexivity; now rewrite IH.
Qed.

Lemma csv_loop_total header limit iterate (parts : list Partition) :
  forall all_data r,
    LoadDataRaising.csv_loop decode csv_reader' header limit iterate parts
                             None all_data r
    = LoadData.csv_loop csv_reader header limit iterate parts all_data r.
Proof.
  induction parts as [|[path data] rest IH]; intros all_data r;
    [reflexivity|].
  cbn [LoadDataRaising.csv_loop LoadData.csv_loop]. f_equal.
  destruct (String.eqb data ""); [apply IH|].
  change (csv_decode decode csv_reader' data) with (Ok (csv_reader data)).
  cbv iota beta zeta.
  destruct (apply_limit limit (r + len (csv_reader data)) (csv_reader data))
    as [[stop csv_data] r'].
  destruct iterate.
  - destruct csv_data; [reflexivity|]. destruct stop; [reflexivity|].
    now rewrite IH.
  - destruct (same_header header all_data csv_data); [|reflexivity].
    destruct stop; [reflexivity | apply IH].
Qed.

Lemma yield_from_total (parts : list Partition) :
  LoadDataRaising.yield_from parts None = LoadData.yield_from parts.
Proof.
  induction parts as [|[path data] rest IH]; [reflexivity|].
  simpl. now rewrite IH.
Qed.

Lemma decode_partitions_total limit format iterate path spec parts :
  LoadDataRaising.decode_partitions decode csv_reader' pd_read_csv'
                                    pd_read_parquet' pd_read_json'
                                    limit format iterate path spec
                                    (exhausted parts)
  = LoadData.decode_partitions csv_reader pd_read_csv pd_read_parquet
                               pd_read_json limit format iterate path spec
                               parts.
Proof.
  unfold LoadDataRaising.decode_partitions, LoadData.decode_partitions.
  cbn [items ending exhausted].
  rewrite pandas_loop_total, yield_from_total.
  destruct format as [[| |]|]; try reflexivity;
    destruct (data_format spec); try reflexivity;
    destruct (csv_limit (data_header_exists spec) limit); try reflexivity;
    now rewrite csv_loop_total.
Qed.

(** With library calls that raise nothing and iterators that end without
    an exception, the run is the one of [LoadData.load_data]. *)
Lemma load_data_total output limit format iterate env :
  LoadDataRaising.load_data decode csv_reader' pd_read_csv'
                            pd_read_parquet' pd_read_json'
                            output limit format iterate (of_total env)
  = LoadData.load_data csv_reader pd_read_csv pd_read_parquet pd_read_json
                       output limit format iterate env.
Proof.
  unfold LoadDataRaising.load_data, LoadData.load_data.
  destruct output as [node|node|]; [| |reflexivity];
    (destruct (check_limit limit) as [limit'|e]; [|reflexivity]);
    (destruct (check_format format) as [format'|e]; [|reflexivity]);
    (destruct (bound node) as [data_id|data_id|]; [| |reflexivity]);
    cbn [of_total LoadDataRaising.dimension_values LoadDataRaising.poll
         LoadDataRaising.resource_access_spec LoadDataRaising.load_internal
         LoadDataRaising.is_material LoadDataRaising.materialize
         LoadDataRaising.load_external_data];
    rewrite ?decode_partitions_total; try reflexivity;
    (destruct (LoadData.is_material env); [|reflexivity]);
    simpl negb; cbv iota;
    (destruct (LoadData.load_external_data env) as [data_it|e];
     [now rewrite decode_partitions_total | reflexivity]).
Qed.

End Refinement.

Section Facts.

Variable decode : string -> result string.
Variable csv_reader : string -> result (list Row).
Variable pd_read_csv : string -> result (list Row).
Variable pd_read_parquet : string -> result (list Row).
Variable pd_read_json : string -> result (list Row).

Local Abbreviation load_data :=
  (LoadDataRaising.load_data decode csv_reader pd_read_csv pd_read_parquet
                             pd_read_json).
Local Abbreviation decode_partitions :=
  (LoadDataRaising.decode_partitions decode csv_reader pd_read_csv
                                     pd_read_parquet pd_read_json).
Local Abbreviation csv_loop := (LoadDataRaising.csv_loop decode csv_reader).
Local Abbreviation pandas_loop :=
  (LoadDataRaising.pandas_loop decode pd_read_csv pd_read_parquet
                               pd_read_json).
Local Abbreviation decoder_raises :=
  (LoadDataRaising.decoder_raises decode csv_reader pd_read_csv
                                  pd_read_parquet pd_read_json).

(** How a merged run can end: with its one item, or with nothing and an
    exception of the loop itself, of the iterator or of a library call on
    one of the payloads. *)
Local Abbreviation merged_end t parts fin :=
  ((snd t = Returned /\ exists item, yielded t = [item])
   \/ (exists e,
          snd t = Raised e /\ yielded t = []
          /\ (e = IndexError \/ e = TypeError \/ e = NotImplementedError
              \/ fin = Some e
              \/ exists p : Partition,
                  In p parts /\ String.eqb (snd p) "" = false
                  /\ decoder_raises (snd p) e))).

Ltac ends_raising e side :=
  right; exists e; split; [reflexivity|]; split; [reflexivity|]; side.

Lemma merged_end_later (t : Trace) (p : Partition)
      (parts : list Partition) (fin : option exn) :
  merged_end t parts fin -> merged_end t (p :: parts) fin.
Proof.
  intros [H|(e & Hs & Hy & He)]; [now left|].
  right. exists e. split; [exact Hs|]. split; [exact Hy|].
  destruct He as [He|[He|[He|[He|(q & Hin & Hq)]]]]; auto.
  do 4 right. exists q. split; [now right | exact Hq].
Qed.

Lemma merged_end_raised (t : Trace) (path data : string)
      (parts : list Partition) (fin : option exn) (e : exn) :
  t = ([], Raised e) ->
  String.eqb data "" = false ->
  decoder_raises data e ->
  merged_end t ((path, data) :: parts) fin.
Proof.
  intros -> Hdata He. right. exists e. split; [reflexivity|].
  split; [reflexivity|]. do 4 right. exists (path, data).
  split; [now left | now split].
Qed.

Lemma csv_loop_merged_end header limit (parts : list Partition) fin :
  forall all_data r,
    merged_end (csv_loop header limit false parts fin all_data r) parts fin.
Proof.
  induction parts as [|[path data] rest IH]; intros all_data r.
  - cbn [LoadDataRaising.csv_loop]. destruct fin as [e|]; cbn [at_end].
    + ends_raising e ltac:(do 3 right; now left).
    + left. split; [reflexivity|]. eexists; reflexivity.
  - cbn [LoadDataRaising.csv_loop]. rewrite yielded_emit_read.
    change (snd (emit (Read path) ?t)) with (snd t).
    destruct (String.eqb data "") eqn:Hdata;
      [apply merged_end_later, IH|].
    unfold csv_decode.
    destruct (decode data) as [text|e] eqn:Hdecode; simpl.
    2: { apply (@merged_end_raised _ path data rest fin e eq_refl Hdata).
         now left. }
    destruct (csv_reader text) as [rows|e] eqn:Hrows.
    2: { apply (@merged_end_raised _ path data rest fin e eq_refl Hdata).
         right; right. exists text. auto. }
    destruct (apply_limit limit (r + len rows) rows)
      as [[stop csv_data] r'].
    unfold same_header.
    destruct header; [destruct all_data as [|h all_data]|].
    + destruct stop; [|apply merged_end_later, IH].
      left. split; [reflexivity|]. eexists; reflexivity.
    + destruct csv_data as [|row more];
        [ends_raising IndexError ltac:(now left)|].
      destruct stop; [|apply merged_end_later, IH].
      left. split; [reflexivity|]. eexists; reflexivity.
    + destruct stop; [|apply merged_end_later, IH].
      left. split; [reflexivity|]. eexists; reflexivity.
Qed.

Lemma pandas_merge_end dfs (parts : list Partition) fin :
  merged_end (pandas_merge false dfs) parts fin.
Proof.
  unfold pandas_merge. destruct dfs as [|df0 dfs].
  - ends_raising IndexError ltac:(now left).
  - left. split; [reflexivity|]. eexists; reflexivity.
Qed.

Lemma pandas_loop_merged_end format limit (parts : list Partition) fin :
  forall dfs r,
    merged_end (pandas_loop format limit false parts fin dfs r) parts fin.
Proof.
  induction parts as [|[path data] rest IH]; intros dfs r.
  - cbn [LoadDataRaising.pandas_loop]. destruct fin as [e|]; cbn [at_end].
    + ends_raising e ltac:(do 3 right; now left).
    + apply pandas_merge_end.
  - cbn [LoadDataRaising.pandas_loop]. rewrite yielded_emit_read.
    change (snd (emit (Read path) ?t)) with (snd t).
    destruct (String.eqb data "") eqn:Hdata;
      [apply merged_end_later, IH|].
    assert (Hframe :
              forall df,
                merged_end
                  (let '(stop, df0, retrieved_so_far) :=
                     apply_limit limit (r + len df) df in
                   if stop then pandas_merge false (dfs ++ [df0])
                   else pandas_loop format limit false rest fin
                                    (dfs ++ [df0]) retrieved_so_far)
                  ((path, data) :: rest) fin).
    { intros df.
      destruct (apply_limit limit (r + len df) df) as [[stop df'] r'].
      destruct stop; [apply pandas_merge_end | apply merged_end_later, IH]. }
    unfold LoadDataRaising.pandas_decode.
    destruct format as [| | |name].
    + destruct (decode data) as [text|e] eqn:Hdecode.
      2: { apply (@merged_end_raised _ path data rest fin e eq_refl Hdata).
           now left. }
      destruct limit as [limit|]; [|ends_raising TypeError ltac:(right; now left)].
      destruct (pd_read_csv text) as [df|e] eqn:Hread.
      2: { apply (@merged_end_raised _ path data rest fin e eq_refl Hdata).
           right; right. exists text. auto. }
      apply Hframe.
    + destruct (pd_read_parquet data) as [df|e] eqn:Hread;
        [apply Hframe|].
      destruct e;
        try (apply (@merged_end_raised _ path data rest fin _ eq_refl Hdata);
             right; now left).
      apply merged_end_later, IH.
    + destruct (decode data) as [text|e] eqn:Hdecode.
      2: { apply (@merged_end_raised _ path data rest fin e eq_refl Hdata).
           now left. }
      destruct (pd_read_json text) as [df|e] eqn:Hread.
      2: { apply (@merged_end_raised _ path data rest fin e eq_refl Hdata).
           right; right. exists text. auto. }
      apply Hframe.
    + ends_raising NotImplementedError ltac:(right; right; now left).
Qed.

(** X4. In merged mode the pandas and the CSV branches yield exactly one
    item when they return and nothing when they raise. What they raise is
    an [IndexError], a [TypeError] or a [NotImplementedError] of the loop
    itself, the exception the iterator ends with, or an exception of a
    library call (decoding the text, the CSV reader, the pandas readers)
    on the payload of one of the partitions. *)
Theorem merged_mode_yields_one
        limit format path spec (data_it : Iterator) :
  format = Some PANDAS \/ (format <> Some SPARK /\ data_format spec = CSV) ->
  let t := decode_partitions limit format false path spec data_it in
  (snd t = Returned /\ exists item, yielded t = [item])
  \/ (exists e,
         snd t = Raised e /\ yielded t = []
         /\ (e = IndexError \/ e = TypeError \/ e = NotImplementedError
             \/ ending data_it = Some e
             \/ exists p, In p (items data_it)
                          /\ String.eqb (snd p) "" = false
                          /\ decoder_raises (snd p) e)).
Proof.
  intros Hbranch. cbv zeta. unfold LoadDataRaising.decode_partitions.
  change (snd (emit ?e ?t)) with (snd t).
  change (yielded (emit (Log ?e) ?t)) with (yielded t).
  assert (Hcsv :
            data_format spec = CSV ->
            merged_end
              match data_format spec with
              | CSV =>
                  match csv_limit (data_header_exists spec) limit with
                  | Raise e => ([], Raised e)
                  | Ok limit =>
                      csv_loop (data_header_exists spec) limit false
                               (items data_it) (ending data_it) [] 0%Z
                  end
              | _ => emits [Log LogTransformationNotSupported]
                           (LoadDataRaising.yield_from
                              (items data_it) (ending data_it))
              end (items data_it) (ending data_it)).
  { intros ->. unfold csv_limit.
    destruct (data_header_exists spec); simpl negb; cbv iota.
    - destruct limit as [limit|]; [|ends_raising TypeError ltac:(right; now left)].
      apply csv_loop_merged_end.
    - apply csv_loop_merged_end. }
  destruct format as [[| |]|].
  - destruct Hbranch as [H|[H _]]; [discriminate | now contradiction H].
  - apply pandas_loop_merged_end.
  - destruct Hbranch as [H|[_ H]]; [discriminate | exact (Hcsv H)].
  - destruct Hbranch as [H|[_ H]]; [discriminate | exact (Hcsv H)].
Qed.

(** X6. The error of an external load. Raised at the call, as
    [ApplicationExt._load_external_data] does, it ends the run before
    anything is logged. Raised by the generator at its first pull, as
    [AWSApplication._load_external_data] does, it comes after the record
    that announces the load, with nothing read and nothing yielded; in the
    CSV reader branch with a header line and no limit it is not seen at
    all: the [TypeError] of [limit + 1] comes first. *)
Theorem external_error_timing
        node data_id limit limit' format format' iterate env e :
  bound node = ExternalDataNode data_id ->
  is_material env = true ->
  check_limit limit = Ok limit' ->
  check_format format = Ok format' ->
  let t := load_data (Marshaler node) limit format iterate env in
  (load_external_data env = Raise e -> t = ([], Raised e))
  /\ (load_external_data env = Ok {| items := []; ending := Some e |} ->
      format' <> Some SPARK ->
      hd_error (fst t)
      = Some (Log (LogLoading limit' (Some (materialize env))))
      /\ partitions_read t = []
      /\ yielded t = []
      /\ snd t
         = if match format', data_format (resource_access_spec env),
                    data_header_exists (resource_access_spec env),
                    limit' with
              | Some PANDAS, _, _, _ => false
              | _, CSV, true, None => true
              | _, _, _, _ => false
              end
           then Raised TypeError else Raised e).
Proof.
  intros Hbound Hmaterial Hlimit Hformat. cbv zeta.
  unfold LoadDataRaising.load_data.
  rewrite Hlimit, Hformat, Hbound, Hmaterial. simpl negb. cbv iota.
  split.
  - now intros ->.
  - intros -> Hspark. unfold LoadDataRaising.decode_partitions.
    cbn [items ending].
    destruct format' as [[| |]|]; [now contradiction Hspark | | |].
    + now repeat split.
    + destruct (data_format (resource_access_spec env));
        try (now repeat split).
      destruct (data_header_exists (resource_access_spec env)),
        limit' as [n|]; now repeat split.
    + destruct (data_format (resource_access_spec env));
        try (now repeat split).
      destruct (data_header_exists (resource_access_spec env)),
        limit' as [n|]; now repeat split.
Qed.

End Facts.

(** X4 where [pd.read_csv] refuses the second partition: nothing is
    yielded, and the exception is the one of that call. *)
Lemma merged_mode_yields_one_witness :
  let t := LoadDataRaising.decode_partitions
             Scenarios.ascii_decode (total Scenarios.plain_csv_reader)
             Scenarios.strict_read_csv (total_parquet Scenarios.no_parquet)
             (total Scenarios.plain_csv_reader)
             (Some 5%Z) (Some PANDAS) false (Some "s3://bucket/daily_sales")
             Scenarios.csv_with_header
             (exhausted Scenarios.with_blank_partition) in
  snd t = Raised (ValueError (MsgCollaborator "EmptyDataError"))
  /\ yielded t = [].
Proof.
  cbv zeta.
  destruct (@merged_mode_yields_one
              Scenarios.ascii_decode (total Scenarios.plain_csv_reader)
              Scenarios.strict_read_csv (total_parquet Scenarios.no_parquet)
              (total Scenarios.plain_csv_reader)
              (Some 5%Z) (Some PANDAS) (Some "s3://bucket/daily_sales")
              Scenarios.csv_with_header
              (exhausted Scenarios.with_blank_partition)
              (or_introl eq_refl))
    as [[Hreturned _]|(e & Hraised & Hnothing & _)].
  - discriminate Hreturned.
  - split; [reflexivity | exact Hnothing].
Defined.

(** X6 at a catalog table that is missing from the development context,
    asked for without limit and format: the [ValueError] of the generator
    is not seen. *)
Lemma external_error_timing_witness :
  snd (LoadDataRaising.load_data
         Scenarios.ascii_decode (total Scenarios.plain_csv_reader)
         Scenarios.strict_read_csv (total_parquet Scenarios.no_parquet)
         (total Scenarios.plain_csv_reader)
         Scenarios.external_node None None false Scenarios.missing_table)
  = Raised TypeError.
Proof.
  destruct (@external_error_timing
              Scenarios.ascii_decode (total Scenarios.plain_csv_reader)
              Scenarios.strict_read_csv (total_parquet Scenarios.no_parquet)
              (total Scenarios.plain_csv_reader)
              {| bound := ExternalDataNode "daily" |} "daily" None None
              None None false Scenarios.missing_table
              (ValueError (MsgNotInDevContext "daily"))
              eq_refl eq_refl eq_refl eq_refl)
    as (_ & Hpull).
  destruct (Hpull eq_refl) as (_ & _ & _ & Hstatus); [discriminate|].
  exact Hstatus.
Defined.

End LoadDataRaisingFacts.

(** ** [preview_data] *)

Module PreviewFacts.

Import LoadData LoadDataFacts Preview.

Lemma first_yield_yielded (events : list Event) (s : Status) :
  first_yield events = hd_error (yielded (events, s)).
Proof.
  unfold yielded. simpl fst.
  induction events as [|[r|p|i] events IH]; simpl; auto.
Qed.

(** [next] hands out the first item the generator yields. *)
Lemma next_yielded (t : Trace) (i : Item) (rest : list Item) :
  yielded t = i :: rest -> next t = NextItem i.
Proof.
  destruct t as [events s]. unfold next. simpl fst.
  rewrite (first_yield_yielded events s). now intros ->.
Qed.

Lemma next_nothing_yielded (t : Trace) (e : exn) :
  yielded t = [] -> snd t = Raised e -> next t = NextRaised e.
Proof.
  destruct t as [events s]. unfold next. simpl fst. simpl snd.
  rewrite (first_yield_yielded events s). now intros -> ->.
Qed.

Section Facts.

Variable csv_reader : string -> list Row.
Variable pd_read_csv : string -> list Row.
Variable pd_read_parquet : string -> option (list Row).
Variable pd_read_json : string -> list Row.
Variable pd_option_context : option LimitArg -> option Z -> option exn.

Local Abbreviation preview_data :=
  (Preview.preview_data csv_reader pd_read_csv pd_read_parquet pd_read_json
                        pd_option_context).
Local Abbreviation load_data :=
  (LoadData.load_data csv_reader pd_read_csv pd_read_parquet pd_read_json).
Local Abbreviation frames :=
  (LoadData.pandas_frames pd_read_csv pd_read_parquet pd_read_json).

(** X11. With pandas at hand, the preview of an internal output that
    exists and has records, under a limit: the data is loaded as one frame
    with the first [limit] records of the partitions; when pandas takes
    the display options the preview is that frame, in the pandas format;
    when it refuses them the preview raises its exception, and the frame
    is lost. Whether Spark is at hand plays no part. *)
Theorem preview_with_pandas runtime node data_id limit columns env path :
  pandas_found runtime = true ->
  bound node = InternalDataNode data_id ->
  (0 < limit)%Z ->
  poll env = Some path ->
  (forall name,
      data_format (resource_access_spec env) <> OtherDataFormat name) ->
  frames (data_format (resource_access_spec env)) (load_internal env) <> [] ->
  preview_data runtime (Marshaler node) (Some (IntLimit limit)) columns env
  = match pd_option_context (Some (IntLimit limit)) columns with
    | Some e => PreviewRaised e
    | None =>
        Previewed
          (DataFrame
             (firstn (Z.to_nat limit)
                     (List.concat
                        (frames (data_format (resource_access_spec env))
                                (load_internal env)))))
          PANDAS
    end.
Proof.
  intros Hpandas Hbound Hpos Hpoll Hformat Hframes.
  unfold Preview.preview_data. rewrite Hpandas.
  destruct (merged_pandas csv_reader pd_read_csv pd_read_parquet pd_read_json
                          node (limit := limit) env
                          Hbound Hpos Hpoll Hformat Hframes)
    as (Hyielded & _).
  change (load_data (Marshaler node) (Some (IntLimit limit)) (Some "PANDAS")
                    false env)
    with (load_data (Marshaler node) (Some (IntLimit limit)) (Some "pandas")
                    false env).
  now rewrite (next_yielded _ Hyielded).
Qed.

(** X12. The preview of an internal output that does not exist: the first
    item of the load is [None]. With pandas at hand the preview is
    [(None, PANDAS)] when pandas takes the display options, and their
    exception otherwise; with Spark alone it raises an [AttributeError] at
    [data.show]; with neither it raises a [TypeError] at the loop over the
    lines. No [ValueError] tells the caller that the output is absent. *)
Theorem preview_of_absent_output
        runtime node data_id limit limit' columns env :
  bound node = InternalDataNode data_id ->
  check_limit limit = Ok limit' ->
  poll env = None ->
  preview_data runtime (Marshaler node) limit columns env
  = if pandas_found runtime
    then match pd_option_context limit columns with
         | Some e => PreviewRaised e
         | None => Previewed NoneItem PANDAS
         end
    else if pyspark_found runtime then PreviewRaised AttributeError
         else PreviewRaised TypeError.
Proof.
  intros Hbound Hlimit Hpoll. unfold Preview.preview_data.
  assert (Hnext :
            forall format format',
              check_format (Some format) = Ok format' ->
              next (load_data (Marshaler node) limit (Some format) false env)
              = NextItem NoneItem).
  { intros format format' Hformat.
    rewrite (@absent_output_goes_on
               csv_reader pd_read_csv pd_read_parquet pd_read_json
               node data_id limit limit' (Some format) format' false env
               Hbound Hlimit Hformat Hpoll).
    reflexivity. }
  rewrite (Hnext "PANDAS" (Some PANDAS) eq_refl).
  rewrite (Hnext "SPARK" (Some SPARK) eq_refl).
  rewrite (Hnext "ORIGINAL" (Some ORIGINAL) eq_refl).
  reflexivity.
Qed.

End Facts.

(** X11 with a pandas that takes the options, and with one that raises its
    [OptionError], an [AttributeError], at the name [max_rows]. *)
Lemma preview_with_pandas_witness :
  Preview.preview_data
    Scenarios.plain_csv_reader Scenarios.plain_read_csv
    Scenarios.no_parquet Scenarios.plain_csv_reader
    Scenarios.options_taken
    {| pandas_found := true; pyspark_found := true |}
    Scenarios.internal_node (Some (IntLimit 2)) None
    (Scenarios.produced Scenarios.three_partitions)
  = Previewed (DataFrame [["1"; "a"]; ["2"; "b"]]) PANDAS
  /\ Preview.preview_data
       Scenarios.plain_csv_reader Scenarios.plain_read_csv
       Scenarios.no_parquet Scenarios.plain_csv_reader
       Scenarios.options_refused
       {| pandas_found := true; pyspark_found := true |}
       Scenarios.internal_node (Some (IntLimit 2)) None
       (Scenarios.produced Scenarios.three_partitions)
     = PreviewRaised AttributeError.
Proof.
  split.
  - refine (@preview_with_pandas
              Scenarios.plain_csv_reader Scenarios.plain_read_csv
              Scenarios.no_parquet Scenarios.plain_csv_reader
              Scenarios.options_taken
              {| pandas_found := true; pyspark_found := true |}
              {| bound := InternalDataNode "daily_sales" |} "daily_sales" 2
              None (Scenarios.produced Scenarios.three_partitions)
              "s3://bucket/daily_sales/2021-03-01"
              eq_refl eq_refl eq_refl eq_refl _ _); discriminate.
  - refine (@preview_with_pandas
              Scenarios.plain_csv_reader Scenarios.plain_read_csv
              Scenarios.no_parquet Scenarios.plain_csv_reader
              Scenarios.options_refused
              {| pandas_found := true; pyspark_found := true |}
              {| bound := InternalDataNode "daily_sales" |} "daily_sales" 2
              None (Scenarios.produced Scenarios.three_partitions)
              "s3://bucket/daily_sales/2021-03-01"
              eq_refl eq_refl eq_refl eq_refl _ _); discriminate.
Defined.

Lemma preview_of_absent_output_witness :
  Preview.preview_data
    Scenarios.plain_csv_reader Scenarios.plain_read_csv
    Scenarios.no_parquet Scenarios.plain_csv_reader
    Scenarios.options_taken
    {| pandas_found := false; pyspark_found := true |}
    Scenarios.internal_node (Some (IntLimit 3)) None Scenarios.not_produced
  = PreviewRaised AttributeError.
Proof.
  exact (@preview_of_absent_output
           Scenarios.plain_csv_reader Scenarios.plain_read_csv
           Scenarios.no_parquet Scenarios.plain_csv_reader
           Scenarios.options_taken
           {| pandas_found := false; pyspark_found := true |}
           {| bound := InternalDataNode "daily_sales" |} "daily_sales"
           (Some (IntLimit 3)) (Some 3%Z) None Scenarios.not_produced
           eq_refl eq_refl eq_refl).
Defined.

End PreviewFacts.

(** ** The accessors and [__getitem__] on a slice *)

Module NodeLookupMore.

Import NodeLookup NodeLookupFacts.

Section Facts.

Variable MarshalerNode : Type.
Variable MetricSubDimensionMap : Type.

Local Abbreviation App := (Application MarshalerNode MetricSubDimensionMap).

(** What an accessor answers tells how many nodes the getter found. *)
Lemma unique_or_none_iff (ms : list MarshalerNode) ambiguous :
  (unique_or_none ms ambiguous = Ok None <-> ms = [])
  /\ (forall node, unique_or_none ms ambiguous = Ok (Some node)
                   <-> ms = [node])
  /\ (forall e, unique_or_none ms ambiguous = Raise e
                <-> 1 < List.length ms
                    /\ e = ValueError (ambiguous (List.length ms))).
Proof.
  destruct ms as [|m0 [|m1 rest]]; simpl.
  - refine (conj _ (conj _ _)).
    + now split.
    + intros node. split; discriminate.
    + intros e. split; [discriminate | intros [H _]; lia].
  - refine (conj _ (conj _ _)).
    + split; discriminate.
    + intros node. split; intros [= ->]; reflexivity.
    + intros e. split; [discriminate | intros [H _]; lia].
  - refine (conj _ (conj _ _)).
    + split; discriminate.
    + intros node. split; discriminate.
    + intros e. split.
      * intros [= <-]. split; [lia | reflexivity].
      * intros [_ ->]. reflexivity.
Qed.

(** X13. [timer], [metric] and [alarm] answer as [data] does: [None] exactly
    when the getter finds no node, the node exactly when it finds one, and
    a [ValueError] with the number of nodes exactly when it finds several;
    [metric] passes the sub-dimensions on to its getter and [alarm] the
    alarm type. *)
Theorem accessors_resolve_exactly_one (self : App) (id : string)
        (sub_dimensions : option MetricSubDimensionMap)
        (alarm_type : AlarmType) :
  let answers (r : result (option MarshalerNode)) found ambiguous :=
    (r = Ok None <-> found = [])
    /\ (forall node, r = Ok (Some node) <-> found = [node])
    /\ (forall e, r = Raise e
                  <-> 1 < List.length found
                      /\ e = ValueError (ambiguous (List.length found))) in
  answers (timer self id) (get_timer self id) (MsgAmbiguousTimer id)
  /\ answers (metric self id sub_dimensions)
             (get_metric self id sub_dimensions) (MsgAmbiguousMetric id)
  /\ answers (alarm self id alarm_type)
             (get_alarm self id alarm_type) (MsgAmbiguousAlarm id).
Proof.
  cbv zeta. unfold timer, metric, alarm.
  refine (conj _ (conj _ _)); apply unique_or_none_iff.
Qed.

(** X14. [__getitem__] on a [str]: the first kind, in the order data, timer,
    metric, alarm, that maps the id to some node decides: when that kind
    maps the id to several nodes the call raises the [ValueError] of that
    kind, whatever the later kinds know of the id. *)
Theorem getitem_ambiguity_shadows_later_kinds (self : App)
        (entity_id : string) :
  let r := __getitem__ self (KeyStr entity_id) in
  (1 < List.length (get_data self entity_id) ->
   r = Raise (ValueError
                (MsgAmbiguousData
                   entity_id (List.length (get_data self entity_id)))))
  /\ (get_data self entity_id = [] ->
      1 < List.length (get_timer self entity_id) ->
      r = Raise (ValueError
                   (MsgAmbiguousTimer
                      entity_id (List.length (get_timer self entity_id)))))
  /\ (get_data self entity_id = [] -> get_timer self entity_id = [] ->
      1 < List.length (get_metric self entity_id None) ->
      r = Raise (ValueError
                   (MsgAmbiguousMetric
                      entity_id
                      (List.length (get_metric self entity_id None)))))
  /\ (get_data self entity_id = [] -> get_timer self entity_id = [] ->
      get_metric self entity_id None = [] ->
      1 < List.length (get_alarm self entity_id AlarmALL) ->
      r = Raise (ValueError
                   (MsgAmbiguousAlarm
                      entity_id
                      (List.length (get_alarm self entity_id AlarmALL))))).
Proof.
  cbv zeta. unfold __getitem__, data, timer, metric, alarm.
  refine (conj _ (conj _ (conj _ _))).
  - intros H. now rewrite (@unique_or_none_many _ _ _ H).
  - intros -> H. simpl. now rewrite (@unique_or_none_many _ _ _ H).
  - intros -> -> H. simpl. now rewrite (@unique_or_none_many _ _ _ H).
  - intros -> -> -> H. simpl. now rewrite (@unique_or_none_many _ _ _ H).
Qed.

(** X15. [__getitem__] on a slice: a slice whose start is no [str] or whose
    stop is neither a sub-dimension map nor an alarm type raises a
    [ValueError]; otherwise the metrics (for a map) or the alarms (for a
    type) alone are consulted, with the stop as resolver: one node is
    returned, no node raises the [ValueError] of the unknown id, several
    raise the [ValueError] of the accessor; [None] is never returned. The
    data nodes and the timers are never consulted: an application of the
    same id whose metrics and alarms are the same answers alike, whatever
    its data nodes and timers. *)
Theorem getitem_slice (self : App) (start : option string)
        (stop : SliceStop MetricSubDimensionMap) :
  let r := __getitem__ self (KeySlice start stop) in
  r <> Ok None
  /\ (start = None \/ stop = StopOther ->
      r = Raise (ValueError MsgWrongSliceTypes))
  /\ (forall entity_id,
         start = Some entity_id ->
         let found :=
           match stop with
           | StopSubDimensions m => get_metric self entity_id (Some m)
           | StopAlarmType t => get_alarm self entity_id t
           | StopOther => []
           end in
         stop <> StopOther ->
         (found = [] ->
          r = Raise (ValueError (MsgNoActiveNode (Some entity_id)
                                                 (app_id self))))
         /\ (forall node, found = [node] -> r = Ok (Some node))
         /\ (1 < List.length found ->
             r = Raise (ValueError
                          (match stop with
                           | StopSubDimensions _ => MsgAmbiguousMetric
                           | _ => MsgAmbiguousAlarm
                           end entity_id (List.length found)))))
  /\ (forall other : App,
         app_id self = app_id other ->
         (forall id sub_dimensions,
             get_metric self id sub_dimensions
             = get_metric other id sub_dimensions) ->
         (forall id alarm_type,
             get_alarm self id alarm_type = get_alarm other id alarm_type) ->
         __getitem__ other (KeySlice start stop) = r).
Proof.
  cbv zeta. unfold __getitem__, metric, alarm.
  refine (conj _ (conj _ (conj _ _))).
  - destruct start as [entity_id|], stop as [m|t|]; try discriminate.
    + destruct (unique_or_none_cases (get_metric self entity_id (Some m))
                  (MsgAmbiguousMetric entity_id))
        as [[_ ->]|[[n [_ ->]]| [_ ->]]]; simpl; discriminate.
    + destruct (unique_or_none_cases (get_alarm self entity_id t)
                  (MsgAmbiguousAlarm entity_id))
        as [[_ ->]|[[n [_ ->]]| [_ ->]]]; simpl; discriminate.
  - intros [-> | ->]; [reflexivity | now destruct start].
  - intros entity_id -> Hstop.
    destruct stop as [m|t|]; [| |now contradiction Hstop].
    + refine (conj _ (conj _ _)).
      * now intros ->.
      * now intros node ->.
      * intros H. now rewrite (@unique_or_none_many _ _ _ H).
    + refine (conj _ (conj _ _)).
      * now intros ->.
      * now intros node ->.
      * intros H. now rewrite (@unique_or_none_many _ _ _ H).
  - intros other Hid Hmetric Halarm.
    destruct start as [entity_id|], stop as [m|t|]; try reflexivity.
    + now rewrite Hmetric, Hid.
    + now rewrite Halarm, Hid.
Qed.

End Facts.

Lemma accessors_resolve_exactly_one_witness :
  timer Scenarios.shop "daily" = Ok (Some 4)
  /\ alarm Scenarios.shop "nobody" AlarmCOMPOSITE = Ok None.
Proof.
  destruct (accessors_resolve_exactly_one Scenarios.shop "daily" None AlarmALL)
    as ((_ & Htimer & _) & _).
  destruct (accessors_resolve_exactly_one
              Scenarios.shop "nobody" None AlarmCOMPOSITE)
    as (_ & _ & (Halarm & _)).
  split.
  - apply (proj2 (Htimer 4)). reflexivity.
  - apply (proj2 Halarm). reflexivity.
Defined.

Lemma getitem_ambiguity_shadows_later_kinds_witness :
  __getitem__ Scenarios.crowded (KeyStr "sales")
  = Raise (ValueError (MsgAmbiguousData "sales" 2)).
Proof.
  apply (proj1 (getitem_ambiguity_shadows_later_kinds
                  Scenarios.crowded "sales")).
  simpl. lia.
Defined.

Lemma getitem_slice_witness :
  __getitem__ Scenarios.crowded
              (KeySlice (Some "latency") (StopSubDimensions "eu"))
  = Ok (Some 8)
  /\ __getitem__ Scenarios.crowded
                 (KeySlice (Some "sales") (StopAlarmType AlarmMETRIC))
     = Raise (ValueError (MsgNoActiveNode (Some "sales") "crowded"))
  /\ __getitem__ Scenarios.metrics_only
                 (KeySlice (Some "latency") (StopSubDimensions "eu"))
     = __getitem__ Scenarios.crowded
                   (KeySlice (Some "latency") (StopSubDimensions "eu")).
Proof.
  destruct (getitem_slice Scenarios.crowded (Some "latency")
                          (StopSubDimensions "eu"))
    as (_ & _ & Hmetric & Hsame).
  destruct (getitem_slice Scenarios.crowded (Some "sales")
                          (StopAlarmType AlarmMETRIC))
    as (_ & _ & Halarm & _).
  refine (conj _ (conj _ _)).
  - apply (Hmetric "latency" eq_refl); [discriminate | reflexivity].
  - apply (Halarm "sales" eq_refl); [discriminate | reflexivity].
  - apply (Hsame Scenarios.metrics_only); intros; reflexivity.
Defined.

End NodeLookupMore.

(** ** The defaults of [_create_or_update_data_with_defaults], as a whole *)

Module DimLinksMore.

Import DimLinks DimLinksFacts PyFacts.

(** A loop that ends normally pairs every element with the result of its
    body. *)
Lemma for_each_Forall2 {A B} (f : A -> result B) (xs : list A) :
  forall ys, for_each f xs = Ok ys -> Forall2 (fun x y => f x = Ok y) xs ys.
Proof.
  induction xs as [|x xs IH]; intros ys Hok.
  - injection Hok as <-. constructor.
  - apply for_each_cons_inv in Hok as (y & ys' & Hy & Hys & ->).
    constructor; [exact Hy | exact (IH ys' Hys)].
Qed.

Lemma filter_independent (all_signals : list Signal) (s : Signal) :
  In s (filter (fun input => negb (is_dependent input)) all_signals) ->
  is_dependent s = false.
Proof.
  intros Hin. apply filter_In in Hin as [_ H].
  now destruct (is_dependent s).
Qed.

Lemma link_from_independent_shape name signals link :
  link_from_independent name signals = Some link ->
  exists other d,
    In other signals
    /\ dim_name d = name
    /\ link = (OutputDimension name, None,
               InputDimension {| sdt_signal := clone other None;
                                 sdt_dimension := Some d |}).
Proof.
  induction signals as [|s signals IH]; simpl; [discriminate|].
  destruct (spec_find_dimension_by_name
              (dimension_spec (domain_spec s)) name) as [d|] eqn:Hfind.
  - intros [= <-]. exists s, d. split; [now left|].
    split; [exact (find_has_name _ _ Hfind) | reflexivity].
  - intros H. destruct (IH H) as (other & d & Hin & Hname & ->).
    exists other, d. split; [now right|]. now split.
Qed.

(** X16. The links [_create_or_update_data_with_defaults] makes up when it
    is given inputs but neither an output spec nor output links: one link
    per dimension of the flattened spec of the first input, in that order,
    each to the output dimension of that name and without mapper; its source
    is a literal value, and then the first input is dependent, or the
    dimension of that name on a signal that is independent and was cloned
    to the alias [None]. So no default link refers to a dependent input. *)
Theorem default_links_shape id inputs first rest links_arg spec ls :
  all_signals_of inputs = first :: rest ->
  links_given links_arg = false ->
  default_output_dimensions id (Some inputs) None links_arg
  = Ok (spec, Some ls) ->
  map (fun link : Link => fst (fst link)) ls
  = map (fun entry => OutputDimension (fst entry))
        (get_flattened_dimension_map (dimension_spec (domain_spec first)))
  /\ Forall (fun link : Link => snd (fst link) = None) ls
  /\ Forall (fun link : Link =>
               match snd link with
               | Literal _ => is_dependent first = true
               | InputDimension t =>
                   alias (sdt_signal t) = None
                   /\ is_dependent (sdt_signal t) = false
                   /\ exists d,
                       sdt_dimension t = Some d
                       /\ fst (fst link) = OutputDimension (dim_name d)
               | _ => False
               end) ls.
Proof.
  intros Hall Hno Hok.
  destruct (is_dependent first) eqn:Hdep.
  - rewrite (@default_output_dimensions_dependent
               id inputs first rest links_arg Hall Hdep Hno)
      in Hok.
    destruct (dependent_links id first (first :: rest)) as [links|e] eqn:Hloop;
      simpl in Hok; [|discriminate].
    injection Hok as _ <-.
    unfold dependent_links in Hloop. apply for_each_Forall2 in Hloop.
    simpl dimension_spec in Hloop.
    induction Hloop as [|[name dim] link flat links Hbody _ IH].
    + repeat constructor.
    + destruct IH as (IHt & IHm & IHs).
      rewrite link_dependent_dimension_eq in Hbody.
      destruct (filter_find_dimension_by_name
                  (dimension_filter_spec (domain_spec first)) name)
        as [variant|]; [|discriminate].
      destruct (is_material_value variant).
      * injection Hbody as <-. simpl.
        refine (conj _ (conj _ _)).
        -- now rewrite IHt.
        -- now constructor.
        -- constructor; [reflexivity | exact IHs].
      * destruct (link_from_independent name _) as [found|] eqn:Hfound;
          [|discriminate].
        injection Hbody as <-.
        apply link_from_independent_shape in Hfound
          as (other & d & Hin & Hname & ->).
        apply filter_independent in Hin. simpl.
        refine (conj _ (conj _ _)).
        -- now rewrite IHt.
        -- now constructor.
        -- constructor; [|exact IHs]. simpl.
           split; [reflexivity|]. split; [exact Hin|].
           exists d. now rewrite Hname.
  - rewrite (@default_output_dimensions_independent
               id inputs first rest links_arg Hall Hdep Hno)
      in Hok.
    injection Hok as _ <-. unfold identity_links. simpl dimension_spec.
    assert (Hfound :
              forall entry,
                In entry (get_flattened_dimension_map
                            (dimension_spec (domain_spec first))) ->
                exists d,
                  spec_find_dimension_by_name
                    (dimension_spec (domain_spec first)) (fst entry) = Some d
                  /\ dim_name d = fst entry).
    { intros [name dim] Hin.
      destruct (find_flattened _ _ _ Hin) as [d Hd].
      exists d. split; [exact Hd | exact (find_has_name _ _ Hd)]. }
    induction (get_flattened_dimension_map
                 (dimension_spec (domain_spec first))) as [|entry flat IH].
    + repeat constructor.
    + destruct IH as (IHt & IHm & IHs);
        [intros e He; apply Hfound; now right|].
      destruct (Hfound entry (or_introl eq_refl)) as (d & Hd & Hname).
      simpl. refine (conj _ (conj _ _)).
      * now rewrite IHt.
      * now constructor.
      * constructor; [|exact IHs]. simpl.
        split; [reflexivity|]. split; [exact Hdep|].
        exists d. split; [exact Hd | now rewrite Hname].
Qed.

(** Compute targets that count as none: [None], the empty code, no
    descriptor. *)
Lemma create_or_update_cases id inputs spec links targets :
  _create_or_update_data_with_defaults id inputs spec links targets
  = match default_output_dimensions id inputs spec links with
    | Raise e => Raise e
    | Ok (s, l) =>
        match targets with
        | None | Some (TargetCode "") | Some (TargetDescriptors []) =>
            Raise (ValueError (MsgNoComputeTargets id))
        | Some targets =>
            Ok {| arg_id := id;
                  arg_output_dimension_spec := s;
                  arg_output_dim_links :=
                    if links_given l
                    then match l with Some l => l | None => [] end
                    else [];
                  arg_compute_targets :=
                    match targets with
                    | TargetCode code =>
                        [GlueBatchCompute code G_1X 100 (12 * 60)]
                    | TargetDescriptors ds => map Descriptor ds
                    end |}
        end
    end.
Proof.
  unfold _create_or_update_data_with_defaults.
  destruct (default_output_dimensions id inputs spec links) as [[s l]|e];
    reflexivity.
Qed.

(** What is raised before the arguments are handed on: what the
    defaulting of the output dimensions raises, whatever the compute
    targets; otherwise the [ValueError] that names the node, exactly when
    the compute targets are [None], the empty code or an empty
    sequence. *)
Lemma arguments_errors id inputs spec links targets e :
  _create_or_update_data_with_defaults id inputs spec links targets = Raise e
  <-> default_output_dimensions id inputs spec links = Raise e
      \/ ((exists defaults,
              default_output_dimensions id inputs spec links = Ok defaults)
          /\ (targets = None \/ targets = Some (TargetCode "")
              \/ targets = Some (TargetDescriptors []))
          /\ e = ValueError (MsgNoComputeTargets id)).
Proof.
  rewrite create_or_update_cases.
  destruct (default_output_dimensions id inputs spec links) as [[s l]|e0].
  - split.
    + intros H. right. split; [eauto|].
      destruct targets as [[[|c code]|[|d ds]]|]; try discriminate;
        injection H as <-; auto.
    + intros [H|(_ & Ht & ->)]; [discriminate|].
      now destruct Ht as [-> | [-> | ->]].
  - split.
    + intros [= ->]. now left.
    + intros [[= ->]|([d H] & _)]; [reflexivity | discriminate].
Qed.

(** X18. Without inputs ([None], an empty list or an empty dict) and without
    an output spec, the node gets the empty spec and no links: output links
    given by the caller are dropped. *)
Theorem links_without_inputs_are_dropped id inputs links descriptor rest :
  match inputs with
  | None => True
  | Some given => all_signals_of given = []
  end ->
  _create_or_update_data_with_defaults
    id inputs None links (Some (TargetDescriptors (descriptor :: rest)))
  = Ok {| arg_id := id;
          arg_output_dimension_spec := DimensionSpecOf [];
          arg_output_dim_links := [];
          arg_compute_targets := map Descriptor (descriptor :: rest) |}.
Proof.
  intros Hinputs. rewrite create_or_update_cases.
  unfold default_output_dimensions.
  destruct inputs as [given|]; simpl option_map; [rewrite Hinputs|];
    reflexivity.
Qed.

Lemma default_links_shape_witness :
  exists ls,
    default_output_dimensions
      "converted" (Some (InputsList [Scenarios.rates; Scenarios.orders;
                                     Scenarios.clicks])) None None
    = Ok (Scenarios.region_day, Some ls)
    /\ map (fun link : Link => fst (fst link)) ls
       = [OutputDimension "region"; OutputDimension "day"].
Proof.
  eexists. split; [reflexivity|].
  exact (proj1 (@default_links_shape
                  "converted"
                  (InputsList [Scenarios.rates; Scenarios.orders;
                               Scenarios.clicks])
                  Scenarios.rates [Scenarios.orders; Scenarios.clicks]
                  None Scenarios.region_day _
                  eq_refl eq_refl eq_refl)).
Defined.

Lemma links_without_inputs_are_dropped_witness :
  _create_or_update_data_with_defaults
    "report" (Some (InputsDict [])) None
    (Some [(OutputDimension "day", None, Literal (VStr "2021-03-01"))])
    (Some (TargetDescriptors ["spark"]))
  = Ok {| arg_id := "report";
          arg_output_dimension_spec := DimensionSpecOf [];
          arg_output_dim_links := [];
          arg_compute_targets := [Descriptor "spark"] |}.
Proof.
  exact (@links_without_inputs_are_dropped
           "report" (Some (InputsDict []))
           (Some [(OutputDimension "day", None, Literal (VStr "2021-03-01"))])
           "spark" [] eq_refl).
Defined.

End DimLinksMore.

(** ** [create_data], [update_data] and the transient node *)

Module CreateDataFacts.

Import DimLinks DimLinksFacts DimLinksMore.

Section Facts.

Variable MarshalerNode : Type.
Variable Application_create_data : DataNodeArgs -> result MarshalerNode.
Variable Application_update_data : DataNodeArgs -> result MarshalerNode.

Local Abbreviation create_or_update :=
  (CreateData._create_or_update_data_with_defaults
     Application_create_data Application_update_data).
Local Abbreviation core is_update :=
  (if is_update then Application_update_data else Application_create_data).
Local Abbreviation arguments :=
  DimLinks._create_or_update_data_with_defaults.
Local Abbreviation create_transient_node :=
  (TransientNode.create_transient_node
     Application_create_data Application_update_data).

Lemma create_or_update_eq is_update id inputs spec links targets :
  create_or_update is_update id inputs spec links targets
  = match arguments id inputs spec links targets with
    | Ok args => core is_update args
    | Raise e => Raise e
    end.
Proof.
  unfold CreateData._create_or_update_data_with_defaults.
  destruct (arguments id inputs spec links targets); simpl;
    now destruct is_update.
Qed.

(** X17. The errors of [create_data] and [update_data], in the order they
    can come: what the defaulting of the output dimensions raises, whatever
    the compute targets; else the [ValueError] that names the node, exactly
    when the compute targets are [None], the empty code or an empty
    sequence; else what the core method raises on the arguments it is
    handed. A dimension that cannot be linked is reported before missing
    compute targets, and both before the core method is called. The call
    returns exactly what the core method returns on those arguments. *)
Theorem compute_targets_checked_last
        is_update id inputs spec links targets :
  (forall e,
      create_or_update is_update id inputs spec links targets = Raise e
      <-> default_output_dimensions id inputs spec links = Raise e
          \/ ((exists defaults,
                  default_output_dimensions id inputs spec links
                  = Ok defaults)
              /\ (targets = None \/ targets = Some (TargetCode "")
                  \/ targets = Some (TargetDescriptors []))
              /\ e = ValueError (MsgNoComputeTargets id))
          \/ (exists args,
                 arguments id inputs spec links targets = Ok args
                 /\ core is_update args = Raise e))
  /\ (forall node,
         create_or_update is_update id inputs spec links targets = Ok node
         <-> exists args,
             arguments id inputs spec links targets = Ok args
             /\ core is_update args = Ok node).
Proof.
  split.
  - intros e. rewrite create_or_update_eq.
    pose proof (arguments_errors id inputs spec links targets) as Hargs.
    destruct (arguments id inputs spec links targets) as [args|e0].
    + split.
      * intros H. right; right. now exists args.
      * intros [H|[H|(args' & [= <-] & H)]]; [| |exact H].
        -- assert (Hno : Ok args = Raise e) by (apply Hargs; now left).
           discriminate.
        -- assert (Hno : @Ok DataNodeArgs args = Raise e)
             by (apply Hargs; now right).
           discriminate.
    + split.
      * intros [= <-].
        destruct (proj1 (Hargs e0) eq_refl) as [H|H]; [now left|].
        right; now left.
      * intros [H|[H|(args' & Hno & _)]]; [| |discriminate].
        -- assert (He : @Raise DataNodeArgs e0 = Raise e)
             by (apply Hargs; now left).
           now injection He as ->.
        -- assert (He : @Raise DataNodeArgs e0 = Raise e)
             by (apply Hargs; now right).
           now injection He as ->.
  - intros node. rewrite create_or_update_eq.
    destruct (arguments id inputs spec links targets) as [args|e0].
    + split.
      * intros H. now exists args.
      * now intros (args' & [= <-] & H).
    + split; [discriminate | intros (args' & Hno & _); discriminate].
Qed.

Lemma compute_code_not_empty alias limit :
  TransientNode.compute_code alias limit <> "".
Proof. discriminate. Qed.

(** X19. The transient node [_load_external_data] creates for a catalog
    table is never refused for want of compute targets, its code is never
    empty: when the creation raises, a dimension of the output could not
    be linked, or [Application.create_data] raised on the arguments it was
    handed. For an output that is an independent signal the creation comes
    to [Application.create_data] on these arguments: the spec of the
    output, one identity link per dimension and one Glue job whose code
    assigns the output, limited when a limit is given, to [output]. *)
Theorem transient_node_is_created id output materialized_output limit :
  (forall e,
      create_transient_node id output materialized_output limit = Raise e ->
      default_output_dimensions id (Some (InputsList [output])) None None
      = Raise e
      \/ exists args,
          arg_compute_targets args
          = [GlueBatchCompute
               (TransientNode.compute_code (alias materialized_output) limit)
               G_1X 100 720]
          /\ Application_create_data args = Raise e)
  /\ (is_dependent output = false ->
      create_transient_node id output materialized_output limit
      = Application_create_data
          {| arg_id := id;
             arg_output_dimension_spec :=
               dimension_spec (domain_spec output);
             arg_output_dim_links := identity_links (clone output None);
             arg_compute_targets :=
               [GlueBatchCompute
                  (TransientNode.compute_code
                     (alias materialized_output) limit)
                  G_1X 100 720] |}).
Proof.
  unfold TransientNode.create_transient_node, CreateData.create_data.
  rewrite create_or_update_eq.
  rewrite (@create_or_update_hands_on_defaults
             id (Some (InputsList [output])) None None
             (TransientNode.compute_code (alias materialized_output) limit)
             (@compute_code_not_empty (alias materialized_output) limit)).
  split.
  - intros e.
    destruct (default_output_dimensions
                id (Some (InputsList [output])) None None)
      as [defaults|e0]; simpl.
    + intros H. right. eexists. split; [|exact H]. reflexivity.
    + intros [= <-]. now left.
  - intros Hdep.
    rewrite (@default_output_dimensions_independent
               id (InputsList [output]) output [] None
               eq_refl Hdep eq_refl).
    reflexivity.
Qed.

End Facts.

(** X17 where a dimension cannot be linked and compute targets are missing
    too, with a core method that would accept anything. *)
Lemma compute_targets_checked_last_witness :
  CreateData.create_data
    Scenarios.accepting_core Scenarios.accepting_core
    "converted" (Some (InputsList [Scenarios.rates])) None None None
  = Raise (ValueError
             (MsgCannotLinkDimension "day" (Some "rates") "converted")).
Proof.
  apply (proj2 (proj1 (@compute_targets_checked_last
                         string Scenarios.accepting_core
                         Scenarios.accepting_core false
                         "converted" (Some (InputsList [Scenarios.rates]))
                         None None None) _)).
  left. reflexivity.
Defined.

(** X19 for the output [clicks] under the limit [True], with a core method
    that refuses the node. *)
Lemma transient_node_is_created_witness :
  TransientNode.create_transient_node
    Scenarios.refusing_core Scenarios.accepting_core
    "2f1c-transient" Scenarios.clicks Scenarios.clicks
    (Some (TransientNode.BoolValue true))
  = Scenarios.refusing_core
      {| arg_id := "2f1c-transient";
         arg_output_dimension_spec := Scenarios.region_day;
         arg_output_dim_links :=
           identity_links (clone Scenarios.clicks None);
         arg_compute_targets :=
           [GlueBatchCompute "output=clicks.limit(True)" G_1X 100 720] |}.
Proof.
  exact (proj2 (@transient_node_is_created
                  string Scenarios.refusing_core Scenarios.accepting_core
                  "2f1c-transient" Scenarios.clicks Scenarios.clicks
                  (Some (TransientNode.BoolValue true))) eq_refl).
Defined.

End CreateDataFacts.

(** ** Keyword arguments *)

Module KwargsFacts.

Import Kwargs.

Section Dict.

Variable V : Type.

Lemma get_set_same (d : dict V) k v : get (set d k v) k = Some v.
Proof.
  induction d as [|[k' v'] d IH]; simpl.
  - now rewrite String.eqb_refl.
  - destruct (String.eqb k k') eqn:E; simpl.
    + now rewrite String.eqb_refl.
    + now rewrite E.
Qed.

Lemma get_set_other (d : dict V) k v k' :
  k' <> k -> get (set d k v) k' = get d k'.
Proof.
  intros Hne. apply String.eqb_neq in Hne.
  induction d as [|[k0 v0] d IH]; simpl.
  - now rewrite Hne.
  - destruct (String.eqb k k0) eqn:E; simpl.
    + apply String.eqb_eq in E. subst k0. now rewrite Hne.
    + now rewrite IH.
Qed.

(** A key that is not there is added at the end. *)
Lemma set_absent (d : dict V) k v :
  get d k = None -> set d k v = d ++ [(k, v)].
Proof.
  induction d as [|[k' v'] d IH]; simpl; [reflexivity|].
  destruct (String.eqb k k'); [discriminate|].
  intros H. now rewrite (IH H).
Qed.

Lemma get_app (d d' : dict V) k :
  get (d ++ d') k = match get d k with
                    | Some v => Some v
                    | None => get d' k
                    end.
Proof.
  induction d as [|[k' v'] d IH]; simpl; [reflexivity|].
  now destruct (String.eqb k k').
Qed.

Lemma setdefault_app (d : dict V) k v :
  setdefault d k v = d ++ (if contains d k then [] else [(k, v)]).
Proof.
  unfold setdefault, contains.
  destruct (get d k) eqn:E; [now rewrite app_nil_r | now apply set_absent].
Qed.

Lemma contains_app (d d' : dict V) k :
  contains (d ++ d') k = contains d k || contains d' k.
Proof.
  unfold contains. rewrite get_app. now destruct (get d k).
Qed.

Lemma contains_singleton k (v : V) k' :
  contains [(k, v)] k' = String.eqb k' k.
Proof. unfold contains. simpl. now destruct (String.eqb k' k). Qed.

Lemma contains_get (d : dict V) k :
  contains d k = true <-> exists v, get d k = Some v.
Proof.
  unfold contains. destruct (get d k) as [v|].
  - split; eauto.
  - split; [discriminate | intros [v H]; discriminate].
Qed.

End Dict.

End KwargsFacts.

(** ** [GlueBatchCompute] and [SparkSQL] *)

Module DescriptorsFacts.

Import Kwargs KwargsFacts Descriptors.

(** The defaults still missing from [kwargs], in the order the code adds
    them. *)
Lemma glue_defaults_app (kwargs : dict KwValue) :
  glue_defaults kwargs
  = kwargs
      ++ (if contains kwargs "Timeout" then [] else [("Timeout", KwInt 600)])
      ++ (if contains kwargs "GlueVersion" then []
          else [("GlueVersion", GlueVersion_AUTO)])
      ++ (if contains kwargs "MaxCapacity" then []
          else (if contains kwargs "WorkerType" then []
                else [("WorkerType", GlueWorkerType_G_1X)])
                 ++ (if contains kwargs "NumberOfWorkers" then []
                     else [("NumberOfWorkers", KwInt 25)])).
Proof.
  unfold glue_defaults. rewrite !setdefault_app, !contains_app.
  destruct (contains kwargs "Timeout"), (contains kwargs "GlueVersion"),
    (contains kwargs "MaxCapacity"), (contains kwargs "WorkerType"),
    (contains kwargs "NumberOfWorkers");
    simpl; rewrite <- ?app_assoc, ?app_nil_r; reflexivity.
Qed.

(** X20. [GlueBatchCompute] keeps the keyword arguments it is given, values
    and order, and appends the defaults that are missing: a timeout of 600
    and the automatic Glue version always; the worker type [G.1X] and 25
    workers unless [MaxCapacity] is given, in which case neither is
    added. *)
Theorem glue_keeps_given_arguments
        code lang abi extra_permissions retry_count
        (given : dict KwValue) :
  let after := kwargs (GlueBatchCompute code lang abi extra_permissions
                                        retry_count given) in
  (exists added,
      after = given ++ added
      /\ forall k v, In (k, v) added ->
                     get given k = None
                     /\ In (k, v) [("Timeout", KwInt 600);
                                   ("GlueVersion", GlueVersion_AUTO);
                                   ("WorkerType", GlueWorkerType_G_1X);
                                   ("NumberOfWorkers", KwInt 25)])
  /\ (forall k v, get given k = Some v -> get after k = Some v)
  /\ contains after "Timeout" = true
  /\ contains after "GlueVersion" = true
  /\ (contains given "MaxCapacity" = true ->
      get after "WorkerType" = get given "WorkerType"
      /\ get after "NumberOfWorkers" = get given "NumberOfWorkers")
  /\ (contains given "MaxCapacity" = false ->
      contains after "WorkerType" = true
      /\ contains after "NumberOfWorkers" = true).
Proof.
  cbv zeta. simpl kwargs. rewrite glue_defaults_app.
  refine (conj _ (conj _ (conj _ (conj _ (conj _ _))))).
  - eexists. split; [reflexivity|].
    intros k v Hin.
    unfold contains in Hin.
    destruct (get given "Timeout") eqn:Ht, (get given "GlueVersion") eqn:Hg,
      (get given "MaxCapacity") eqn:Hm, (get given "WorkerType") eqn:Hw,
      (get given "NumberOfWorkers") eqn:Hn; simpl in Hin;
      repeat (destruct Hin as [[= <- <-]|Hin]; [split; simpl; auto 6|]);
      contradiction.
  - intros k v Hget. rewrite get_app. now rewrite Hget.
  - rewrite contains_app. destruct (contains given "Timeout"); reflexivity.
  - rewrite !contains_app.
    destruct (contains given "GlueVersion");
      [now rewrite orb_true_l | now rewrite !orb_true_r].
  - intros Hmax. rewrite Hmax. rewrite !get_app. unfold contains.
    destruct (get given "Timeout"), (get given "GlueVersion"),
      (get given "WorkerType"), (get given "NumberOfWorkers"); now split.
  - intros Hmax. rewrite Hmax. rewrite !contains_app.
    destruct (contains given "Timeout"), (contains given "GlueVersion"),
      (contains given "WorkerType"), (contains given "NumberOfWorkers");
      now split.
Qed.

Lemma spark_sql_defaults_app (kwargs : dict KwValue) :
  spark_sql_defaults kwargs
  = kwargs
      ++ (if contains kwargs "WorkerType" then []
          else [("WorkerType", GlueWorkerType_G_1X)])
      ++ (if contains kwargs "NumberOfWorkers" then []
          else [("NumberOfWorkers", KwInt 25)])
      ++ (if contains kwargs "GlueVersion" || contains kwargs "RuntimeConfig"
          then [] else [("GlueVersion", GlueVersion_AUTO)]).
Proof.
  unfold spark_sql_defaults. rewrite !setdefault_app, !contains_app.
  destruct (contains kwargs "WorkerType") eqn:Hw,
    (contains kwargs "NumberOfWorkers") eqn:Hn,
    (contains kwargs "GlueVersion") eqn:Hg,
    (contains kwargs "RuntimeConfig") eqn:Hr;
    simpl; rewrite <- ?app_assoc, ?app_nil_r; try reflexivity;
    (rewrite set_absent;
     [rewrite <- ?app_assoc; reflexivity
     | rewrite ?get_app; unfold contains in Hg;
       destruct (get kwargs "GlueVersion"); [discriminate | reflexivity]]).
Qed.

(** X21. [SparkSQL] runs its code as embedded Python, whatever the caller
    passes; it keeps the keyword arguments it is given and appends the
    worker type [G.1X] and 25 workers when missing; it adds the automatic
    Glue version only when neither a Glue version nor a runtime
    configuration is given; it never adds a timeout, and what it appends
    is drawn from these three defaults, for missing keys only. *)
Theorem spark_sql_descriptor code extra_permissions retry_count
        (given : dict KwValue) :
  let descriptor := SparkSQL code extra_permissions retry_count given in
  let after := kwargs descriptor in
  lang descriptor = PYTHON
  /\ abi descriptor = GLUE_EMBEDDED
  /\ (forall k v, get given k = Some v -> get after k = Some v)
  /\ contains after "WorkerType" = true
  /\ contains after "NumberOfWorkers" = true
  /\ get after "Timeout" = get given "Timeout"
  /\ (contains given "RuntimeConfig" = true ->
      get after "GlueVersion" = get given "GlueVersion")
  /\ (contains given "RuntimeConfig" = false ->
      contains after "GlueVersion" = true)
  /\ (exists added,
         after = given ++ added
         /\ forall k v, In (k, v) added ->
                        get given k = None
                        /\ In (k, v) [("WorkerType", GlueWorkerType_G_1X);
                                      ("NumberOfWorkers", KwInt 25);
                                      ("GlueVersion", GlueVersion_AUTO)]).
Proof.
  cbv zeta. simpl lang. simpl abi. simpl kwargs.
  rewrite spark_sql_defaults_app.
  refine (conj eq_refl (conj eq_refl (conj _ (conj _ (conj _ (conj _
            (conj _ (conj _ _)))))))).
  - intros k v Hget. rewrite get_app. now rewrite Hget.
  - rewrite !contains_app.
    destruct (contains given "WorkerType"); [reflexivity|].
    now rewrite orb_true_l.
  - rewrite !contains_app.
    destruct (contains given "NumberOfWorkers");
      [now rewrite orb_true_l | now rewrite !orb_true_r].
  - rewrite !get_app. unfold contains.
    destruct (get given "Timeout"), (get given "WorkerType"),
      (get given "NumberOfWorkers"), (get given "GlueVersion"),
      (get given "RuntimeConfig"); reflexivity.
  - intros Hr. rewrite Hr, orb_true_r. rewrite !get_app. unfold contains.
    destruct (get given "GlueVersion"), (get given "WorkerType"),
      (get given "NumberOfWorkers"); reflexivity.
  - intros Hr. rewrite Hr, orb_false_r. rewrite !contains_app.
    destruct (contains given "GlueVersion"), (contains given "WorkerType"),
      (contains given "NumberOfWorkers"); reflexivity.
  - eexists. split; [reflexivity|].
    intros k v Hin. unfold contains in Hin.
    destruct (get given "WorkerType") eqn:Hw,
      (get given "NumberOfWorkers") eqn:Hn,
      (get given "GlueVersion") eqn:Hg,
      (get given "RuntimeConfig") eqn:Hr; simpl in Hin;
      repeat (destruct Hin as [[= <- <-]|Hin]; [split; simpl; auto 6|]);
      contradiction.
Qed.

(** The descriptor [_create_or_update_data_with_defaults] builds from a
    code string (line 1043) keeps its 100 workers and its timeout of 720;
    only the Glue version is added. *)
Lemma glue_keeps_given_arguments_witness :
  kwargs (GlueBatchCompute
            "output=clicks" PYTHON GLUE_EMBEDDED None 0
            [("WorkerType", GlueWorkerType_G_1X);
             ("NumberOfWorkers", KwInt 100); ("Timeout", KwInt 720)])
  = [("WorkerType", GlueWorkerType_G_1X); ("NumberOfWorkers", KwInt 100);
     ("Timeout", KwInt 720); ("GlueVersion", GlueVersion_AUTO)]
  /\ get (kwargs (GlueBatchCompute
                    "output=clicks" PYTHON GLUE_EMBEDDED None 0
                    [("MaxCapacity", KwInt 10)])) "WorkerType"
     = None.
Proof.
  split; [reflexivity|].
  destruct (glue_keeps_given_arguments
              "output=clicks" PYTHON GLUE_EMBEDDED None 0
              [("MaxCapacity", KwInt 10)])
    as (_ & _ & _ & _ & Hmax & _).
  exact (proj1 (Hmax eq_refl)).
Defined.

Lemma spark_sql_descriptor_witness :
  get (kwargs (SparkSQL "select 1" None 0 [("RuntimeConfig", KwStr "emr")]))
      "GlueVersion"
  = None.
Proof.
  destruct (spark_sql_descriptor
              "select 1" None 0 [("RuntimeConfig", KwStr "emr")])
    as (_ & _ & _ & _ & _ & _ & Hruntime & _).
  exact (Hruntime eq_refl).
Defined.

End DescriptorsFacts.

(** ** [AnyDate] and [add_timer] *)

Module TimerFacts.

Import Kwargs KwargsFacts Timer.

Section Facts.

Variable ParamValue : Type.
Variable str_value : string -> ParamValue.
Variable DatetimeGranularity : Type.
Variable granularity_value : DatetimeGranularity -> ParamValue.
Variable FORMAT_PARAM TIMEZONE_PARAM GRANULARITY_PARAM : string.
Variable DEFAULT_DATETIME_GRANULARITY : ParamValue.
Variable ANY_DIMENSION_VALUE_SPECIAL_CHAR : string.

Local Abbreviation AnyDate :=
  (Timer.AnyDate str_value FORMAT_PARAM GRANULARITY_PARAM
                 DEFAULT_DATETIME_GRANULARITY
                 ANY_DIMENSION_VALUE_SPECIAL_CHAR).
Local Abbreviation add_timer :=
  (Timer.add_timer str_value granularity_value
                   FORMAT_PARAM TIMEZONE_PARAM GRANULARITY_PARAM
                   DEFAULT_DATETIME_GRANULARITY
                   ANY_DIMENSION_VALUE_SPECIAL_CHAR).

Lemma date_params_app (given : dict ParamValue) :
  given <> [] ->
  date_params str_value FORMAT_PARAM GRANULARITY_PARAM
              DEFAULT_DATETIME_GRANULARITY (Some given)
  = Some (given
            ++ (if contains given FORMAT_PARAM then []
                else [(FORMAT_PARAM, str_value "%Y-%m-%d")])
            ++ (if contains given GRANULARITY_PARAM
                   || (negb (contains given FORMAT_PARAM)
                       && String.eqb GRANULARITY_PARAM FORMAT_PARAM)
                then []
                else [(GRANULARITY_PARAM, DEFAULT_DATETIME_GRANULARITY)])).
Proof.
  intros Hne. destruct given as [|entry given]; [now contradiction Hne|].
  unfold date_params. rewrite !setdefault_app, !contains_app.
  rewrite <- app_assoc. do 3 f_equal.
  destruct (contains (entry :: given) FORMAT_PARAM); simpl.
  - reflexivity.
  - now rewrite contains_singleton.
Qed.

(** X22. [AnyDate] leaves parameters that are [None] or empty as they are:
    no format and no granularity is set then. Parameters that are given
    are kept, values and order, and completed at the end: with the format
    [%Y-%m-%d] and with the default granularity, each when missing; no
    other parameter is added, so the time zone is never set by
    [AnyDate]. *)
Theorem any_date_completes_params name (given : option (dict ParamValue)) :
  let after := params (AnyDate name given) in
  type (AnyDate name given) = DimLinks.TypeDATETIME
  /\ (given = None \/ given = Some [] -> after = given)
  /\ (forall d, given = Some d -> d <> [] ->
      exists added,
        after = Some (d ++ added)
        /\ contains (d ++ added) FORMAT_PARAM = true
        /\ contains (d ++ added) GRANULARITY_PARAM = true
        /\ (forall k, k <> FORMAT_PARAM -> k <> GRANULARITY_PARAM ->
                      get (d ++ added) k = get d k)
        /\ (forall k v, get d k = Some v -> get (d ++ added) k = Some v)
        /\ (get d FORMAT_PARAM = None ->
            get (d ++ added) FORMAT_PARAM = Some (str_value "%Y-%m-%d"))
        /\ (get d GRANULARITY_PARAM = None ->
            GRANULARITY_PARAM <> FORMAT_PARAM ->
            get (d ++ added) GRANULARITY_PARAM
            = Some DEFAULT_DATETIME_GRANULARITY)
        /\ (forall k v,
               In (k, v) added ->
               get d k = None
               /\ ((k, v) = (FORMAT_PARAM, str_value "%Y-%m-%d")
                   \/ (k, v) = (GRANULARITY_PARAM,
                                DEFAULT_DATETIME_GRANULARITY)))).
Proof.
  cbv zeta. simpl params. refine (conj eq_refl (conj _ _)).
  - intros [-> | ->]; reflexivity.
  - intros d -> Hne. rewrite (date_params_app Hne).
    eexists. split; [reflexivity|].
    refine (conj _ (conj _ (conj _ (conj _ (conj _ (conj _ _)))))).
    + rewrite !contains_app.
      destruct (contains d FORMAT_PARAM); [reflexivity|].
      now rewrite contains_singleton, String.eqb_refl.
    + rewrite !contains_app.
      destruct (contains d GRANULARITY_PARAM); [reflexivity|].
      destruct (contains d FORMAT_PARAM); simpl.
      * now rewrite contains_singleton, String.eqb_refl.
      * rewrite contains_singleton.
        destruct (String.eqb GRANULARITY_PARAM FORMAT_PARAM); [reflexivity|].
        simpl. now rewrite contains_singleton, String.eqb_refl.
    + intros k Hf Hg. rewrite !get_app.
      apply String.eqb_neq in Hf, Hg.
      destruct (get d k); [reflexivity|].
      destruct (contains d FORMAT_PARAM); simpl;
        destruct (contains d GRANULARITY_PARAM); simpl;
        rewrite ?Hf, ?Hg; try reflexivity;
        destruct (String.eqb GRANULARITY_PARAM FORMAT_PARAM); simpl;
        rewrite ?Hf, ?Hg; reflexivity.
    + intros k v Hget. rewrite get_app. now rewrite Hget.
    + intros Hformat. rewrite !get_app, Hformat. unfold contains.
      rewrite Hformat. simpl. now rewrite String.eqb_refl.
    + intros Hgranularity Hdiffer. apply String.eqb_neq in Hdiffer.
      rewrite !get_app, Hgranularity. unfold contains.
      rewrite Hgranularity, Hdiffer, andb_false_r. simpl.
      destruct (get d FORMAT_PARAM); simpl;
        rewrite ?Hdiffer, ?String.eqb_refl; simpl;
        now rewrite ?String.eqb_refl.
    + intros k v Hin. unfold contains in Hin.
      destruct (get d FORMAT_PARAM) eqn:Hformat,
        (get d GRANULARITY_PARAM) eqn:Hgranularity; simpl in Hin.
      * contradiction.
      * destruct Hin as [[= <- <-]|[]]. auto.
      * destruct Hin as [[= <- <-]|[]]. auto.
      * destruct (String.eqb GRANULARITY_PARAM FORMAT_PARAM) eqn:Hsame;
          simpl in Hin.
        -- destruct Hin as [[= <- <-]|[]]. auto.
        -- destruct Hin as [[= <- <-]|[[= <- <-]|[]]]; auto.
Qed.

(** X23. The time dimension [add_timer] hands to [create_timer]: a date
    dimension of the given name whose parameters are, in this order, the
    given format, the time zone UTC and the granularity: the value of the
    given one, or the default granularity, which [AnyDate] fills in, when
    none is given. The parameter names are taken to differ. *)
Theorem add_timer_time_dimension
        id schedule_expression time_dimension_id time_dimension_format
        (time_dimension_granularity : option DatetimeGranularity) :
  FORMAT_PARAM <> TIMEZONE_PARAM ->
  FORMAT_PARAM <> GRANULARITY_PARAM ->
  TIMEZONE_PARAM <> GRANULARITY_PARAM ->
  time_dim (add_timer id schedule_expression time_dimension_id
                      time_dimension_format time_dimension_granularity)
  = {| name := time_dimension_id;
       type := DimLinks.TypeDATETIME;
       params :=
         Some [(FORMAT_PARAM, str_value time_dimension_format);
               (TIMEZONE_PARAM, str_value "UTC");
               (GRANULARITY_PARAM,
                match time_dimension_granularity with
                | Some g => granularity_value g
                | None => DEFAULT_DATETIME_GRANULARITY
                end)];
       value := ANY_DIMENSION_VALUE_SPECIAL_CHAR |}.
Proof.
  intros Hft Hfg Htg. apply String.eqb_neq in Hft, Hfg, Htg.
  assert (Htf : String.eqb TIMEZONE_PARAM FORMAT_PARAM = false)
    by now rewrite String.eqb_sym.
  assert (Hgf : String.eqb GRANULARITY_PARAM FORMAT_PARAM = false)
    by now rewrite String.eqb_sym.
  assert (Hgt : String.eqb GRANULARITY_PARAM TIMEZONE_PARAM = false)
    by now rewrite String.eqb_sym.
  unfold Timer.add_timer, Timer.AnyDate. simpl time_dim. f_equal.
  destruct time_dimension_granularity as [g|];
    repeat (progress (simpl; unfold setdefault, contains;
                      rewrite ?String.eqb_refl, ?Htf, ?Hgf, ?Hgt));
    reflexivity.
Qed.

End Facts.

Lemma any_date_completes_params_witness :
  params (Timer.AnyDate (fun s : string => s) "format" "granularity" "DAY" "*"
                        "day" (Some [("timezone", "PST")]))
  = Some [("timezone", "PST"); ("format", "%Y-%m-%d");
          ("granularity", "DAY")]
  /\ params (Timer.AnyDate (fun s : string => s) "format" "granularity" "DAY"
                           "*" "day" (Some []))
     = Some [].
Proof.
  split; [reflexivity|].
  destruct (any_date_completes_params
              (fun s : string => s) "format" "granularity" "DAY" "*"
              "day" (Some [])) as (_ & Hempty & _).
  apply Hempty. now right.
Defined.

Lemma add_timer_time_dimension_witness :
  params (time_dim (Timer.add_timer
                      (fun s : string => s) (fun g : string => g)
                      "format" "timezone" "granularity" "DAY" "*"
                      "nightly" "rate(1 day)" "time" "%Y-%m-%d" None))
  = Some [("format", "%Y-%m-%d"); ("timezone", "UTC");
          ("granularity", "DAY")].
Proof.
  rewrite (@add_timer_time_dimension
             string (fun s : string => s) string (fun g : string => g)
             "format" "timezone" "granularity" "DAY" "*"
             "nightly" "rate(1 day)" "time" "%Y-%m-%d" None);
    [reflexivity | discriminate | discriminate | discriminate].
Defined.

End TimerFacts.

(** ** [S3] and [add_external_data] *)

Module ExternalDataFacts.

Import Kwargs DimLinks DimLinksFacts ExternalData.

Lemma substring_all (s : string) : String.substring 0 (String.length s) s = s.
Proof. induction s as [|c s IH]; simpl; [reflexivity | now rewrite IH]. Qed.

(** A string that starts with a prefix is the prefix and what follows
    it. *)
Lemma prefix_split (p s : string) :
  String.prefix p s = true ->
  s = (p ++ String.substring (String.length p)
                             (String.length s - String.length p) s)%string.
Proof.
  revert s. induction p as [|c p IH]; intros s Hprefix; simpl.
  - now rewrite Nat.sub_0_r, substring_all.
  - destruct s as [|c' s]; [discriminate|]. simpl in Hprefix.
    destruct (Ascii.ascii_dec c c') as [->|]; [|discriminate].
    simpl. f_equal. exact (IH s Hprefix).
Qed.

(** X24. [S3] takes the scheme off a bucket given as [s3://name], once, and
    leaves any other bucket as it is: either way the bucket given is the
    bucket kept, or the scheme followed by the bucket kept. *)
Theorem S3_bucket_without_scheme
        account_id bucket_arg key_prefix dimension kwargs :
  let kept := bucket (S3 account_id bucket_arg key_prefix dimension kwargs) in
  (forall name, bucket_arg = ("s3://" ++ name)%string -> kept = name)
  /\ (String.prefix "s3://" bucket_arg = false -> kept = bucket_arg)
  /\ (bucket_arg = kept \/ bucket_arg = ("s3://" ++ kept)%string).
Proof.
  cbv zeta. simpl bucket. unfold strip_scheme.
  refine (conj _ (conj _ _)).
  - intros name ->.
    replace (String.prefix "s3://" ("s3://" ++ name)%string) with true
      by now destruct name.
    change (String.length ("s3://" ++ name)%string)
      with (5 + String.length name).
    replace (5 + String.length name - 5) with (String.length name) by lia.
    exact (substring_all name).
  - now intros ->.
  - destruct (String.prefix "s3://" bucket_arg) eqn:Hprefix;
      [right | now left].
    exact (prefix_split "s3://" bucket_arg Hprefix).
Qed.

Lemma create_spec_flattened (variants : list DimensionVariant) :
  nested_map (_create_spec variants)
  = map (fun v => (var_name v,
                   {| dim_name := var_name v; dim_type := var_type v |}))
        variants.
Proof.
  induction variants as [|v variants IH]; [reflexivity|].
  cbn [_create_spec nested_map]. rewrite flattened_cons. cbn [dim_name].
  rewrite IH. simpl. now rewrite app_nil_r.
Qed.

Lemma create_filter_variants (variants : list DimensionVariant) :
  match _create_filter variants with
  | Some filter => filter_variants filter
  | None => []
  end = variants.
Proof.
  induction variants as [|v variants IH]; [reflexivity|].
  simpl. rewrite app_nil_r. f_equal. exact IH.
Qed.

(** X25. What [add_external_data] hands to [marshal_external_data] for a
    dataset with dimension variables: one placeholder partition key per
    variable; a spec whose flattened dimensions are the names and types of
    the variables, in their order; a filter whose variants are the
    variables themselves, in their order; the bucket and folder of the
    dataset; a file-check protocol unless the completion file is empty.
    A dataset without variables gets neither spec nor filter. *)
Theorem add_external_data_dimensions data_id s3_dataset completion_file :
  let args := add_external_data data_id s3_dataset completion_file in
  let variables := dimension_vars s3_dataset in
  partition_keys args = repeat "{}" (List.length variables)
  /\ nested_map (spec args)
     = map (fun v => (var_name v,
                      {| dim_name := var_name v; dim_type := var_type v |}))
           variables
  /\ match filter args with
     | Some f => filter_variants f
     | None => []
     end = variables
  /\ (variables = [] <-> spec args = None)
  /\ (variables = [] <-> filter args = None)
  /\ (protocol args = None <-> completion_file = "")
  /\ (completion_file <> "" ->
      protocol args = Some {| protocol_type := "FILE_CHECK";
                              protocol_file := completion_file |}).
Proof.
  cbv zeta. unfold add_external_data.
  cbn [partition_keys spec filter protocol].
  refine (conj _ (conj _ (conj _ (conj _ (conj _ (conj _ _)))))).
  - induction (dimension_vars s3_dataset) as [|v vs IH]; simpl;
      [reflexivity | now rewrite IH].
  - apply create_spec_flattened.
  - apply create_filter_variants.
  - destruct (dimension_vars s3_dataset); simpl; split;
      (reflexivity || discriminate).
  - destruct (dimension_vars s3_dataset); simpl; split;
      (reflexivity || discriminate).
  - destruct (String.eqb completion_file "") eqn:E.
    + apply String.eqb_eq in E. now split.
    + apply String.eqb_neq in E. split; [discriminate | contradiction].
  - intros Hne. apply String.eqb_neq in Hne. now rewrite Hne.
Qed.

Lemma S3_bucket_without_scheme_witness :
  bucket Scenarios.sales_dataset = "sales-bucket".
Proof.
  exact (proj1 (S3_bucket_without_scheme
                  "111122223333" "s3://sales-bucket" "daily"
                  [Scenarios.any_region; Scenarios.any_day] [])
               "sales-bucket" eq_refl).
Defined.

Lemma add_external_data_dimensions_witness :
  protocol (add_external_data "sales" Scenarios.sales_dataset "_SUCCESS")
  = Some {| protocol_type := "FILE_CHECK"; protocol_file := "_SUCCESS" |}.
Proof.
  destruct (add_external_data_dimensions
              "sales" Scenarios.sales_dataset "_SUCCESS")
    as (_ & _ & _ & _ & _ & _ & Hprotocol).
  apply Hprotocol. discriminate.
Defined.

End ExternalDataFacts.

(** ** [glue_table] *)

Module GlueTableFacts.

Import Kwargs KwargsFacts GlueTable.

Section Facts.

Variable MetaValue : Type.
Variable PRIMARY_KEYS_KEY : string.

(** X26. The metadata [glue_table] hands to [GlueTable]: an account id, a
    table type and primary keys given as arguments replace metadata of the
    same key; every other key of the metadata is handed on as given. The
    key of the primary keys is taken to differ from the other two. *)
Theorem glue_table_arguments_win
        (source_account_id table_type primary_keys : option MetaValue)
        (metadata : dict MetaValue) :
  PRIMARY_KEYS_KEY <> "account_id" ->
  PRIMARY_KEYS_KEY <> "table_type" ->
  let handed := glue_table_metadata PRIMARY_KEYS_KEY source_account_id
                                    table_type primary_keys metadata in
  let chosen (argument : option MetaValue) key :=
    match argument with
    | Some v => Some v
    | None => get metadata key
    end in
  get handed "account_id" = chosen source_account_id "account_id"
  /\ get handed "table_type" = chosen table_type "table_type"
  /\ get handed PRIMARY_KEYS_KEY = chosen primary_keys PRIMARY_KEYS_KEY
  /\ (forall key,
         key <> "account_id" -> key <> "table_type" ->
         key <> PRIMARY_KEYS_KEY ->
         get handed key = get metadata key).
Proof.
  intros Hpa Hpt. cbv zeta. unfold glue_table_metadata.
  assert (Hap : "account_id" <> PRIMARY_KEYS_KEY) by congruence.
  assert (Htp : "table_type" <> PRIMARY_KEYS_KEY) by congruence.
  assert (Hat : "account_id" <> "table_type") by discriminate.
  assert (Hta : "table_type" <> "account_id") by discriminate.
  refine (conj _ (conj _ (conj _ _)));
    destruct source_account_id, table_type, primary_keys; intros;
    repeat first [ rewrite get_set_same
                 | rewrite get_set_other by assumption ];
    reflexivity.
Qed.

End Facts.

Lemma glue_table_arguments_win_witness :
  get (glue_table_metadata
         "primary_keys" (Some "111122223333") None None
         [("account_id", "999999999999"); ("owner", "sales")])
      "account_id"
  = Some "111122223333".
Proof.
  refine (proj1 (@glue_table_arguments_win
                   string "primary_keys" (Some "111122223333") None None
                   [("account_id", "999999999999"); ("owner", "sales")]
                   _ _)); discriminate.
Defined.

End GlueTableFacts.

(** ** [AWSApplication.__init__] and [aws_app] *)

Module AppInitFacts.

Import AppInit.

Section Facts.

Variable HostPlatform : Type.

(** X27. [AWSApplication.__init__] builds its platform whenever a region
    is given, as second argument or as keyword: the second argument wins
    over the keyword, and a platform passed together with the keyword is
    not used. A platform is taken as given only without the keyword, and
    the [ValueError] is raised only when there is neither. The credentials
    are those of the development role when its account is given and not
    empty, whatever access pair comes with it; else those of the access
    pair when both halves are given; else the default ones: one half of an
    access pair alone is not used. [aws_app] passes its flag where
    [__init__] expects the account of the development role: with the flag
    set, the credentials of the development role are asked for with [True]
    as account; without it the default credentials are used. *)
Theorem init_region_and_credentials
        (region_or_platform : RegionOrPlatform HostPlatform)
        (dev_role_account_id : option AccountArg)
        (access_id access_key kwargs_region : option string) :
  let r := __init__ region_or_platform dev_role_account_id access_id access_key
                kwargs_region in
  let credentials :=
    credentials_of dev_role_account_id access_id access_key in
  (forall region, region_or_platform = ArgRegion region ->
                  r = BuiltPlatform credentials region)
  /\ (forall region, (forall given, region_or_platform <> ArgRegion given) ->
                     kwargs_region = Some region ->
                     r = BuiltPlatform credentials region)
  /\ (forall platform, r = GivenPlatform platform
                       <-> region_or_platform = ArgPlatform platform
                           /\ kwargs_region = None)
  /\ (r = NoPlatformOrRegion
      <-> region_or_platform = ArgOther /\ kwargs_region = None)
  /\ (forall account, credentials = DevRoleCredentials account
                      <-> dev_role_account_id = Some account
                          /\ truthy dev_role_account_id = true)
  /\ (forall id key, credentials = AdminAccessPair id key
                     <-> truthy dev_role_account_id = false
                         /\ access_id = Some id /\ access_key = Some key)
  /\ (credentials = DefaultCredentialsAsAdmin
      <-> truthy dev_role_account_id = false
          /\ (access_id = None \/ access_key = None))
  /\ (forall region use_dev_role,
         aws_app HostPlatform region use_dev_role
         = BuiltPlatform
             (if use_dev_role then DevRoleCredentials (AccountFlag true)
              else DefaultCredentialsAsAdmin)
             region).
Proof.
  cbv zeta. unfold __init__.
  refine (conj _ (conj _ (conj _ (conj _ (conj _ (conj _ (conj _ _))))))).
  - now intros region ->.
  - intros region Hnot ->.
    destruct region_or_platform as [given|platform|];
      [now contradiction (Hnot given) | reflexivity | reflexivity].
  - intros platform.
    destruct region_or_platform as [given|given|],
      kwargs_region as [region|]; split;
      try discriminate; try (intros [H1 H2]; discriminate).
    + intros [= ->]. now split.
    + intros [[= ->] _]. reflexivity.
  - destruct region_or_platform as [given|given|],
      kwargs_region as [region|]; split;
      try discriminate; try (intros [H1 H2]; discriminate); auto.
  - intros account. unfold credentials_of.
    destruct dev_role_account_id as [[id|[|]]|]; simpl;
      try destruct (String.eqb id ""); simpl;
      destruct access_id, access_key; split;
      try discriminate; try (intros [H1 H2]; discriminate).
    all: try (intros [= ->]; now split).
    all: intros [[= ->] _]; reflexivity.
  - intros id key. unfold credentials_of.
    destruct dev_role_account_id as [[aid|[|]]|]; simpl;
      try destruct (String.eqb aid ""); simpl;
      destruct access_id, access_key; split;
      try discriminate;
      try (intros (H1 & H2 & H3); discriminate).
    all: try (intros [= -> ->]; now repeat split).
    all: intros (_ & [= ->] & [= ->]); reflexivity.
  - unfold credentials_of.
    destruct dev_role_account_id as [[aid|[|]]|]; simpl;
      try destruct (String.eqb aid ""); simpl;
      destruct access_id, access_key; split;
      try discriminate; auto;
      try (intros [H1 H2]; discriminate);
      intros [_ [H|H]]; discriminate.
  - intros region use_dev_role. now destruct use_dev_role.
Qed.

End Facts.

Lemma init_region_and_credentials_witness :
  __init__ (ArgPlatform 7) (Some (AccountId "")) (Some "AKIA") (Some "secret")
       (Some "eu-west-1")
  = BuiltPlatform (AdminAccessPair "AKIA" "secret") "eu-west-1".
Proof.
  refine (proj1 (proj2 (init_region_and_credentials
                          (ArgPlatform 7) (Some (AccountId ""))
                          (Some "AKIA") (Some "secret") (Some "eu-west-1")))
                "eu-west-1" _ eq_refl).
  discriminate.
Defined.

End AppInitFacts.

(** ** Compute records *)

Module ComputeRecordsFacts.

Import ComputeRecords.

Section Facts.

Variable ComputeExecutionDetails : Type.

(** X28. The three helpers on a compute record agree on a record without
    session state: [has_started] is false, [has_session_failed] is [None]
    (not [False]) and [get_execution_details] raises an
    [AttributeError]; each of these happens for such a record only. A
    session that failed has started, and its executions can be read. *)
Theorem helpers_on_compute_records
        (compute_record : ComputeRecord ComputeExecutionDetails) :
  (has_started compute_record = false
   <-> session_state compute_record = None)
  /\ (has_session_failed compute_record = AndNone
      <-> has_started compute_record = false)
  /\ (get_execution_details compute_record = Raise AttributeError
      <-> has_started compute_record = false)
  /\ (has_session_failed compute_record = AndBool true ->
      has_started compute_record = true
      /\ exists state,
          session_state compute_record = Some state
          /\ state_type state = FAILED
          /\ get_execution_details compute_record = Ok (executions state)).
Proof.
  unfold has_started, has_session_failed, get_execution_details.
  destruct (session_state compute_record) as [state|].
  - refine (conj _ (conj _ (conj _ _))); try (split; discriminate).
    intros [= Hfailed]. split; [reflexivity|].
    exists state. split; [reflexivity|].
    split; [now destruct (state_type state) | reflexivity].
  - refine (conj _ (conj _ (conj _ _))); first [now split | discriminate].
Qed.

End Facts.

Lemma helpers_on_compute_records_witness :
  has_started {| session_state :=
                   Some {| state_type := FAILED;
                           executions := ["attempt-1"; "attempt-2"] |} |}
  = true.
Proof.
  exact (proj1 (proj2 (proj2 (proj2
           (helpers_on_compute_records
              {| session_state :=
                   Some {| state_type := FAILED;
                           executions := ["attempt-1"; "attempt-2"] |} |})))
           eq_refl)).
Defined.

End ComputeRecordsFacts.

(** ** [_load_external_data]: the clean-up and the session *)

Module TransientLoadMore.

Import TransientLoad.

Section Facts.

Variable Context : Type.
Variable create_data_effect : Session Context -> Session Context.
Variable execute_effect : option exn -> Session Context -> Session Context.

Local Abbreviation _load_external_data :=
  (TransientLoad._load_external_data create_data_effect execute_effect).

Lemma load_external_data_started data_id o c (self : Session Context) :
  c <> CloseAfter 0 ->
  _load_external_data data_id o c self
  = match source o with
    | S3 =>
        let '(ys, ex) := consume c (s3_objects o) Exhausted in
        {| session := self; yields := ys; exit := ex; log := [] |}
    | GLUE_TABLE =>
        glue_table_branch create_data_effect execute_effect data_id o c self
    | OtherSource =>
        {| session := self; yields := []; exit := Exhausted; log := [] |}
    end.
Proof.
  intros Hc. destruct c as [|[|n]];
    [reflexivity | now contradiction Hc | reflexivity].
Qed.

(** The run of the catalog-table branch once the transient node exists. *)
Lemma glue_table_branch_run data_id o c (self : Session Context) :
  in_dev_context o = true ->
  create_data_raises o = None ->
  let body := try_body execute_effect o c
                       (create_data_effect (save_dev_state self)) in
  let cleanup := finally_block data_id o (active_context self)
                               (fst (fst body)) in
  glue_table_branch create_data_effect execute_effect data_id o c self
  = {| session := fst cleanup;
       yields := snd (fst body);
       exit := snd body;
       log := snd cleanup |}.
Proof.
  intros Hdev Hcreate. cbv zeta. unfold glue_table_branch.
  rewrite Hdev, Hcreate. simpl negb. cbv iota.
  destruct (try_body execute_effect o c
                     (create_data_effect (save_dev_state self)))
    as [[body ys] ex].
  reflexivity.
Qed.

Lemma try_body_ext o o' c (self : Session Context) :
  execute_raises o = execute_raises o' ->
  load_internal o = load_internal o' ->
  load_internal_raises_after o = load_internal_raises_after o' ->
  try_body execute_effect o c self = try_body execute_effect o' c self.
Proof. unfold try_body. now intros -> -> ->. Qed.

(** X30. The clean-up after a catalog-table load cannot change the load:
    two runs whose collaborators differ in the answer of [delete_internal]
    only leave the same session, yield the same partitions and end the same
    way, so an error of the read is never replaced by one of the clean-up.
    The answer shows in the log alone: nothing is logged after a deletion,
    two records after a deletion that is refused or raises. *)
Theorem cleanup_only_shows_in_the_log data_id o o' c (self : Session Context) :
  source o = source o' ->
  s3_objects o = s3_objects o' ->
  in_dev_context o = in_dev_context o' ->
  create_data_raises o = create_data_raises o' ->
  execute_raises o = execute_raises o' ->
  load_internal o = load_internal o' ->
  load_internal_raises_after o = load_internal_raises_after o' ->
  let run := _load_external_data data_id o c self in
  let run' := _load_external_data data_id o' c self in
  session run = session run'
  /\ yields run = yields run'
  /\ exit run = exit run'
  /\ (source o = GLUE_TABLE -> in_dev_context o = true ->
      create_data_raises o = None -> c <> CloseAfter 0 ->
      log run = match delete_internal o with
                | Deleted => []
                | NotDeleted | DeleteRaised =>
                    [LogCleanupProblems data_id; LogResidualPaths]
                end).
Proof.
  intros Hsource Hobjects Hdev Hcreate Hexecute Hinternal Hafter.
  cbv zeta.
  destruct c as [|[|n]] eqn:Hc.
  2: { refine (conj eq_refl (conj eq_refl (conj eq_refl _))).
       intros _ _ _ H. now contradiction H. }
  all: rewrite <- Hc; assert (Hstarted : c <> CloseAfter 0)
         by (rewrite Hc; discriminate);
       rewrite !(load_external_data_started _ _ _ Hstarted);
       rewrite <- Hsource, <- Hobjects;
       (destruct (source o) eqn:Hsrc;
        [destruct (consume c (s3_objects o) Exhausted) as [ys ex];
         refine (conj eq_refl (conj eq_refl (conj eq_refl _)));
         discriminate
        | | refine (conj eq_refl (conj eq_refl (conj eq_refl _)));
            discriminate]);
       (destruct (in_dev_context o) eqn:Hin;
        [|unfold glue_table_branch; rewrite <- Hdev, Hin; simpl;
          refine (conj eq_refl (conj eq_refl (conj eq_refl _)));
          discriminate]);
       (destruct (create_data_raises o) as [e|] eqn:Hraises;
        [unfold glue_table_branch;
         rewrite <- Hdev, <- Hcreate, Hin, Hraises; simpl;
         refine (conj eq_refl (conj eq_refl (conj eq_refl _)));
         discriminate|]);
       rewrite (@glue_table_branch_run data_id o c self Hin Hraises);
       rewrite (@glue_table_branch_run data_id o' c self);
       [| now rewrite <- Hdev | now rewrite <- Hcreate];
       rewrite <- (@try_body_ext o o' c _ Hexecute Hinternal Hafter);
       cbn [session yields exit log];
       refine (conj eq_refl (conj eq_refl (conj eq_refl _)));
       intros _ _ _ _; unfold finally_block; simpl;
       now destruct (delete_internal o).
Qed.

End Facts.

Lemma cleanup_only_shows_in_the_log_witness :
  exit (TransientLoad._load_external_data
          Scenarios.add_transient_node Scenarios.activate_and_run
          "table" Scenarios.glue_cleanup_fails Exhaust
          Scenarios.running_session)
  = exit (TransientLoad._load_external_data
            Scenarios.add_transient_node Scenarios.activate_and_run
            "table" Scenarios.glue_success Exhaust
            Scenarios.running_session)
  /\ log (TransientLoad._load_external_data
            Scenarios.add_transient_node Scenarios.activate_and_run
            "table" Scenarios.glue_cleanup_fails Exhaust
            Scenarios.running_session)
     = [LogCleanupProblems "table"; LogResidualPaths].
Proof.
  destruct (@cleanup_only_shows_in_the_log
              (list string)
              Scenarios.add_transient_node Scenarios.activate_and_run
              "table" Scenarios.glue_cleanup_fails Scenarios.glue_success
              Exhaust Scenarios.running_session
              eq_refl eq_refl eq_refl eq_refl eq_refl eq_refl eq_refl)
    as (_ & _ & Hexit & Hlog).
  split; [exact Hexit|].
  apply Hlog; [reflexivity | reflexivity | reflexivity | discriminate].
Defined.


End TransientLoadMore.
